(** * Frostvakt: the frost-risk classifier, the forecast pipeline and the
      orchestrator, embedded from the Python sources

    - [Analyzer]       src/advanced_frost_analyzer.py (the classifier)
    - [AnalyzerTable]  src/advanced_frost_analyzer.py (the batch analysis)
    - [Sms]            src/sms_notifier.py ([create_frost_sms_message])
    - [Pipeline]       src/main.py (the transformation and the two loaders)
    - [Orchestrator]   src/main.py ([main])
    - [Examples]       the inputs of the examples and counterexamples

    Conventions of the embedding.

    - A Python float is the exact rational it denotes ([Q]); the float
      comparisons of the sources only compare such values with each other,
      so they are the comparisons of [Q].  A value for which [pd.isna]
      answers [True] ([None], [NaN], [NaT], [pd.NA]) is [None].
    - A timestamp is a count of seconds ([Z]) on the naive local time line.
    - Text is a [string] of bytes (UTF-8); where the sources measure a
      length in characters the bytes are decoded to code points first. *)

From Stdlib Require Import ZArith QArith Qround Lqa Lia List String Ascii Bool DecimalString.
From Stdlib Require Import Sorted Permutation.
From stdpp Require Import gmap strings.
Import ListNotations.

Local Open Scope string_scope.

(** ** Python values *)

(** [pd.isna(x)] *)
Definition isna {A : Type} (x : option A) : bool :=
  match x with None => true | Some _ => false end.

Definition Qltb (x y : Q) : bool := negb (Qle_bool y x).

Notation "x <=? y" := (Qle_bool x y) : Q_scope.
Notation "x <? y" := (Qltb x y) : Q_scope.

(** ** src/advanced_frost_analyzer.py *)

Module Analyzer.

Local Open Scope Q_scope.

(** An argument of the classifier: a float, or absent ([None] or [NaN]). *)
Definition pyfloat := option Q.

Definition calculate_cloud_impact_factor (cloud_cover : pyfloat) : Q :=
  match cloud_cover with
  | None => 1.0
  | Some c =>
      if c <=? 20 then 1.5
      else if c <=? 50 then 1.2
      else if c <=? 80 then 1.0
      else 0.7
  end.

(** The ["reason"] entry of the details dictionary.  The source renders it
    with an f-string; the embedding keeps the rule and the numbers that the
    text is rendered from. *)
Inductive reason : Type :=
| SaknadeData
| Dagtid (hour_of_day : Z) (temperature : Q)
| UnderNoll (temperature : Q)
| Vindstilla (temperature temp_limit wind_speed : Q)
| HogFuktighet (temperature wind_speed humidity : Q)
| IngenRisk (temperature wind_speed : Q).

(** The details dictionary: an entry is [None] when the key is not set. *)
Record details : Type := mkDetails {
  d_reason : reason;
  d_note : option string;
  d_daytime_filter : option bool;
  d_algorithm : option string;
  d_temp : option Q;
  d_wind : option Q;
  d_cloud_cover : option pyfloat;
  d_humidity : option pyfloat;
  d_cloud_factor : option Q;
  d_cloud_condition : option string
}.

Definition details_reason_only (r : reason) : details :=
  mkDetails r None None None None None None None None None.

Definition details_inputs (r : reason) (note : option string)
    (temperature wind_speed : Q) (cloud_cover humidity : pyfloat) : details :=
  mkDetails r note None (Some "komplett") (Some temperature) (Some wind_speed)
            (Some cloud_cover) (Some humidity) None None.

(** [8 <= hour_of_day <= 17] under [hour_of_day is not None] *)
Definition daytime (hour_of_day : option Z) : bool :=
  match hour_of_day with
  | Some h => ((8 <=? h)%Z && (h <=? 17)%Z)%bool
  | None => false
  end.

(** Lines 105-116: the temperature limit and the risk that the cloud factor
    selects. *)
Definition dynamic_threshold (cloud_factor : Q) : Q * string * Z :=
  if 1.4 <=? cloud_factor then (3.0, "låg", 1%Z)
  else if 1.1 <=? cloud_factor then (2.0, "medel", 2%Z)
  else (1.0, "medel", 2%Z).

Definition cloud_condition (cloud_factor : Q) : string :=
  if 1.4 <=? cloud_factor then "klart"
  else if 1.1 <=? cloud_factor then "halvklart"
  else "mulet".

(** [not pd.isna(humidity) and temperature <= 2 and wind_speed < 3 and
    humidity > 85] *)
Definition humidity_rule (temperature wind_speed : Q) (humidity : pyfloat) : bool :=
  match humidity with
  | None => false
  | Some h => ((temperature <=? 2) && (wind_speed <? 3) && (85 <? h))%bool
  end.

Definition calculate_advanced_frost_risk
    (temperature wind_speed cloud_cover humidity : pyfloat)
    (hour_of_day : option Z) : string * Z * details :=
  match temperature, wind_speed with
  | Some t, Some w =>
      if (daytime hour_of_day && (0 <? t))%bool then
        ("ingen", 0%Z,
         mkDetails (Dagtid (default 0%Z hour_of_day) t)
                   (Some "Solstrålning förhindrar frost") (Some true)
                   (Some "komplett") None None None None None None)
      else if t <=? 0 then
        ("hög", 3%Z, details_inputs (UnderNoll t) None t w cloud_cover humidity)
      else
        let cloud_factor := calculate_cloud_impact_factor cloud_cover in
        let '(temp_limit, risk_level, risk_numeric) := dynamic_threshold cloud_factor in
        if ((t <=? temp_limit) && (w <? 4))%bool then
          (risk_level, risk_numeric,
           mkDetails (Vindstilla t temp_limit w) None None (Some "komplett")
                     (Some t) (Some w) (Some cloud_cover) (Some humidity)
                     (Some cloud_factor) (Some (cloud_condition cloud_factor)))
        else if humidity_rule t w humidity then
          ("medel", 2%Z,
           details_inputs (HogFuktighet t w (default 0 humidity))
                          (Some "Kondensrisk vid hög luftfuktighet")
                          t w cloud_cover humidity)
        else
          ("ingen", 0%Z, details_inputs (IngenRisk t w) None t w cloud_cover humidity)
  | _, _ => ("okänd", 0%Z, details_reason_only SaknadeData)
  end.

(** The first two components of the classifier's result. *)
Definition risk_of (r : string * Z * details) : string * Z := (fst (fst r), snd (fst r)).

End Analyzer.

(** ** Exceptions

    An exception is its class name and the text of [str(e)]; a computation
    that can raise returns a [result]. *)

Inductive exn : Type := PyErr (kind text : string).

Definition exn_text (e : exn) : string := let 'PyErr _ text := e in text.

Inductive result (A : Type) : Type :=
| Ok (a : A)
| Raise (e : exn).

Arguments Ok {A} a.
Arguments Raise {A} e.

Global Instance result_ret : MRet result := fun A a => Ok a.

Global Instance result_bind : MBind result := fun A B k c =>
  match c with
  | Ok a => k a
  | Raise e => Raise e
  end.

(** [str(KeyError(key))] puts the key between quotes. *)
Definition KeyError (key : string) : exn := PyErr "KeyError" ("'" +:+ key +:+ "'").

(** Reading the attribute [attr] of a value whose type, named [type_name]
    ("NoneType" for [None], "list", "str", "int", ...), does not have it. *)
Definition AttributeError (type_name attr : string) : exn :=
  PyErr "AttributeError"
        ("'" +:+ type_name +:+ "' object has no attribute '" +:+ attr +:+ "'").

(** Iterating over a value that is not iterable. *)
Definition NotIterable (type_name : string) : exn :=
  PyErr "TypeError" ("'" +:+ type_name +:+ "' object is not iterable").

(** ** Numbers as text *)

Definition string_of_Z (z : Z) : string := NilZero.string_of_int (Z.to_int z).

(** Rounding to the nearest integer, ties to even, as [format] and [round]
    do. *)
Definition round_half_even (q : Q) : Z :=
  let f := Qfloor q in
  let r := (q - inject_Z f)%Q in
  if (r <? 0.5)%Q then f
  else if (0.5 <? r)%Q then (f + 1)%Z
  else if Z.even f then f else (f + 1)%Z.

(** [f"{x:.0f}"] of a float: the sign is kept when a negative value rounds
    to zero, and [NaN] prints as "nan". *)
Definition format_0f (x : option Q) : string :=
  match x with
  | None => "nan"
  | Some q =>
      let z := round_half_even q in
      if (z =? 0)%Z && (q <? 0)%Q then "-0" else string_of_Z z
  end.

(** [len(s)] of a Python [str]: the code points of the UTF-8 text, that is
    the bytes that are not continuation bytes (10xxxxxx). *)
Definition is_continuation (a : ascii) : bool :=
  let 'Ascii _ _ _ _ _ _ b6 b7 := a in b7 && negb b6.

Fixpoint char_count (s : string) : nat :=
  match s with
  | EmptyString => 0
  | String a s' => if is_continuation a then char_count s' else S (char_count s')
  end.

(** ** Logging

    A record of a logger call: the level and what the message is rendered
    from. *)

Inductive level : Type := LvlDebug | LvlInfo | LvlWarning | LvlError.

Inductive message : Type :=
| TomDataFrame                                   (* "Tom DataFrame skickad till frost-analys" *)
| SaknarKolumner (missing_cols : list string)    (* "Saknar kolumner för frost-analys: ..." *)
| FrostanalysRisk (warning_count total : nat)    (* "Frostanalys: n/m timmar har risk" *)
| IngaTider.                                     (* "Inga tider i API-svar" *)

Definition log_record : Type := level * message.

(** ** Tables

    A pandas table of the pipeline: the ordered column labels and the rows.
    A row has one typed cell per column the sources ever read or write; the
    cell of a column that the table does not list is never read.  An absent
    cell ([None], [NaN], [NaT]) is [None]. *)

Record Row : Type := mkRow {
  valid_time : option Z;
  temperature_2m : option Q;
  relative_humidity_2m : option Q;
  precipitation : option Q;
  wind_speed_10m : option Q;
  precipitation_probability : option Q;
  cloud_cover : option Q;
  dataset : option string;
  forecast_issue_time : option Z;
  horizon_hours : option Q;
  run_id : option string;
  frost_risk_level : option string;
  frost_risk_numeric : option Z;
  frost_warning : option bool;
  frost_details : option Analyzer.details;
  created_at : option Z;
  forecast_issue_datetime : option Z
}.

Record DataFrame : Type := mkDataFrame {
  columns : list string;
  rows : list Row
}.

(** Writing one cell of a row. *)

Definition set_temperature_2m (v : option Q) (r : Row) : Row :=
  mkRow (valid_time r) v (relative_humidity_2m r) (precipitation r) (wind_speed_10m r)
        (precipitation_probability r) (cloud_cover r) (dataset r)
        (forecast_issue_time r) (horizon_hours r) (run_id r) (frost_risk_level r)
        (frost_risk_numeric r) (frost_warning r) (frost_details r) (created_at r)
        (forecast_issue_datetime r).

Definition set_relative_humidity_2m (v : option Q) (r : Row) : Row :=
  mkRow (valid_time r) (temperature_2m r) v (precipitation r) (wind_speed_10m r)
        (precipitation_probability r) (cloud_cover r) (dataset r)
        (forecast_issue_time r) (horizon_hours r) (run_id r) (frost_risk_level r)
        (frost_risk_numeric r) (frost_warning r) (frost_details r) (created_at r)
        (forecast_issue_datetime r).

Definition set_precipitation (v : option Q) (r : Row) : Row :=
  mkRow (valid_time r) (temperature_2m r) (relative_humidity_2m r) v (wind_speed_10m r)
        (precipitation_probability r) (cloud_cover r) (dataset r)
        (forecast_issue_time r) (horizon_hours r) (run_id r) (frost_risk_level r)
        (frost_risk_numeric r) (frost_warning r) (frost_details r) (created_at r)
        (forecast_issue_datetime r).

Definition set_wind_speed_10m (v : option Q) (r : Row) : Row :=
  mkRow (valid_time r) (temperature_2m r) (relative_humidity_2m r) (precipitation r) v
        (precipitation_probability r) (cloud_cover r) (dataset r)
        (forecast_issue_time r) (horizon_hours r) (run_id r) (frost_risk_level r)
        (frost_risk_numeric r) (frost_warning r) (frost_details r) (created_at r)
        (forecast_issue_datetime r).

Definition set_precipitation_probability (v : option Q) (r : Row) : Row :=
  mkRow (valid_time r) (temperature_2m r) (relative_humidity_2m r) (precipitation r)
        (wind_speed_10m r) v (cloud_cover r) (dataset r) (forecast_issue_time r)
        (horizon_hours r) (run_id r) (frost_risk_level r) (frost_risk_numeric r)
        (frost_warning r) (frost_details r) (created_at r) (forecast_issue_datetime r).

Definition set_cloud_cover (v : option Q) (r : Row) : Row :=
  mkRow (valid_time r) (temperature_2m r) (relative_humidity_2m r) (precipitation r)
        (wind_speed_10m r) (precipitation_probability r) v (dataset r)
        (forecast_issue_time r) (horizon_hours r) (run_id r) (frost_risk_level r)
        (frost_risk_numeric r) (frost_warning r) (frost_details r) (created_at r)
        (forecast_issue_datetime r).

Definition set_dataset (v : option string) (r : Row) : Row :=
  mkRow (valid_time r) (temperature_2m r) (relative_humidity_2m r) (precipitation r)
        (wind_speed_10m r) (precipitation_probability r) (cloud_cover r) v
        (forecast_issue_time r) (horizon_hours r) (run_id r) (frost_risk_level r)
        (frost_risk_numeric r) (frost_warning r) (frost_details r) (created_at r)
        (forecast_issue_datetime r).

Definition set_forecast_issue_time (v : option Z) (r : Row) : Row :=
  mkRow (valid_time r) (temperature_2m r) (relative_humidity_2m r) (precipitation r)
        (wind_speed_10m r) (precipitation_probability r) (cloud_cover r) (dataset r) v
        (horizon_hours r) (run_id r) (frost_risk_level r) (frost_risk_numeric r)
        (frost_warning r) (frost_details r) (created_at r) (forecast_issue_datetime r).

Definition set_horizon_hours (v : option Q) (r : Row) : Row :=
  mkRow (valid_time r) (temperature_2m r) (relative_humidity_2m r) (precipitation r)
        (wind_speed_10m r) (precipitation_probability r) (cloud_cover r) (dataset r)
        (forecast_issue_time r) v (run_id r) (frost_risk_level r) (frost_risk_numeric r)
        (frost_warning r) (frost_details r) (created_at r) (forecast_issue_datetime r).

Definition set_run_id (v : option string) (r : Row) : Row :=
  mkRow (valid_time r) (temperature_2m r) (relative_humidity_2m r) (precipitation r)
        (wind_speed_10m r) (precipitation_probability r) (cloud_cover r) (dataset r)
        (forecast_issue_time r) (horizon_hours r) v (frost_risk_level r)
        (frost_risk_numeric r) (frost_warning r) (frost_details r) (created_at r)
        (forecast_issue_datetime r).

Definition set_created_at (v : option Z) (r : Row) : Row :=
  mkRow (valid_time r) (temperature_2m r) (relative_humidity_2m r) (precipitation r)
        (wind_speed_10m r) (precipitation_probability r) (cloud_cover r) (dataset r)
        (forecast_issue_time r) (horizon_hours r) (run_id r) (frost_risk_level r)
        (frost_risk_numeric r) (frost_warning r) (frost_details r) v
        (forecast_issue_datetime r).

Definition set_forecast_issue_datetime (v : option Z) (r : Row) : Row :=
  mkRow (valid_time r) (temperature_2m r) (relative_humidity_2m r) (precipitation r)
        (wind_speed_10m r) (precipitation_probability r) (cloud_cover r) (dataset r)
        (forecast_issue_time r) (horizon_hours r) (run_id r) (frost_risk_level r)
        (frost_risk_numeric r) (frost_warning r) (frost_details r) (created_at r) v.

(** [pd.DataFrame()] *)
Definition empty_frame : DataFrame := mkDataFrame [] [].

Definition is_nil {A : Type} (l : list A) : bool :=
  match l with [] => true | _ => false end.

(** [df.empty]: some axis has length 0. *)
Definition df_empty (df : DataFrame) : bool := is_nil (columns df) || is_nil (rows df).

(** [col in df.columns] *)
Definition has_column (col : string) (df : DataFrame) : bool :=
  bool_decide (col ∈ columns df).

(** The labels after [df[col] = ...]: a new label goes last. *)
Definition with_column (col : string) (cols : list string) : list string :=
  if bool_decide (col ∈ cols) then cols else cols ++ [col].

(** [df[col] = ...], the cells written row by row by [f]. *)
Definition assign (col : string) (f : Row -> Row) (df : DataFrame) : DataFrame :=
  mkDataFrame (with_column col (columns df)) (map f (rows df)).

(** [df.drop(col, axis=1)] for a listed column. *)
Definition drop_column (col : string) (df : DataFrame) : DataFrame :=
  mkDataFrame (List.filter (fun c => negb (String.eqb c col)) (columns df)) (rows df).

(** Reading a column that the table does not list raises [KeyError]. *)
Definition require_column (col : string) (df : DataFrame) : result unit :=
  if has_column col df then Ok tt else Raise (KeyError col).

(** [.hour] of a timestamp *)
Definition hour_of (t : Z) : Z := (t / 3600) mod 24.

Module AnalyzerTable.

Import Analyzer.

Definition set_frost (result : string * Z * details) (r : Row) : Row :=
  let '(risk_text, risk_numeric, det) := result in
  mkRow (valid_time r) (temperature_2m r) (relative_humidity_2m r) (precipitation r)
        (wind_speed_10m r) (precipitation_probability r) (cloud_cover r) (dataset r)
        (forecast_issue_time r) (horizon_hours r) (run_id r) (Some risk_text)
        (Some risk_numeric) (Some (0 <? risk_numeric)%Z) (Some det) (created_at r)
        (forecast_issue_datetime r).

Definition required_cols : list string := ["temperature_2m"; "wind_speed_10m"].

(** The body of the loop over [result_df.iterrows()]. *)
Definition analyze_row (has_humidity has_valid_time : bool) (row : Row)
    : string * Z * details :=
  let humidity := if has_humidity then relative_humidity_2m row else None in
  let hour_of_day :=
    if has_valid_time then
      match valid_time row with
      | Some t => Some (hour_of t)
      | None => None
      end
    else None in
  calculate_advanced_frost_risk (temperature_2m row) (wind_speed_10m row)
                                (cloud_cover row) humidity hour_of_day.

Definition analyze_dataframe_advanced (df : DataFrame) : DataFrame * list log_record :=
  if df_empty df then (df, [(LvlWarning, TomDataFrame)])
  else
    let missing_cols := List.filter (fun col => negb (has_column col df)) required_cols in
    if negb (is_nil missing_cols) then (df, [(LvlError, SaknarKolumner missing_cols)])
    else
      let result_df :=
        if has_column "cloud_cover" df then df
        else assign "cloud_cover" (set_cloud_cover (Some 50.0%Q)) df in
      let has_humidity :=
        has_column "relative_humidity_2m" result_df
        && negb (forallb (fun r => isna (relative_humidity_2m r)) (rows result_df)) in
      let has_valid_time := has_column "valid_time" result_df in
      let analyzed :=
        map (fun row => set_frost (analyze_row has_humidity has_valid_time row) row)
            (rows result_df) in
      let out :=
        mkDataFrame
          (with_column "frost_details"
            (with_column "frost_warning"
              (with_column "frost_risk_numeric"
                (with_column "frost_risk_level" (columns result_df)))))
          analyzed in
      let warning_count :=
        length (List.filter (fun r => default false (frost_warning r)) analyzed) in
      (out,
       if (0 <? warning_count)%nat
       then [(LvlInfo, FrostanalysRisk warning_count (length analyzed))]
       else []).

(** The columns that the analysis adds. *)
Definition frost_columns : list string :=
  ["frost_risk_level"; "frost_risk_numeric"; "frost_warning"; "frost_details"].

(** The rows of a table with a risk number above 0. *)
Definition risky_rows (l : list Row) : list Row :=
  List.filter (fun r => bool_decide (0 < default 0 (frost_risk_numeric r))%Z) l.

End AnalyzerTable.

(** ** src/sms_notifier.py *)

Module Sms.

Local Open Scope Z_scope.

(** [series.max()], [series.min()] and [series.mean()] skip absent cells
    and are absent ([NaN]) when no cell is left. *)
Definition series_max (l : list (option Z)) : option Z :=
  foldr (fun x acc =>
           match x, acc with
           | Some a, Some b => Some (Z.max a b)
           | Some a, None => Some a
           | None, _ => acc
           end) None l.

Definition series_min (l : list (option Q)) : option Q :=
  foldr (fun x acc =>
           match x, acc with
           | Some a, Some b => Some (if (a <=? b)%Q then a else b)
           | Some a, None => Some a
           | None, _ => acc
           end) None l.

Definition series_mean (l : list (option Q)) : option Q :=
  let present := omap id l in
  match present with
  | [] => None
  | _ => Some (foldr Qplus 0%Q present / inject_Z (Z.of_nat (length present)))%Q
  end.

(** [.date()]: the day number of a timestamp. *)
Definition date_of (t : Z) : Z := t / 86400.

(** The civil date (year, month, day) of a day number counted from
    1970-01-01. *)
Definition civil_from_days (days : Z) : Z * Z * Z :=
  let z := days + 719468 in
  let era := z / 146097 in
  let doe := z - era * 146097 in
  let yoe := (doe - doe / 1460 + doe / 36524 - doe / 146096) / 365 in
  let doy := doe - (365 * yoe + yoe / 4 - yoe / 100) in
  let mp := (5 * doy + 2) / 153 in
  let d := doy - (153 * mp + 2) / 5 + 1 in
  let m := if mp <? 10 then mp + 3 else mp - 9 in
  let y := yoe + era * 400 + (if m <=? 2 then 1 else 0) in
  (y, m, d).

Definition two_digits (n : Z) : string :=
  if n <? 10 then "0" +:+ string_of_Z n else string_of_Z n.

(** [strftime("%d/%m")] *)
Definition strftime_d_m (t : Z) : string :=
  let '(_, m, d) := civil_from_days (date_of t) in
  two_digits d +:+ "/" +:+ two_digits m.

(** [max_risk >= n]; a comparison with [NaN] is false. *)
Definition risk_at_least (n : Z) (max_risk : option Z) : bool :=
  match max_risk with Some m => n <=? m | None => false end.

(** [avg_wind < x]; a comparison with [NaN] is false. *)
Definition wind_below (x : Q) (avg_wind : option Q) : bool :=
  match avg_wind with Some a => (a <? x)%Q | None => false end.

(** The message of lines 153-156. *)
Definition long_message (emoji risk_text time_or_duration temp wind_text action location : string)
    : string :=
  emoji +:+ " FROST " +:+ risk_text +:+ " " +:+ time_or_duration +:+ ". Temp " +:+ temp
    +:+ "°C, " +:+ wind_text +:+ ". " +:+ action +:+ " MVH " +:+ location.

(** The message of line 159. *)
Definition short_message (emoji risk_text temp action location : string) : string :=
  emoji +:+ " FROST " +:+ risk_text +:+ ". Temp " +:+ temp +:+ "°C. " +:+ action
    +:+ " MVH " +:+ location.

(** [create_frost_sms_message(warnings_df, location)]; [now] is the value of
    [datetime.now()]. *)
Definition create_frost_sms_message (now : Z) (warnings_df : DataFrame) (location : string)
    : result string :=
  if df_empty warnings_df then Ok ""
  else
    require_column "frost_risk_numeric" warnings_df ;;
    let max_risk := series_max (map frost_risk_numeric (rows warnings_df)) in
    let warning_count := length (rows warnings_df) in
    require_column "valid_time" warnings_df ;;
    first_warning_time ←
      match rows warnings_df with
      | r :: _ =>
          match valid_time r with
          | Some t => Ok t
          | None => Raise (PyErr "ValueError" "NaTType does not support strftime")
          end
      | [] => Raise (PyErr "IndexError" "single positional indexer is out-of-bounds")
      end;
    let time_text :=
      if date_of first_warning_time =? date_of now then "idag"
      else if date_of first_warning_time =? date_of (now + 86400) then "imorgon"
      else strftime_d_m first_warning_time in
    let '(risk_text, emoji) :=
      if risk_at_least 3 max_risk then ("HÖG RISK", "🚨")
      else if risk_at_least 2 max_risk then ("MEDEL RISK", "⚠️")
      else ("LÅG RISK", "❄️") in
    require_column "temperature_2m" warnings_df ;;
    let min_temp := series_min (map temperature_2m (rows warnings_df)) in
    require_column "wind_speed_10m" warnings_df ;;
    let avg_wind := series_mean (map wind_speed_10m (rows warnings_df)) in
    let duration_text :=
      if (warning_count =? 1)%nat then "1 timme"
      else if (warning_count <=? 6)%nat then string_of_Z (Z.of_nat warning_count) +:+ " timmar"
      else "flera timmar" in
    let wind_text :=
      if wind_below 2 avg_wind then "svag vind"
      else if wind_below 4 avg_wind then "måttlig vind"
      else "kraftig vind" in
    let action :=
      if risk_at_least 3 max_risk then "Täck växter NU!"
      else if risk_at_least 2 max_risk then "Förbered skydd!"
      else "Håll koll!" in
    let message :=
      if (warning_count =? 1)%nat
      then long_message emoji risk_text time_text (format_0f min_temp) wind_text action location
      else long_message emoji risk_text duration_text (format_0f min_temp) wind_text action
                        location in
    Ok (if (160 <? char_count message)%nat
        then short_message emoji risk_text (format_0f min_temp) action location
        else message).

End Sms.

(** ** src/main.py: transformation and persistence *)

Module Pipeline.

Local Open Scope Z_scope.

(** The provider's answer: the object under "hourly" maps "time" to an array
    of timestamps and a variable name to an array of numbers and nulls.  A
    key that the object does not have, or whose value is null, is [None]:
    [hourly.get("time", [])] is then falsy, and [hourly.get(col, ...)] gives
    a column of absent cells either way. *)
Record hourly_object : Type := mkHourly {
  time : option (list (option Z));
  series : gmap string (list (option Q))
}.

(** The member "hourly" of the answer: missing, an object, or a value of
    another type (null, an array, a string, a number), given by the name of
    its Python type. *)
Inductive hourly_value : Type :=
| HourlyMissing
| HourlyNotObject (type_name : string)
| HourlyObject (h : hourly_object).

(** The decoded answer that [transform_hourly_json] receives: an object, or
    a value of another type ([None] when [fetch_with_retry] returns without
    an answer, an array, ...). *)
Inductive forecast_json : Type :=
| JsonNotObject (type_name : string)
| JsonObject (hourly : hourly_value).

Definition WANTED_COLS : list string :=
  ["temperature_2m"; "relative_humidity_2m"; "precipitation"; "wind_speed_10m";
   "precipitation_probability"; "cloud_cover"].

Definition blank_row (t : option Z) : Row :=
  mkRow t None None None None None None None None None None None None None None None None.

(** Writing the cell of one of the wanted columns. *)
Definition set_wanted (col : string) (v : option Q) (r : Row) : Row :=
  if String.eqb col "temperature_2m" then set_temperature_2m v r
  else if String.eqb col "relative_humidity_2m" then set_relative_humidity_2m v r
  else if String.eqb col "precipitation" then set_precipitation v r
  else if String.eqb col "wind_speed_10m" then set_wind_speed_10m v r
  else if String.eqb col "precipitation_probability" then set_precipitation_probability v r
  else if String.eqb col "cloud_cover" then set_cloud_cover v r
  else r.

(** [df[col] = values] for a list: pandas raises when the list has another
    length than the table. *)
Definition assign_values (col : string) (values : list (option Q)) (df : DataFrame)
    : result DataFrame :=
  if (length values =? length (rows df))%nat then
    Ok (mkDataFrame (with_column col (columns df))
                    (zip_with (set_wanted col) values (rows df)))
  else
    Raise (PyErr "ValueError"
             ("Length of values (" +:+ string_of_Z (Z.of_nat (length values))
              +:+ ") does not match length of index ("
              +:+ string_of_Z (Z.of_nat (length (rows df))) +:+ ")")).

(** The loop over [WANTED_COLS]. *)
Fixpoint assign_wanted (h : hourly_object) (cols : list string) (df : DataFrame)
    : result DataFrame :=
  match cols with
  | [] => Ok df
  | col :: cols' =>
      let values := default (replicate (length (rows df)) None) (series h !! col) in
      df' ← assign_values col values df;
      assign_wanted h cols' df'
  end.

(** [x / 3.6] on a cell: an absent cell stays absent. *)
Definition kmh_to_ms (v : option Q) : option Q :=
  match v with
  | Some x => Some (x / 3.6)%Q
  | None => None
  end.

(** [.round(1)] of a float. *)
Definition round_1 (q : Q) : Q := (inject_Z (round_half_even (q * 10)) / 10)%Q.

(** [((valid_time - fit).total_seconds() / 3600.0).round(1)].  Timestamps
    are counted in whole seconds; the fraction of a second that an issue
    time read from the clock carries is not kept, and the statements about
    the transformation say when a horizon is present, not its value. *)
Definition horizon (fit : Z) (valid : option Z) : option Q :=
  match valid with
  | Some t => Some (round_1 (inject_Z (t - fit) / 3600))
  | None => None
  end.

Definition transform_columns : list string :=
  ["valid_time"; "temperature_2m"; "relative_humidity_2m"; "precipitation";
   "wind_speed_10m"; "precipitation_probability"; "cloud_cover"; "dataset";
   "forecast_issue_time"; "horizon_hours"; "run_id"].

(** [df[[...]]]: the listed columns in the listed order; a label that the
    table does not have raises [KeyError]. *)
Definition select_columns (cols : list string) (df : DataFrame) : result DataFrame :=
  match List.filter (fun c => negb (has_column c df)) cols with
  | [] => Ok (mkDataFrame cols (rows df))
  | missing :: _ => Raise (KeyError missing)
  end.

(** Lines 159-160: [json_data.get("hourly", {})], on whose value
    [.get("time", [])] is called next; [.get] exists on an object only. *)
Definition hourly_of (json_data : forecast_json) : result hourly_object :=
  match json_data with
  | JsonNotObject type_name => Raise (AttributeError type_name "get")
  | JsonObject HourlyMissing => Ok (mkHourly None ∅)
  | JsonObject (HourlyNotObject type_name) => Raise (AttributeError type_name "get")
  | JsonObject (HourlyObject h) => Ok h
  end.

Definition transform_hourly_json (json_data : forecast_json) (dataset : string)
    (forecast_issue_time : option Z) (run_id : string)
    : result DataFrame * list log_record :=
  match hourly_of json_data with
  | Raise e => (Raise e, [])
  | Ok h =>
  let times := default [] (time h) in
  if is_nil times then (Ok empty_frame, [(LvlWarning, IngaTider)])
  else
    let df := mkDataFrame ["valid_time"] (map blank_row times) in
    (df ← assign_wanted h WANTED_COLS df;
     let df :=
       if has_column "wind_speed_10m" df
       then assign "wind_speed_10m" (fun r => set_wind_speed_10m (kmh_to_ms (wind_speed_10m r)) r) df
       else df in
     let df := assign "dataset" (set_dataset (Some dataset)) df in
     let df :=
       match forecast_issue_time with
       | Some fit =>
           assign "horizon_hours" (fun r => set_horizon_hours (horizon fit (valid_time r)) r)
             (assign "forecast_issue_time" (set_forecast_issue_time (Some fit)) df)
       | None =>
           assign "horizon_hours" (set_horizon_hours None)
             (assign "forecast_issue_time" (set_forecast_issue_time None) df)
       end in
     let df := assign "run_id" (set_run_id (Some run_id)) df in
     select_columns transform_columns df,
     [])
  end.

(** *** The two loaders *)

(** [needle in haystack] for two [str]. *)
Fixpoint contains (needle haystack : string) : bool :=
  String.prefix needle haystack
  || match haystack with
     | EmptyString => false
     | String _ rest => contains needle rest
     end.

Inductive statement : Type :=
| INSERT_WEATHER_SQL
| INSERT_FROST_WARNING_SQL.

(** The database as the loaders see it: executing a statement with a record
    either succeeds ([None]) or raises an exception with the given text. *)
Definition engine : Type := statement -> Row -> option string.

(** An absent value sorts last, whatever the direction. *)
Definition compare_na_last (cmp : Z -> Z -> comparison) (a b : option Z) : comparison :=
  match a, b with
  | Some x, Some y => cmp x y
  | Some _, None => Lt
  | None, Some _ => Gt
  | None, None => Eq
  end.

(** The order of [sort_values(['valid_time', 'forecast_issue_datetime'],
    ascending=[True, False])]. *)
Definition sort_compare (r1 r2 : Row) : comparison :=
  match compare_na_last Z.compare (valid_time r1) (valid_time r2) with
  | Eq => compare_na_last (fun x y => Z.compare y x)
                          (forecast_issue_datetime r1) (forecast_issue_datetime r2)
  | c => c
  end.

Fixpoint insert_sorted (r : Row) (l : list Row) : list Row :=
  match l with
  | [] => [r]
  | x :: l' =>
      match sort_compare r x with
      | Gt => x :: insert_sorted r l'
      | _ => r :: l
      end
  end.

(** The sort is stable: rows that compare equal keep their order. *)
Definition sort_values (l : list Row) : list Row := foldr insert_sorted [] l.

(** [GroupBy.first()] takes, column by column, the first value of the group
    that is not absent. *)
Definition first_valid {A : Type} (f : Row -> option A) (g : list Row) : option A :=
  foldr (fun r acc => match f r with Some a => Some a | None => acc end) None g.

Definition group_first (k : Z) (g : list Row) : Row :=
  mkRow (Some k) (first_valid temperature_2m g) (first_valid relative_humidity_2m g)
        (first_valid precipitation g) (first_valid wind_speed_10m g)
        (first_valid precipitation_probability g) (first_valid cloud_cover g)
        (first_valid dataset g) (first_valid forecast_issue_time g)
        (first_valid horizon_hours g) (first_valid run_id g)
        (first_valid frost_risk_level g) (first_valid frost_risk_numeric g)
        (first_valid frost_warning g) (first_valid frost_details g)
        (first_valid created_at g) (first_valid forecast_issue_datetime g).

Fixpoint insert_key (k : Z) (l : list Z) : list Z :=
  match l with
  | [] => [k]
  | x :: l' =>
      if k <? x then k :: l
      else if k =? x then l
      else x :: insert_key k l'
  end.

(** The group keys: the valid times that are present, each once, in
    ascending order. *)
Definition group_keys (l : list Row) : list Z :=
  foldr (fun r acc => match valid_time r with Some k => insert_key k acc | None => acc end)
        [] l.

Definition in_group (k : Z) (r : Row) : bool := bool_decide (valid_time r = Some k).

(** [df.groupby('valid_time').first().reset_index()] *)
Definition groupby_valid_time_first (df : DataFrame) : DataFrame :=
  mkDataFrame
    ("valid_time" :: List.filter (fun c => negb (String.eqb c "valid_time")) (columns df))
    (map (fun k => group_first k (List.filter (in_group k) (rows df))) (group_keys (rows df))).

(** Lines 291-294 and 332-335: keep, for each valid time, the first row in
    the order of the latest issue time. *)
Definition deduplicate (df : DataFrame) : result DataFrame :=
  let df := assign "forecast_issue_datetime"
              (fun r => set_forecast_issue_datetime (forecast_issue_time r) r) df in
  require_column "valid_time" df ;;
  let df := mkDataFrame (columns df) (sort_values (rows df)) in
  let df := groupby_valid_time_first df in
  Ok (drop_column "forecast_issue_datetime" df).

(** The records that [load_weather_data] hands to the database (lines
    285-297).  The two time columns are turned into text of the form
    "%Y-%m-%d %H:%M:%S" first; this text and the count of seconds determine
    each other and are ordered alike, so the cells keep the count. *)
Definition weather_records (df : DataFrame) : result (list Row) :=
  if has_column "forecast_issue_time" df
     && negb (forallb (fun r => isna (forecast_issue_time r)) (rows df))
  then df' ← deduplicate df; Ok (rows df')
  else Ok (rows df).

(** The loop over the records inside [engine.begin()]: the records whose
    statement was executed, or the exception that leaves the loop (and rolls
    the transaction back). *)
Fixpoint insert_all (execute : engine) (stmt : statement) (records : list Row)
    : result (list Row) :=
  match records with
  | [] => Ok []
  | rec :: rest =>
      match execute stmt rec with
      | None => written ← insert_all execute stmt rest; Ok (rec :: written)
      | Some text =>
          if contains "UNIQUE constraint failed" text
          then insert_all execute stmt rest
          else Raise (PyErr "Exception" text)
      end
  end.

(** [load_weather_data(df, engine)]: the returned count and the rows
    written. *)
Definition load_weather_data (execute : engine) (df : DataFrame) : result (nat * list Row) :=
  if df_empty df then Ok (0%nat, [])
  else
    records ← weather_records df;
    written ← insert_all execute INSERT_WEATHER_SQL records;
    Ok (length records, written).

Definition warning_cols : list string :=
  ["valid_time"; "temperature_2m"; "wind_speed_10m"; "cloud_cover"; "frost_risk_level";
   "frost_risk_numeric"; "dataset"; "forecast_issue_time"; "horizon_hours"; "run_id";
   "created_at"].

(** [df[df['frost_warning'] == True]] *)
Definition warning_rows (l : list Row) : list Row :=
  List.filter (fun r => bool_decide (frost_warning r = Some true)) l.

(** The records that [load_frost_warnings] hands to the database (lines
    318-346); [now] is the value of [datetime.now()]. *)
Definition frost_warning_records (now : Z) (df : DataFrame) : result (list Row) :=
  require_column "frost_warning" df ;;
  let warnings_df := mkDataFrame (columns df) (warning_rows (rows df)) in
  if df_empty warnings_df then Ok []
  else
    let warnings_df := assign "created_at" (set_created_at (Some now)) warnings_df in
    warnings_df ←
      (if has_column "forecast_issue_time" warnings_df
       then deduplicate warnings_df
       else Ok warnings_df);
    let warnings_df :=
      if has_column "cloud_cover" warnings_df then warnings_df
      else assign "cloud_cover" (set_cloud_cover None) warnings_df in
    selected ← select_columns warning_cols warnings_df;
    Ok (rows selected).

(** [load_frost_warnings(df, engine, run_id)]: the returned count and the
    rows written. *)
Definition load_frost_warnings (execute : engine) (now : Z) (df : DataFrame)
    (run_id : string) : result (nat * list Row) :=
  if df_empty df then Ok (0%nat, [])
  else
    records ← frost_warning_records now df;
    written ← insert_all execute INSERT_FROST_WARNING_SQL records;
    Ok (length records, written).

(** *** The tables that [create_database_tables] creates (lines 204-252) *)

Definition table_name (stmt : statement) : string :=
  match stmt with
  | INSERT_WEATHER_SQL => "weather_hourly"
  | INSERT_FROST_WARNING_SQL => "frost_warnings"
  end.

(** The columns of the table as it is created. *)
Definition created_columns (stmt : statement) : list string :=
  match stmt with
  | INSERT_WEATHER_SQL =>
      ["id"; "valid_time"; "temperature_2m"; "relative_humidity_2m"; "precipitation";
       "wind_speed_10m"; "precipitation_probability"; "cloud_cover"; "dataset";
       "forecast_issue_time"; "horizon_hours"; "run_id"; "created_at"]
  | INSERT_FROST_WARNING_SQL =>
      ["id"; "valid_time"; "temperature_2m"; "wind_speed_10m"; "frost_risk_level";
       "frost_risk_numeric"; "dataset"; "forecast_issue_time"; "horizon_hours"; "run_id";
       "created_at"]
  end.

(** The columns that the statement names (lines 254-278). *)
Definition inserted_columns (stmt : statement) : list string :=
  match stmt with
  | INSERT_WEATHER_SQL =>
      ["valid_time"; "temperature_2m"; "relative_humidity_2m"; "precipitation";
       "wind_speed_10m"; "precipitation_probability"; "cloud_cover"; "dataset";
       "forecast_issue_time"; "horizon_hours"; "run_id"]
  | INSERT_FROST_WARNING_SQL =>
      ["valid_time"; "temperature_2m"; "wind_speed_10m"; "cloud_cover"; "frost_risk_level";
       "frost_risk_numeric"; "dataset"; "forecast_issue_time"; "horizon_hours"; "run_id";
       "created_at"]
  end.

(** The inserted columns that the table declares NOT NULL. *)
Definition not_null_columns (stmt : statement) : list string :=
  match stmt with
  | INSERT_WEATHER_SQL => ["valid_time"; "dataset"; "run_id"]
  | INSERT_FROST_WARNING_SQL =>
      ["valid_time"; "frost_risk_level"; "frost_risk_numeric"; "dataset"; "run_id";
       "created_at"]
  end.

(** The record has no value for a column that can be declared NOT NULL. *)
Definition null_in (col : string) (rec : Row) : bool :=
  if String.eqb col "valid_time" then isna (valid_time rec)
  else if String.eqb col "dataset" then isna (dataset rec)
  else if String.eqb col "run_id" then isna (run_id rec)
  else if String.eqb col "frost_risk_level" then isna (frost_risk_level rec)
  else if String.eqb col "frost_risk_numeric" then isna (frost_risk_numeric rec)
  else if String.eqb col "created_at" then isna (created_at rec)
  else false.

(** SQLite on the tables as they are created: a statement that names a
    column which its table does not have cannot be prepared, whatever the
    record; a null in a NOT NULL column is refused; every other record is
    inserted, or replaces the row with the same (valid_time, dataset).  The
    text is the one SQLite reports, with which the text of the exception
    that SQLAlchemy raises begins (it goes on with the statement and the
    values of the record). *)
Definition created_database : engine := fun stmt rec =>
  match List.filter (fun c => negb (bool_decide (c ∈ created_columns stmt)))
                    (inserted_columns stmt) with
  | c :: _ =>
      Some ("(sqlite3.OperationalError) table " +:+ table_name stmt
            +:+ " has no column named " +:+ c)
  | [] =>
      match List.filter (fun c => null_in c rec) (not_null_columns stmt) with
      | c :: _ =>
          Some ("(sqlite3.IntegrityError) NOT NULL constraint failed: "
                +:+ table_name stmt +:+ "." +:+ c)
      | [] => None
      end
  end.

(** *** Vocabulary of the statements about the pipeline *)

(** The values assigned to a wanted column: the provider's array, or as
    many absent values as there are rows. *)
Definition values_of (h : hourly_object) (col : string) (n : nat) : list (option Q) :=
  default (replicate n None) (series h !! col).

(** One turn of the loop over the wanted columns, when it does not raise. *)
Definition assign_step (h : hourly_object) (df : DataFrame) (col : string) : DataFrame :=
  mkDataFrame (with_column col (columns df))
              (zip_with (set_wanted col) (values_of h col (length (rows df))) (rows df)).

Definition parallel (h : hourly_object) (cols : list string) (n : nat) : Prop :=
  forall (col : string) (values : list (option Q)),
    In col cols -> series h !! col = Some values -> length values = n.

(** [r1] may stand before [r2] after the sort. *)
Definition sorted_before (r1 r2 : Row) : Prop := sort_compare r1 r2 <> Gt.

(** The rows that [deduplicate] returns for the rows [l]. *)
Definition deduplicated (l : list Row) : list Row :=
  let sorted :=
    sort_values (map (fun r => set_forecast_issue_datetime (forecast_issue_time r) r) l) in
  map (fun k => group_first k (List.filter (in_group k) sorted)) (group_keys sorted).

(** The labels that [deduplicate] returns for the labels [cols]. *)
Definition deduplicated_columns (cols : list string) : list string :=
  List.filter (fun c => negb (String.eqb c "forecast_issue_datetime"))
    ("valid_time"
     :: List.filter (fun c => negb (String.eqb c "valid_time"))
          (with_column "forecast_issue_datetime" cols)).

End Pipeline.

(** ** src/main.py: the orchestrator *)

Module Orchestrator.

Import Pipeline.

(** [error.lower()] on the ASCII letters, which is where the two keywords of
    the exit decision live. *)
Definition lower_ascii (a : ascii) : ascii :=
  let n := nat_of_ascii a in
  if ((65 <=? n) && (n <=? 90))%nat then ascii_of_nat (n + 32) else a.

Fixpoint lower (s : string) : string :=
  match s with
  | EmptyString => EmptyString
  | String a s' => String (lower_ascii a) (lower s')
  end.

(** What [from smoke_test import run_smoke_tests; run_smoke_tests()] does. *)
Inductive smoke_outcome : Type :=
| SmokeImportError
| SmokeReturned (passed : bool)
| SmokeRaised (e : exn).

Record notification_results : Type := mkResults {
  email : bool;
  sms : bool;
  any_sent : bool
}.

(** Everything outside the process that a run depends on: the outcome of
    each call that leaves the program ([None]: no exception).
    [issue_time_local] is [pd.Timestamp.now(tz=...)], which raises for a
    time zone name that pandas does not know. *)
Record World : Type := mkWorld {
  load_config : option exn;
  run_id : string;
  run_smoke_tests : smoke_outcome;
  prepare_database : option exn;
  create_notification_manager : option exn;
  fetch_forecast : result forecast_json;
  issue_time_local : result Z;
  send_all_notifications : DataFrame -> result notification_results;
  execute : engine;
  write_heartbeat : string -> option exn;
  now : Z
}.

(** The stages of a run, in the order of the calls. *)
Inductive event : Type :=
| FetchForecast
| FrostAnalysis
| SendNotifications
| SaveWeather
| SaveFrostWarnings
| WriteHeartbeat.

Global Instance event_eq_dec : EqDecision event.
Proof. solve_decision. Defined.

Record Run : Type := mkRun {
  exit_status : Z;
  events : list event;
  errors : list string;
  heartbeat_status : option string
}.

Definition perform_frost_analysis (df : DataFrame) : DataFrame :=
  if df_empty df then df else fst (AnalyzerTable.analyze_dataframe_advanced df).

(** [df_fc[df_fc.get('frost_warning', False) == True] if not df_fc.empty else
    pd.DataFrame()]: without the column the key is [False], which the table
    does not have. *)
Definition select_warnings (df_fc : DataFrame) : result DataFrame :=
  if df_empty df_fc then Ok empty_frame
  else if has_column "frost_warning" df_fc
  then Ok (mkDataFrame (columns df_fc) (warning_rows (rows df_fc)))
  else Raise (PyErr "KeyError" "False").

Definition prognos_error (e : exn) : string := "Prognos misslyckades: " +:+ exn_text e.
Definition notification_error (e : exn) : string := "Notifikationsfel: " +:+ exn_text e.
Definition database_error (e : exn) : string :=
  "Databas-sparning misslyckades: " +:+ exn_text e.

(** Lines 437-483: the forecast table kept for the persistence, the errors
    recorded and the stages entered. *)
Definition forecast_stage (w : World) : DataFrame * list string * list event :=
  match fetch_forecast w with
  | Raise e => (empty_frame, [prognos_error e], [FetchForecast])
  | Ok fc_json =>
      match issue_time_local w with
      | Raise e => (empty_frame, [prognos_error e], [FetchForecast])
      | Ok issue_time =>
      match fst (transform_hourly_json fc_json "forecast" (Some issue_time) (run_id w)) with
      | Raise e => (empty_frame, [prognos_error e], [FetchForecast])
      | Ok df_fc =>
          let df_fc := perform_frost_analysis df_fc in
          match select_warnings df_fc with
          | Raise e => (empty_frame, [prognos_error e], [FetchForecast; FrostAnalysis])
          | Ok warnings_only =>
              if df_empty warnings_only
              then (df_fc, [], [FetchForecast; FrostAnalysis])
              else
                match send_all_notifications w warnings_only with
                | Ok _ => (df_fc, [], [FetchForecast; FrostAnalysis; SendNotifications])
                | Raise e =>
                    (df_fc, [notification_error e],
                     [FetchForecast; FrostAnalysis; SendNotifications])
                end
          end
      end
      end
  end.

(** Lines 485-493. *)
Definition persist_stage (w : World) (df_fc : DataFrame) : list string * list event :=
  if df_empty df_fc then ([], [])
  else
    match load_weather_data (execute w) df_fc with
    | Raise e => ([database_error e], [SaveWeather])
    | Ok _ =>
        match load_frost_warnings (execute w) (now w) df_fc (run_id w) with
        | Raise e => ([database_error e], [SaveWeather; SaveFrostWarnings])
        | Ok _ => ([], [SaveWeather; SaveFrostWarnings])
        end
    end.

Definition is_critical (error : string) : bool :=
  contains "kritiskt" (lower error) || contains "databas" (lower error).

(** Lines 518-524: [sys.exit(1)] under the two conditions, status 0 when
    [main] returns. *)
Definition exit_decision (errors : list string) : Z :=
  if negb (is_nil errors) && existsb is_critical errors then 1%Z else 0%Z.

(** A run that stops before the stages. *)
Definition stopped : Run := mkRun 1%Z [] [] None.

Definition main (w : World) : Run :=
  match load_config w with
  | Some _ => stopped
  | None =>
      match run_smoke_tests w with
      | SmokeReturned false => stopped
      | _ =>
          match prepare_database w with
          | Some _ => stopped
          | None =>
              match create_notification_manager w with
              | Some _ => stopped
              | None =>
                  let '(df_fc, errors1, events1) := forecast_stage w in
                  let '(errors2, events2) := persist_stage w df_fc in
                  let errors := (errors1 ++ errors2)%list in
                  let status := if is_nil errors then "ok" else "fail" in
                  mkRun (exit_decision errors)
                        (events1 ++ events2 ++ [WriteHeartbeat])%list
                        errors
                        (match write_heartbeat w status with
                         | None => Some status
                         | Some _ => None
                         end)
              end
          end
      end
  end.

End Orchestrator.

(** ** scripts/tune_frost_algorithm.py: the evaluated rule variants *)

Module Harness.

Import Analyzer.

Local Open Scope Q_scope.

(** The harness has its own copy of the cloud factor. *)
Definition calculate_cloud_impact_factor (cloud_cover : pyfloat) : Q :=
  match cloud_cover with
  | None => 1.0
  | Some c =>
      if c <=? 20 then 1.5
      else if c <=? 50 then 1.2
      else if c <=? 80 then 1.0
      else 0.7
  end.

(** Lines 96-105, 107-118 and 120-135: the part the first three variants
    share after their guards. *)
Definition base_rules (t w : Q) : bool :=
  if t <=? 0 then true
  else if ((t <=? 1) && (2 <=? w) && (w <=? 4))%bool then true
  else if ((t <=? 3) && (w <? 2))%bool then true
  else false.

Definition algorithm_original (temp wind : pyfloat) : bool :=
  match temp, wind with
  | Some t, Some w => base_rules t w
  | _, _ => false
  end.

Definition algorithm_with_daytime_filter (temp wind : pyfloat) (hour : Z) : bool :=
  match temp, wind with
  | Some t, Some w =>
      if ((8 <=? hour)%Z && (hour <=? 17)%Z && (0 <? t))%bool then false
      else base_rules t w
  | _, _ => false
  end.

Definition algorithm_with_clouds_and_daytime (temp wind cloud_cover : pyfloat) (hour : Z)
    : bool :=
  match temp, wind with
  | Some t, Some w =>
      if ((8 <=? hour)%Z && (hour <=? 17)%Z && (0 <? t))%bool then false
      else if base_rules t w then true
      else
        let cloud_factor := calculate_cloud_impact_factor cloud_cover in
        if ((1.4 <=? cloud_factor) && (t <=? 2) && (w <? 3))%bool then true
        else false
  | _, _ => false
  end.

Definition algorithm_comprehensive (temp wind cloud_cover humidity : pyfloat) (hour : Z)
    : bool :=
  match temp, wind with
  | Some t, Some w =>
      if ((8 <=? hour)%Z && (hour <=? 17)%Z && (0 <? t))%bool then false
      else if t <=? 0 then true
      else
        let cloud_factor := calculate_cloud_impact_factor cloud_cover in
        let temp_limit :=
          if 1.4 <=? cloud_factor then 3.0
          else if 1.1 <=? cloud_factor then 2.0
          else 1.0 in
        if ((t <=? temp_limit) && (w <? 4))%bool then true
        else
          match humidity with
          | Some h => if ((t <=? 2) && (w <? 3) && (85 <? h))%bool then true else false
          | None => false
          end
  | _, _ => false
  end.

(** A row of the historical table as the harness reads it. *)
Record observation : Type := mkObservation {
  o_temperature_2m : pyfloat;
  o_wind_speed_10m : pyfloat;
  o_relative_humidity_2m : pyfloat;
  o_cloud_cover : pyfloat;
  o_hour : Z
}.

(** [df['actual_frost'] = df['temperature_2m'] <= 0] *)
Definition actual_frost (o : observation) : bool :=
  match o_temperature_2m o with
  | Some t => t <=? 0
  | None => false
  end.

(** The rows of the table in [compare_algorithms] that do not use the
    rolling mean: the variant applied to the columns it is given. *)
Definition predict_original (o : observation) : bool :=
  algorithm_original (o_temperature_2m o) (o_wind_speed_10m o).

Definition predict_daytime (o : observation) : bool :=
  algorithm_with_daytime_filter (o_temperature_2m o) (o_wind_speed_10m o) (o_hour o).

Definition predict_clouds (o : observation) : bool :=
  algorithm_with_clouds_and_daytime (o_temperature_2m o) (o_wind_speed_10m o)
                                    (o_cloud_cover o) (o_hour o).

Definition predict_comprehensive (o : observation) : bool :=
  algorithm_comprehensive (o_temperature_2m o) (o_wind_speed_10m o) (o_cloud_cover o)
                          (o_relative_humidity_2m o) (o_hour o).

Record metrics : Type := mkMetrics {
  recall : Q;
  precision : Q;
  f1_score : Q;
  true_positives : nat;
  false_positives : nat;
  false_negatives : nat
}.

Definition count (f : observation -> bool) (df : list observation) : nat :=
  length (List.filter f df).

Definition ratio (a b : nat) : Q := inject_Z (Z.of_nat a) / inject_Z (Z.of_nat b).

(** [evaluate_algorithm] without the rolling mean. *)
Definition evaluate_algorithm (df : list observation) (predict : observation -> bool)
    : metrics :=
  let tp := count (fun o => actual_frost o && predict o)%bool df in
  let fp := count (fun o => negb (actual_frost o) && predict o)%bool df in
  let fn := count (fun o => actual_frost o && negb (predict o))%bool df in
  let precision := if (0 <? tp + fp)%nat then ratio tp (tp + fp) else 0 in
  let recall := if (0 <? tp + fn)%nat then ratio tp (tp + fn) else 0 in
  let f1 :=
    if 0 <? precision + recall
    then 2 * (precision * recall) / (precision + recall)
    else 0 in
  mkMetrics recall precision f1 tp fp fn.

End Harness.

(** ** src/main.py: the retry loop *)

Module Fetch.

Local Open Scope Z_scope.

(** What one pass through the [try] block of [fetch_with_retry] does: the
    parsed answer, a [requests.RequestException], or another exception. *)
Inductive attempt_outcome (J : Type) : Type :=
| Answer (json : J)
| RequestException (e : exn)
| OtherException (e : exn).

Arguments Answer {J} json.
Arguments RequestException {J} e.
Arguments OtherException {J} e.

(** What the loop does to the outside, in order: the request of an attempt
    (counted from 0) and [time.sleep]. *)
Inductive action : Type :=
| Get (attempt : nat)
| Sleep (seconds : Z).

(** The turns of [for attempt in range(max_retries)] from [attempt] on,
    [remaining] of them.  [time.sleep] raises for a negative length. *)
Fixpoint attempts {J : Type} (get : nat -> attempt_outcome J) (max_retries backoff : Z)
    (remaining attempt : nat) : result (option J) * list action :=
  match remaining with
  | O => (Ok None, [])
  | S remaining' =>
      match get attempt with
      | Answer json => (Ok (Some json), [Get attempt])
      | OtherException e => (Raise e, [Get attempt])
      | RequestException e =>
          if Z.of_nat attempt <? max_retries - 1 then
            let sleep_time := backoff * (Z.of_nat attempt + 1) in
            if sleep_time <? 0
            then (Raise (PyErr "ValueError" "sleep length must be non-negative"),
                  [Get attempt])
            else
              let '(r, actions) := attempts get max_retries backoff remaining' (S attempt) in
              (r, Get attempt :: Sleep sleep_time :: actions)
          else (Raise e, [Get attempt])
      end
  end.

(** [fetch_with_retry(url, params, timeout, max_retries, backoff)]: the
    value returned ([None] when the loop ends without a [return]) or the
    exception raised, and the actions performed. *)
Definition fetch_with_retry {J : Type} (get : nat -> attempt_outcome J)
    (max_retries backoff : Z) : result (option J) * list action :=
  attempts get max_retries backoff (Z.to_nat max_retries) 0.

(** The requests and the waits of [n] failed attempts that are retried. *)
Definition retried (backoff : Z) (n : nat) : list action :=
  flat_map (fun attempt => [Get attempt; Sleep (backoff * (Z.of_nat attempt + 1))]) (seq 0 n).

Definition requests (actions : list action) : nat :=
  length (List.filter (fun a => match a with Get _ => true | Sleep _ => false end) actions).

End Fetch.

(** ** src/sms_notifier.py: the delivery *)

Module SmsDelivery.

Import Sms.

(** What [client.messages.create(body=..., from_=..., to=...)] does: a
    message resource with its sid, a [TwilioRestException], or another
    exception. *)
Inductive create_outcome : Type :=
| Created (sid : string)
| RestException (text : string)
| OtherError (e : exn).

Record request : Type := mkRequest {
  to : string;
  from_ : string;
  body : string
}.

(** The gateway: the outcome of the n-th request made to it (counted from
    0). *)
Definition client_type : Type := nat -> request -> create_outcome.

Record SmsNotifier : Type := mkSmsNotifier {
  client : client_type;
  from_number : string
}.

(** The requests made so far, the oldest first. *)
Definition outbox : Type := list request.

(** [notifier.send_sms(to_number, message)] *)
Definition send_sms (notifier : SmsNotifier) (to_number message : string) (sent : outbox)
    : result bool * outbox :=
  let req := mkRequest to_number (from_number notifier) message in
  match client notifier (length sent) req with
  | Created _ => (Ok true, sent ++ [req])
  | RestException _ => (Ok false, sent ++ [req])
  | OtherError e => (Raise e, sent ++ [req])
  end%list.

(** The loop of [send_bulk_sms] over the recipients, [results] being the
    dictionary filled so far. *)
Fixpoint send_each (notifier : SmsNotifier) (recipients : list string) (message : string)
    (results : gmap string bool) (sent : outbox) : result (gmap string bool) * outbox :=
  match recipients with
  | [] => (Ok results, sent)
  | number :: rest =>
      match send_sms notifier number message sent with
      | (Ok success, sent') => send_each notifier rest message (<[number := success]> results) sent'
      | (Raise e, sent') => (Raise e, sent')
      end
  end.

(** [notifier.send_bulk_sms(recipients, message)] *)
Definition send_bulk_sms (notifier : SmsNotifier) (recipients : list string)
    (message : string) (sent : outbox) : result (gmap string bool) * outbox :=
  send_each notifier recipients message ∅ sent.

(** [sum(results.values())] *)
Definition successful (results : gmap string bool) : nat :=
  length (List.filter (fun kv : string * bool => snd kv) (map_to_list results)).

(** [send_frost_sms_notification(warnings_df, notifier, recipients,
    location)]; [now] is the value of [datetime.now()]. *)
Definition send_frost_sms_notification (now : Z) (warnings_df : DataFrame)
    (notifier : SmsNotifier) (recipients : list string) (location : string) (sent : outbox)
    : result bool * outbox :=
  if df_empty warnings_df then (Ok false, sent)
  else if is_nil recipients then (Ok false, sent)
  else
    match create_frost_sms_message now warnings_df location with
    | Raise e => (Raise e, sent)
    | Ok message =>
        if String.eqb message "" then (Ok false, sent)
        else
          match send_bulk_sms notifier recipients message sent with
          | (Raise e, sent') => (Raise e, sent')
          | (Ok results, sent') => (Ok (0 <? successful results)%nat, sent')
          end
    end.

(** The request that carries [message] to [number]. *)
Definition request_to (notifier : SmsNotifier) (message number : string) : request :=
  mkRequest number (from_number notifier) message.

(** The gateway accepted the request that was made as number [n]. *)
Definition accepted (notifier : SmsNotifier) (n : nat) (req : request) : bool :=
  match client notifier n req with Created _ => true | _ => false end.

End SmsDelivery.

(** ** src/email_notifier.py *)

Module Email.

Import Sms.

(** [(valid_time >= now) & (valid_time <= next_24h)]; the clock has a
    fraction of a second, and a comparison with [NaT] is false. *)
Definition in_next_24h (now : Q) (r : Row) : bool :=
  match valid_time r with
  | Some t => (now <=? inject_Z t)%Q && (inject_Z t <=? now + 86400)%Q
  | None => false
  end.

(** [get_highest_risk_next_24h(warnings_df)]; [now] is the value of
    [datetime.now()], in seconds. *)
Definition get_highest_risk_next_24h (now : Q) (warnings_df : DataFrame) : result string :=
  if df_empty warnings_df then Ok "ingen"
  else
    require_column "valid_time" warnings_df ;;
    let next_24h_warnings := List.filter (in_next_24h now) (rows warnings_df) in
    if is_nil next_24h_warnings then Ok "ingen"
    else
      require_column "frost_risk_numeric" warnings_df ;;
      let max_risk := series_max (map frost_risk_numeric next_24h_warnings) in
      Ok (if risk_at_least 3 max_risk then "hög"
          else if risk_at_least 2 max_risk then "medel"
          else if risk_at_least 1 max_risk then "låg"
          else "ingen").

(** A row's risk number is at least [n]. *)
Definition risk_reaches (n : Z) (r : Row) : bool :=
  match frost_risk_numeric r with Some m => (n <=? m)%Z | None => false end.

End Email.

(** ** src/notification_manager.py *)

Module Notifications.

Import Sms SmsDelivery.

(** A mapping among [sms.recipients]: the truth of
    [recipient.get('enabled', False)] and the value under 'number', if the
    mapping has that key. *)
Record sms_recipient : Type := mkRecipient {
  enabled : bool;
  number : option string
}.

(** An entry of [sms.recipients]: a mapping, or a value of another type
    (null, a string, a number), given by the name of its Python type. *)
Inductive recipient_entry : Type :=
| NotMapping (type_name : string)
| Mapping (recipient : sms_recipient).

(** The value under [sms.recipients]: missing, a value that cannot be
    iterated (null, a number, a boolean), or what iterating it yields (the
    items of a list, the keys of a mapping, the characters of a string). *)
Inductive recipients_value : Type :=
| RecipientsMissing
| RecipientsNotIterable (type_name : string)
| Recipients (entries : list recipient_entry).

(** What the chain [config.get('email', {}).get('notifications',
    {}).get('location_name', 'Din trakt')] finds: no name, a value on the
    way that is not a mapping (null, ...), or the name. *)
Inductive location_value : Type :=
| LocationMissing
| LocationNotReachable (type_name : string)
| Location (name : string).

(** The part of the configuration that the sending reads.  The members
    'email' and 'sms' themselves are mappings or missing: the constructor
    has read them with [.get].  [email_recipients] is [None] for a missing,
    null or empty value. *)
Record config : Type := mkConfig {
  email_recipients : option (list string);
  sms_recipients : recipients_value;
  location_name : location_value
}.

(** An e-mail notifier as the manager uses it: what
    [send_frost_notification(warnings_df, notifier, recipients, location)]
    does with it (the composition of the mail and the SMTP session are
    outside the embedding). *)
Definition EmailNotifier : Type := DataFrame -> list string -> string -> result bool.

Record NotificationManager : Type := mkManager {
  cfg : config;
  email_notifier : option EmailNotifier;
  sms_notifier : option SmsNotifier
}.

Definition get_email_recipients (m : NotificationManager) : list string :=
  default [] (email_recipients (cfg m)).

(** The loop of [get_sms_recipients]: [recipient.get] raises for an entry
    that is not a mapping, [recipient['number']] for an enabled mapping
    without that key. *)
Fixpoint active_numbers (recipients : list recipient_entry) : result (list string) :=
  match recipients with
  | [] => Ok []
  | NotMapping type_name :: _ => Raise (AttributeError type_name "get")
  | Mapping recipient :: rest =>
      if enabled recipient then
        match number recipient with
        | Some n => numbers ← active_numbers rest; Ok (n :: numbers)
        | None => Raise (KeyError "number")
        end
      else active_numbers rest
  end.

Definition get_sms_recipients (m : NotificationManager) : result (list string) :=
  match sms_recipients (cfg m) with
  | RecipientsMissing => Ok []
  | RecipientsNotIterable type_name => Raise (NotIterable type_name)
  | Recipients entries => active_numbers entries
  end.

Definition get_location_name (m : NotificationManager) : result string :=
  match location_name (cfg m) with
  | LocationMissing => Ok "Din trakt"
  | LocationNotReachable type_name => Raise (AttributeError type_name "get")
  | Location name => Ok name
  end.

(** [send_email_notifications(warnings_df)]: the location is read and the
    mail sent inside the [try]. *)
Definition send_email_notifications (m : NotificationManager) (warnings_df : DataFrame)
    : bool :=
  match email_notifier m with
  | None => false
  | Some notifier =>
      let recipients := get_email_recipients m in
      if is_nil recipients then false
      else
        match get_location_name m with
        | Raise _ => false
        | Ok location =>
            match notifier warnings_df recipients location with
            | Ok success => success
            | Raise _ => false
            end
        end
  end.

(** [send_sms_notifications(warnings_df)]: the recipients are read outside
    the [try], the location inside. *)
Definition send_sms_notifications (now : Z) (m : NotificationManager)
    (warnings_df : DataFrame) (sent : outbox) : result bool * outbox :=
  match sms_notifier m with
  | None => (Ok false, sent)
  | Some notifier =>
      match get_sms_recipients m with
      | Raise e => (Raise e, sent)
      | Ok recipients =>
          if is_nil recipients then (Ok false, sent)
          else
            match get_location_name m with
            | Raise _ => (Ok false, sent)
            | Ok location =>
                match send_frost_sms_notification now warnings_df notifier recipients
                                                  location sent with
                | (Ok success, sent') => (Ok success, sent')
                | (Raise _, sent') => (Ok false, sent')
                end
            end
      end
  end.

(** [send_all_notifications(warnings_df)] *)
Definition send_all_notifications (now : Z) (m : NotificationManager)
    (warnings_df : DataFrame) (sent : outbox)
    : result Orchestrator.notification_results * outbox :=
  if df_empty warnings_df then (Ok (Orchestrator.mkResults false false false), sent)
  else
    let email_success := send_email_notifications m warnings_df in
    match send_sms_notifications now m warnings_df sent with
    | (Raise e, sent') => (Raise e, sent')
    | (Ok sms_success, sent') =>
        (Ok (Orchestrator.mkResults email_success sms_success (email_success || sms_success)),
         sent')
    end.

End Notifications.

(** ** Vocabulary of the statements about the transformation *)

Module Cells.

(** The cell of one of the wanted columns. *)
Definition get_wanted (col : string) (r : Row) : option Q :=
  if String.eqb col "temperature_2m" then temperature_2m r
  else if String.eqb col "relative_humidity_2m" then relative_humidity_2m r
  else if String.eqb col "precipitation" then precipitation r
  else if String.eqb col "wind_speed_10m" then wind_speed_10m r
  else if String.eqb col "precipitation_probability" then precipitation_probability r
  else if String.eqb col "cloud_cover" then cloud_cover r
  else None.

End Cells.

(** ** Inputs of the examples *)

Module Examples.

Import Pipeline Orchestrator.

(** A table of one warning row. *)
Definition one_warning : DataFrame :=
  mkDataFrame
    ["valid_time"; "temperature_2m"; "wind_speed_10m"; "frost_risk_level";
     "frost_risk_numeric"; "frost_warning"]
    [mkRow (Some 1704067200%Z) (Some (-1.2)%Q) None None (Some 1.0%Q) None (Some 10%Q)
           (Some "forecast") None None (Some "run") (Some "hög") (Some 3%Z) (Some true)
           None None None].

(** A location name of 128 characters. *)
Definition long_location : string :=
  "Frostvakten vid koloniområdet nedanför kyrkbacken, norra delen mellan ån och "
  +:+ "den gamla landsvägen, Västra Götalands län, Sverige".

(** The provider's answer of the unit test: wind speeds 7.2 and 8.1 km/h. *)
Definition wind_hourly : hourly_object :=
  mkHourly (Some [Some 1735689600%Z; Some 1735693200%Z])
           (list_to_map [("temperature_2m", [Some 5.0%Q; Some 4.2%Q]);
                         ("wind_speed_10m", [Some 7.2%Q; Some 8.1%Q])]).

Definition wind_payload : forecast_json := JsonObject (HourlyObject wind_hourly).

(** Two forecasts for the same hour: the one issued first has a
    temperature, the one issued an hour later has none. *)
Definition overlapping_forecasts : DataFrame :=
  mkDataFrame transform_columns
    [mkRow (Some 1735772400%Z) (Some 5.0%Q) (Some 80%Q) (Some 0%Q) (Some 2.0%Q) (Some 10%Q)
           (Some 50%Q) (Some "forecast") (Some 1735725600%Z) (Some 13.0%Q) (Some "run_1")
           None None None None None None;
     mkRow (Some 1735772400%Z) None (Some 85%Q) (Some 0%Q) (Some 2.5%Q) (Some 10%Q)
           (Some 60%Q) (Some "forecast") (Some 1735729200%Z) (Some 12.0%Q) (Some "run_2")
           None None None None None None].

(** A forecast table in which the same hour occurs twice, both times below
    zero. *)
Definition duplicated_hour : DataFrame :=
  mkDataFrame transform_columns
    [mkRow (Some 1735783200%Z) (Some (-1.0)%Q) (Some 80%Q) (Some 0%Q) (Some 1.0%Q) (Some 10%Q)
           (Some 20%Q) (Some "forecast") (Some 1735732800%Z) (Some 14.0%Q) (Some "run_1")
           None None None None None None;
     mkRow (Some 1735783200%Z) (Some (-2.0)%Q) (Some 85%Q) (Some 0%Q) (Some 1.0%Q) (Some 10%Q)
           (Some 20%Q) (Some "forecast") (Some 1735732800%Z) (Some 14.0%Q) (Some "run_1")
           None None None None None None].

(** A provider's answer with two freezing hours. *)
Definition frost_payload : forecast_json :=
  JsonObject
    (HourlyObject
       (mkHourly (Some [Some 1735772400%Z; Some 1735776000%Z])
          (list_to_map [("temperature_2m", [Some (-2.0)%Q; Some (-2.5)%Q]);
                        ("wind_speed_10m", [Some 3.6%Q; Some 3.6%Q]);
                        ("cloud_cover", [Some 20%Q; Some 20%Q])]))).

(** A run in which the provider cannot be reached. *)
Definition offline_world : World :=
  mkWorld None "etl_run_20250101T120000Z" SmokeImportError None None
          (Raise (PyErr "ConnectionError" "Max retries exceeded with url: /v1/forecast"))
          (Ok 1735732800%Z)
          (fun _ => Ok (mkResults false false false))
          (fun _ _ => None) (fun _ => None) 1735732800%Z.

(** A run in which the database refuses every insert. *)
Definition readonly_world : World :=
  mkWorld None "etl_run_20250101T120000Z" SmokeImportError None None
          (Ok frost_payload) (Ok 1735732800%Z)
          (fun _ => Ok (mkResults true false true))
          (fun _ _ => Some "attempt to write a readonly database")
          (fun _ => None) 1735732800%Z.

(** A run on the database that the program creates, with a forecast of two
    freezing hours. *)
Definition fresh_database_world : World :=
  mkWorld None "etl_run_20250101T120000Z" SmokeImportError None None
          (Ok frost_payload) (Ok 1735732800%Z)
          (fun _ => Ok (mkResults true false true))
          created_database (fun _ => None) 1735732800%Z.

(** A run in which every call succeeds and the forecast has two freezing
    hours. *)
Definition frost_world : World :=
  mkWorld None "etl_run_20250101T120000Z" SmokeImportError None None
          (Ok frost_payload) (Ok 1735732800%Z)
          (fun _ => Ok (mkResults true false true))
          (fun _ _ => None) (fun _ => None) 1735732800%Z.

End Examples.

(** * Properties *)

(** ** Comparisons of rationals *)

Lemma Qltb_lt (x y : Q) : Qltb x y = true <-> (x < y)%Q.
Proof.
  unfold Qltb. rewrite negb_true_iff.
  split; intros H.
  - apply Qnot_le_lt. intros Hle. apply Qle_bool_iff in Hle. congruence.
  - destruct (Qle_bool y x) eqn:E; [|reflexivity].
    apply Qle_bool_iff in E. exfalso. apply (Qlt_not_le _ _ H E).
Qed.

Lemma Qltb_ge (x y : Q) : Qltb x y = false <-> (y <= x)%Q.
Proof.
  unfold Qltb. rewrite negb_false_iff. apply Qle_bool_iff.
Qed.

Lemma Qleb_gt (x y : Q) : Qle_bool x y = false <-> (y < x)%Q.
Proof.
  split; intros H.
  - apply Qnot_le_lt. intros Hle. apply Qle_bool_iff in Hle. congruence.
  - destruct (Qle_bool x y) eqn:E; [|reflexivity].
    apply Qle_bool_iff in E. exfalso. apply (Qlt_not_le _ _ H E).
Qed.

(** Turns every boolean comparison of rationals in the context and in the
    goal into its proposition. *)
Ltac qprop :=
  repeat match goal with
  | H : Qle_bool _ _ = true |- _ => apply Qle_bool_iff in H
  | H : Qle_bool _ _ = false |- _ => apply Qleb_gt in H
  | H : Qltb _ _ = true |- _ => apply Qltb_lt in H
  | H : Qltb _ _ = false |- _ => apply Qltb_ge in H
  end.

(** ** The classifier *)

Section Classifier.

Import Analyzer.
Local Open Scope Q_scope.

Lemma cloud_factor_values (c : pyfloat) :
  calculate_cloud_impact_factor c = 1.5 \/ calculate_cloud_impact_factor c = 1.2 \/
  calculate_cloud_impact_factor c = 1.0 \/ calculate_cloud_impact_factor c = 0.7.
Proof.
  unfold calculate_cloud_impact_factor.
  destruct c as [c|]; [|tauto].
  destruct (c <=? 20); [tauto|].
  destruct (c <=? 50); [tauto|].
  destruct (c <=? 80); tauto.
Qed.

(** C10.  The cloud impact factor does not increase with the cloud cover,
    takes its values in {0.7, 1.0, 1.2, 1.5}, and is 1.0 for an absent
    cloud cover. *)
Theorem cloud_factor_antitone :
  (forall c1 c2 : Q, c1 <= c2 ->
     calculate_cloud_impact_factor (Some c2) <= calculate_cloud_impact_factor (Some c1)) /\
  (forall c : pyfloat, In (calculate_cloud_impact_factor c) [0.7; 1.0; 1.2; 1.5]) /\
  calculate_cloud_impact_factor None = 1.0.
Proof.
  split; [|split].
  - intros c1 c2 Hle. unfold calculate_cloud_impact_factor.
    destruct (c1 <=? 20) eqn:A1; destruct (c1 <=? 50) eqn:B1;
      destruct (c1 <=? 80) eqn:C1; destruct (c2 <=? 20) eqn:A2;
      destruct (c2 <=? 50) eqn:B2; destruct (c2 <=? 80) eqn:C2;
      qprop; try lra; try (compute; discriminate).
  - intros c. destruct (cloud_factor_values c) as [H|[H|[H|H]]]; rewrite H; simpl; auto.
  - reflexivity.
Qed.

Lemma cloud_factor_antitone_witness :
  20 <= 60 /\
  calculate_cloud_impact_factor (Some 60) <= calculate_cloud_impact_factor (Some 20).
Proof.
  assert (H : 20 <= 60) by (compute; discriminate).
  split; [exact H|].
  exact (proj1 cloud_factor_antitone 20 60 H).
Defined.

Lemma daytime_spec (hour_of_day : option Z) :
  daytime hour_of_day = true <-> exists h : Z, hour_of_day = Some h /\ (8 <= h <= 17)%Z.
Proof.
  unfold daytime. destruct hour_of_day as [h|].
  - rewrite andb_true_iff, !Z.leb_le. split.
    + intros H. exists h. split; [reflexivity|lia].
    + intros (h' & E & H). injection E as ->. lia.
  - split; [discriminate|]. intros (h & E & _). discriminate.
Qed.

Lemma not_daytime (hour_of_day : option Z) :
  (forall h : Z, hour_of_day = Some h -> ~ (8 <= h <= 17)%Z) -> daytime hour_of_day = false.
Proof.
  intros H. destruct (daytime hour_of_day) eqn:E; [|reflexivity].
  apply daytime_spec in E. destruct E as (h & E & Hh). exfalso. exact (H h E Hh).
Qed.

(** C2.  With temperature and wind speed present: in the hours 8..17 a
    temperature above 0 gives ("ingen", 0) whatever the cloud cover and the
    humidity, and a temperature at or below 0 gives ("hög", 3) at every hour
    (daytime included), cloud cover and humidity.  "ingen" and "hög" are the
    source's texts for the levels none and high. *)
Theorem daytime_filter_and_freezing_rule (t w : Q) (cloud_cover humidity : pyfloat) :
  (forall h : Z, (8 <= h <= 17)%Z -> 0 < t ->
     risk_of (calculate_advanced_frost_risk (Some t) (Some w) cloud_cover humidity (Some h))
     = ("ingen", 0%Z)) /\
  (forall hour_of_day : option Z, t <= 0 ->
     risk_of (calculate_advanced_frost_risk (Some t) (Some w) cloud_cover humidity hour_of_day)
     = ("hög", 3%Z)).
Proof.
  split.
  - intros h Hh Ht. unfold calculate_advanced_frost_risk.
    assert (D : daytime (Some h) = true) by (apply daytime_spec; eauto).
    apply Qltb_lt in Ht. rewrite D, Ht. reflexivity.
  - intros hour_of_day Ht. unfold calculate_advanced_frost_risk.
    assert (P : (0 <? t) = false) by (apply Qltb_ge; exact Ht).
    rewrite P, andb_false_r.
    apply Qle_bool_iff in Ht. rewrite Ht. reflexivity.
Qed.

Lemma daytime_filter_and_freezing_rule_witness :
  risk_of (calculate_advanced_frost_risk (Some 2.0) (Some 1.5) (Some 20) None (Some 14%Z))
    = ("ingen", 0%Z) /\
  risk_of (calculate_advanced_frost_risk (Some (-1.0)) (Some 1.5) (Some 20) None (Some 14%Z))
    = ("hög", 3%Z).
Proof.
  split.
  - apply (proj1 (daytime_filter_and_freezing_rule 2.0 1.5 (Some 20) None) 14%Z).
    + lia.
    + reflexivity.
  - apply (proj2 (daytime_filter_and_freezing_rule (-1.0) 1.5 (Some 20) None) (Some 14%Z)).
    compute. discriminate.
Defined.

(** The claim C3 as written fails: at 1.5 degrees, wind 1 m/s, cloud cover
    90, humidity 90 and hour 23 the limit selected is 1.0 with ("medel", 2);
    the temperature is above the limit, and the classifier still returns
    ("medel", 2), through the humidity rule. *)
Lemma threshold_rule_iff_counterexample :
  dynamic_threshold (calculate_cloud_impact_factor (Some 90)) = (1.0, "medel", 2%Z) /\
  risk_of (calculate_advanced_frost_risk (Some 1.5) (Some 1) (Some 90) (Some 90) (Some 23%Z))
    = ("medel", 2%Z) /\
  ~ (1.5 <= 1.0 /\ 1 < 4).
Proof.
  split; [reflexivity|]. split; [reflexivity|].
  intros [H _]. revert H. compute. intros H. apply H. reflexivity.
Qed.

Lemma dynamic_threshold_cases (f : Q) :
  (1.4 <= f -> dynamic_threshold f = (3.0, "låg", 1%Z)) /\
  (1.1 <= f -> f < 1.4 -> dynamic_threshold f = (2.0, "medel", 2%Z)) /\
  (f < 1.1 -> dynamic_threshold f = (1.0, "medel", 2%Z)).
Proof.
  unfold dynamic_threshold.
  destruct (1.4 <=? f) eqn:A; destruct (1.1 <=? f) eqn:B; qprop;
    repeat split; intros; try reflexivity; lra.
Qed.

Lemma humidity_rule_spec (t w : Q) (humidity : pyfloat) :
  humidity_rule t w humidity = true <->
  exists h : Q, humidity = Some h /\ t <= 2 /\ w < 3 /\ 85 < h.
Proof.
  unfold humidity_rule. destruct humidity as [h|].
  - rewrite !andb_true_iff, Qle_bool_iff, !Qltb_lt. split.
    + intros [[A B] C]. exists h. tauto.
    + intros (h' & E & A & B & C). injection E as ->. tauto.
  - split; [discriminate|]. intros (h & E & _). discriminate.
Qed.

Lemma dynamic_threshold_numeric (f temp_limit : Q) (risk_level : string) (risk_numeric : Z) :
  dynamic_threshold f = (temp_limit, risk_level, risk_numeric) -> risk_numeric <> 0%Z.
Proof.
  unfold dynamic_threshold.
  destruct (1.4 <=? f); [|destruct (1.1 <=? f)]; intros E; inversion E; lia.
Qed.

(** C3 (amended).  For a call with temperature and wind present, a
    temperature above 0 and an hour outside 8..17 (or absent): the cloud
    factor is 1.0 for an absent cloud cover, 1.5 up to 20, 1.2 up to 50, 1.0
    up to 80 and 0.7 above; the factor selects limit 3.0 with ("låg", 1)
    from 1.4, limit 2.0 with ("medel", 2) from 1.1, and limit 1.0 with
    ("medel", 2) below; the classifier returns that level and number when
    temperature <= limit and wind < 4; it returns them exactly when that
    condition holds or the selected pair is ("medel", 2) and the humidity
    rule applies (humidity present, temperature <= 2, wind < 3, humidity >
    85); when the condition fails, the humidity rule gives ("medel", 2)
    where it applies and the result is ("ingen", 0) where it does not. *)
Theorem threshold_rule (t w : Q) (cloud_cover humidity : pyfloat) (hour_of_day : option Z)
    (temp_limit : Q) (risk_level : string) (risk_numeric : Z) :
  0 < t ->
  (forall h : Z, hour_of_day = Some h -> ~ (8 <= h <= 17)%Z) ->
  dynamic_threshold (calculate_cloud_impact_factor cloud_cover)
    = (temp_limit, risk_level, risk_numeric) ->
  let result :=
    risk_of (calculate_advanced_frost_risk (Some t) (Some w) cloud_cover humidity hour_of_day) in
  let humid := exists h : Q, humidity = Some h /\ t <= 2 /\ w < 3 /\ 85 < h in
  (calculate_cloud_impact_factor None = 1.0 /\
   forall c : Q,
     (c <= 20 -> calculate_cloud_impact_factor (Some c) = 1.5) /\
     (20 < c -> c <= 50 -> calculate_cloud_impact_factor (Some c) = 1.2) /\
     (50 < c -> c <= 80 -> calculate_cloud_impact_factor (Some c) = 1.0) /\
     (80 < c -> calculate_cloud_impact_factor (Some c) = 0.7)) /\
  (forall f : Q,
     (1.4 <= f -> dynamic_threshold f = (3.0, "låg", 1%Z)) /\
     (1.1 <= f -> f < 1.4 -> dynamic_threshold f = (2.0, "medel", 2%Z)) /\
     (f < 1.1 -> dynamic_threshold f = (1.0, "medel", 2%Z))) /\
  (t <= temp_limit /\ w < 4 -> result = (risk_level, risk_numeric)) /\
  (result = (risk_level, risk_numeric) <->
     (t <= temp_limit /\ w < 4) \/
     ((risk_level, risk_numeric) = ("medel", 2%Z) /\ humid)) /\
  (~ (t <= temp_limit /\ w < 4) -> humid -> result = ("medel", 2%Z)) /\
  (~ (t <= temp_limit /\ w < 4) -> ~ humid -> result = ("ingen", 0%Z)).
Proof.
  intros Ht Hhour Hthr result humid.
  split; [|split; [exact dynamic_threshold_cases|]].
  - split; [reflexivity|]. intros c. unfold calculate_cloud_impact_factor.
    destruct (c <=? 20) eqn:A; destruct (c <=? 50) eqn:B; destruct (c <=? 80) eqn:C;
      qprop; repeat split; intros; try reflexivity; lra.
  - subst result humid. unfold calculate_advanced_frost_risk.
    rewrite (not_daytime _ Hhour), andb_false_l.
    assert (P : (t <=? 0) = false) by (apply Qleb_gt; exact Ht).
    rewrite P, Hthr.
    pose proof (dynamic_threshold_numeric _ _ _ _ Hthr) as Hnum.
    destruct ((t <=? temp_limit) && (w <? 4))%bool eqn:A.
    + apply andb_true_iff in A. destruct A as [A B]. qprop.
      split; [reflexivity|]. split; [split; [intros _; left; split; assumption|reflexivity]|].
      split; intros N; exfalso; apply N; split; assumption.
    + assert (N : ~ (t <= temp_limit /\ w < 4)).
      { intros [Hl Hw]. apply Qle_bool_iff in Hl. apply Qltb_lt in Hw.
        rewrite Hl, Hw in A. discriminate. }
      split; [intros H; contradiction|].
      destruct (humidity_rule t w humidity) eqn:R.
      * assert (Hh : exists h : Q, humidity = Some h /\ t <= 2 /\ w < 3 /\ 85 < h)
          by (apply humidity_rule_spec; exact R).
        unfold risk_of. cbn [fst snd].
        split; [split|split].
        -- intros E. right. split; [symmetry; exact E|exact Hh].
        -- intros [H|[E _]]; [contradiction|symmetry; exact E].
        -- intros _ _. reflexivity.
        -- intros _ H. contradiction.
      * assert (Hh : ~ exists h : Q, humidity = Some h /\ t <= 2 /\ w < 3 /\ 85 < h).
        { intros H. apply humidity_rule_spec in H. rewrite H in R. discriminate. }
        unfold risk_of. cbn [fst snd].
        split; [split|split].
        -- intros E. exfalso. apply Hnum. congruence.
        -- intros [H|[_ H]]; contradiction.
        -- intros _ H. contradiction.
        -- intros _ _. reflexivity.
Qed.

Lemma threshold_rule_witness :
  risk_of (calculate_advanced_frost_risk (Some 1.0) (Some 1.0) (Some 10) None (Some 23%Z))
    = ("låg", 1%Z) /\
  risk_of (calculate_advanced_frost_risk (Some 1.5) (Some 1) (Some 90) (Some 90) (Some 23%Z))
    = ("medel", 2%Z).
Proof.
  assert (Hh : forall h : Z, Some 23%Z = Some h -> ~ (8 <= h <= 17)%Z)
    by (intros h E; injection E as <-; lia).
  split.
  - assert (Ht : 0 < 1.0) by reflexivity.
    assert (Hthr : dynamic_threshold (calculate_cloud_impact_factor (Some 10))
                   = (3.0, "låg", 1%Z)) by reflexivity.
    apply (proj1 (proj2 (proj2
             (threshold_rule 1.0 1.0 (Some 10) None (Some 23%Z) 3.0 "låg" 1%Z Ht Hh Hthr)))).
    split; [compute; discriminate | reflexivity].
  - assert (Ht : 0 < 1.5) by reflexivity.
    assert (Hthr : dynamic_threshold (calculate_cloud_impact_factor (Some 90))
                   = (1.0, "medel", 2%Z)) by reflexivity.
    apply (proj1 (proj2 (proj2 (proj2 (proj2
             (threshold_rule 1.5 1 (Some 90) (Some 90) (Some 23%Z) 1.0 "medel" 2%Z
                             Ht Hh Hthr)))))).
    + intros [H _]. revert H. compute. intros H. apply H. reflexivity.
    + exists 90. split; [reflexivity|].
      split; [compute; discriminate|]. split; reflexivity.
Defined.

End Classifier.

(** ** The text message *)

Section SmsMessage.

Import Sms Examples.

Lemma char_count_app (s1 s2 : string) :
  char_count (s1 +:+ s2) = (char_count s1 + char_count s2)%nat.
Proof.
  induction s1 as [|a s1 IH]; simpl; [reflexivity|].
  destruct (is_continuation a); rewrite IH; reflexivity.
Qed.

Lemma short_message_length (emoji risk_text temp action location : string) :
  char_count (short_message emoji risk_text temp action location)
  = (char_count emoji + char_count risk_text + char_count temp + char_count action
     + char_count location + 23)%nat.
Proof.
  unfold short_message. rewrite !char_count_app.
  change (char_count " FROST ") with 7%nat.
  change (char_count ". Temp ") with 7%nat.
  change (char_count "°C. ") with 4%nat.
  change (char_count " MVH ") with 5%nat.
  lia.
Qed.

(** The claim C6 as written fails: for a table of one warning and a location
    of 128 characters the fallback message is returned, and it has 177
    characters. *)
Lemma sms_length_counterexample :
  df_empty one_warning = false /\
  exists msg : string,
    create_frost_sms_message 1704067200%Z one_warning long_location = Ok msg /\
    (160 < char_count msg)%nat.
Proof.
  split; [reflexivity|].
  eexists. split; [vm_compute; reflexivity|].
  vm_compute. lia.
Qed.

(** C6 (amended).  For a non-empty warnings table that lists the columns
    read and whose first row has a valid time, the composition returns a
    message: the first assembled message
    "<emoji> FROST <risk> <time or duration>. Temp <min>°C, <wind>. <action> MVH <location>"
    when that has at most 160 characters, the shorter fallback
    "<emoji> FROST <risk>. Temp <min>°C. <action> MVH <location>" otherwise.
    Emoji, risk label and action follow the highest risk number (from 3,
    from 2, else), the wind text the mean wind (below 2, below 4, else), the
    time text the first row's day (today, tomorrow, else day/month) for one
    row and the number of rows otherwise.  The message has at most 160
    characters whenever the location and the formatted minimum temperature
    have at most 110 characters together. *)
Theorem sms_message_length (now : Z) (warnings_df : DataFrame) (location : string)
    (r : Row) (t : Z) :
  df_empty warnings_df = false ->
  has_column "frost_risk_numeric" warnings_df = true ->
  has_column "valid_time" warnings_df = true ->
  has_column "temperature_2m" warnings_df = true ->
  has_column "wind_speed_10m" warnings_df = true ->
  head (rows warnings_df) = Some r ->
  valid_time r = Some t ->
  let max_risk := series_max (map frost_risk_numeric (rows warnings_df)) in
  let avg_wind := series_mean (map wind_speed_10m (rows warnings_df)) in
  let temp := format_0f (series_min (map temperature_2m (rows warnings_df))) in
  let warning_count := length (rows warnings_df) in
  let high := match max_risk with Some m => (3 <=? m)%Z | None => false end in
  let medium := match max_risk with Some m => (2 <=? m)%Z | None => false end in
  let emoji := if high then "🚨" else if medium then "⚠️" else "❄️" in
  let risk_text := if high then "HÖG RISK" else if medium then "MEDEL RISK" else "LÅG RISK" in
  let action :=
    if high then "Täck växter NU!" else if medium then "Förbered skydd!" else "Håll koll!" in
  let wind_text :=
    match avg_wind with
    | Some a => if (a <? 2)%Q then "svag vind"
                else if (a <? 4)%Q then "måttlig vind" else "kraftig vind"
    | None => "kraftig vind"
    end in
  let time_or_duration :=
    if (warning_count =? 1)%nat then
      if (date_of t =? date_of now)%Z then "idag"
      else if (date_of t =? date_of (now + 86400))%Z then "imorgon"
      else strftime_d_m t
    else if (warning_count <=? 6)%nat then string_of_Z (Z.of_nat warning_count) +:+ " timmar"
    else "flera timmar" in
  let first_message :=
    emoji +:+ " FROST " +:+ risk_text +:+ " " +:+ time_or_duration +:+ ". Temp " +:+ temp
      +:+ "°C, " +:+ wind_text +:+ ". " +:+ action +:+ " MVH " +:+ location in
  let fallback :=
    emoji +:+ " FROST " +:+ risk_text +:+ ". Temp " +:+ temp +:+ "°C. " +:+ action
      +:+ " MVH " +:+ location in
  let msg := if (160 <? char_count first_message)%nat then fallback else first_message in
  create_frost_sms_message now warnings_df location = Ok msg /\
  ((char_count location + char_count temp <= 110)%nat -> (char_count msg <= 160)%nat).
Proof.
  intros Hne C1 C2 C3 C4 Hr Ht max_risk avg_wind temp warning_count high medium
         emoji risk_text action wind_text time_or_duration first_message fallback msg.
  split.
  - unfold create_frost_sms_message, require_column.
    rewrite Hne, C1, C2, C3, C4.
    fold max_risk. fold temp. fold avg_wind. fold warning_count.
    destruct (rows warnings_df) as [|r' rest] eqn:Erows; [discriminate|].
    simpl in Hr. injection Hr as ->. rewrite Ht.
    cbn [mbind result_bind].
    subst msg fallback first_message time_or_duration wind_text action risk_text emoji.
    unfold long_message, short_message, risk_at_least, wind_below.
    fold high. fold medium.
    destruct high; [|destruct medium];
      destruct avg_wind as [a|];
      try (destruct (a <? 2)%Q; [|destruct (a <? 4)%Q]);
      destruct (warning_count =? 1)%nat; reflexivity.
  - intros Hlen. subst msg.
    destruct (160 <? char_count first_message)%nat eqn:E;
      [|apply Nat.ltb_ge in E; exact E].
    subst fallback. fold (short_message emoji risk_text temp action location).
    rewrite short_message_length.
    assert (He : (char_count emoji + char_count risk_text + char_count action <= 27)%nat).
    { subst emoji risk_text action.
      destruct high; [|destruct medium]; vm_compute; lia. }
    lia.
Qed.

Lemma sms_message_length_witness :
  create_frost_sms_message 1704067200%Z one_warning "Din trakt"
    = Ok "🚨 FROST HÖG RISK idag. Temp -1°C, svag vind. Täck växter NU! MVH Din trakt" /\
  (char_count "🚨 FROST HÖG RISK idag. Temp -1°C, svag vind. Täck växter NU! MVH Din trakt"
   <= 160)%nat.
Proof.
  destruct (sms_message_length 1704067200%Z one_warning "Din trakt"
              _ 1704067200%Z
              eq_refl eq_refl eq_refl eq_refl eq_refl eq_refl eq_refl) as [Hmsg Hlen].
  split; [exact Hmsg|].
  apply Hlen. vm_compute. lia.
Defined.

End SmsMessage.

(** ** The batch analysis *)

Section BatchAnalysis.

Import Analyzer AnalyzerTable.

(** The claim C9 as written fails on the log: a table without rows (here
    one that has only the column valid_time) lacks both required columns
    and is returned as it is, but what is logged is the warning for an empty
    table, not an error. *)
Lemma missing_column_log_counterexample :
  has_column "temperature_2m" (mkDataFrame ["valid_time"] []) = false /\
  analyze_dataframe_advanced (mkDataFrame ["valid_time"] [])
  = (mkDataFrame ["valid_time"] [], [(LvlWarning, TomDataFrame)]).
Proof. split; reflexivity. Qed.

Lemma missing_cols_nonempty (df : DataFrame) :
  has_column "temperature_2m" df = false \/ has_column "wind_speed_10m" df = false ->
  List.filter (fun col => negb (has_column col df)) required_cols <> [].
Proof.
  unfold required_cols. simpl.
  intros [H|H]; rewrite H; simpl; [discriminate|].
  destruct (has_column "temperature_2m" df); discriminate.
Qed.

(** C9 (amended).  A classification with the temperature or the wind speed
    absent is ("okänd", 0), the source's text for the level unknown.  A
    table that lacks temperature_2m or wind_speed_10m is returned as it is,
    with no column added; when the table is not empty an error naming the
    missing columns is logged, and when it is empty the warning for an empty
    table is logged instead.  The analysis has no other outcome: it does not
    raise. *)
Theorem analyzer_missing_data :
  (forall (temperature wind_speed cloud_cover humidity : pyfloat) (hour_of_day : option Z),
     temperature = None \/ wind_speed = None ->
     risk_of (calculate_advanced_frost_risk temperature wind_speed cloud_cover humidity
                                            hour_of_day)
     = ("okänd", 0%Z)) /\
  (forall df : DataFrame,
     has_column "temperature_2m" df = false \/ has_column "wind_speed_10m" df = false ->
     fst (analyze_dataframe_advanced df) = df /\
     (df_empty df = false ->
        exists missing_cols : list string,
          missing_cols <> [] /\
          snd (analyze_dataframe_advanced df) = [(LvlError, SaknarKolumner missing_cols)]) /\
     (df_empty df = true ->
        snd (analyze_dataframe_advanced df) = [(LvlWarning, TomDataFrame)])).
Proof.
  split.
  - intros temperature wind_speed cloud_cover humidity hour_of_day [-> | ->].
    + reflexivity.
    + destruct temperature; reflexivity.
  - intros df Hmissing. pose proof (missing_cols_nonempty df Hmissing) as Hne.
    unfold analyze_dataframe_advanced.
    destruct (df_empty df) eqn:E.
    + split; [reflexivity|]. split; [discriminate|]. reflexivity.
    + destruct (List.filter _ required_cols) as [|c cs] eqn:F; [contradiction|].
      simpl. split; [reflexivity|]. split; [|discriminate].
      intros _. exists (c :: cs). split; [discriminate|reflexivity].
Qed.

Lemma analyzer_missing_data_witness :
  risk_of (calculate_advanced_frost_risk None (Some 2.0%Q) (Some 50.0%Q) None None)
    = ("okänd", 0%Z) /\
  fst (analyze_dataframe_advanced
         (mkDataFrame ["valid_time"; "wind_speed_10m"]
            [Pipeline.blank_row (Some 1735689600%Z)]))
    = mkDataFrame ["valid_time"; "wind_speed_10m"] [Pipeline.blank_row (Some 1735689600%Z)].
Proof.
  split.
  - apply (proj1 analyzer_missing_data). left. reflexivity.
  - apply (proj2 analyzer_missing_data). left. reflexivity.
Defined.

End BatchAnalysis.

(** ** The orchestrator *)

Section Run.

Import Pipeline Orchestrator Examples.

Lemma exit_decision_spec (errs : list string) :
  exit_decision errs <> 0%Z <->
  exists error : string,
    In error errs /\
    (contains "kritiskt" (lower error) = true \/ contains "databas" (lower error) = true).
Proof.
  unfold exit_decision.
  destruct (negb (is_nil errs) && existsb is_critical errs) eqn:E.
  - apply andb_true_iff in E. destruct E as [_ E].
    apply existsb_exists in E. destruct E as (error & Hin & Hc).
    split; [|discriminate]. intros _. exists error. split; [exact Hin|].
    unfold is_critical in Hc. apply orb_true_iff in Hc. exact Hc.
  - split; [intros H; exfalso; apply H; reflexivity|].
    intros (error & Hin & Hc). exfalso.
    apply andb_false_iff in E. destruct E as [E|E].
    + destruct errs; [destruct Hin|discriminate].
    + assert (T : existsb is_critical errs = true).
      { apply existsb_exists. exists error. split; [exact Hin|].
        unfold is_critical. apply orb_true_iff. exact Hc. }
      congruence.
Qed.

Lemma main_exit_status (w : World) :
  errors (main w) <> [] -> exit_status (main w) = exit_decision (errors (main w)).
Proof.
  unfold main.
  destruct (load_config w); [intros H; exfalso; apply H; reflexivity|].
  destruct (run_smoke_tests w) as [|[|]|];
    (destruct (prepare_database w); [intros H; exfalso; apply H; reflexivity|]) ||
    (intros H; exfalso; apply H; reflexivity).
  all: destruct (create_notification_manager w);
    [intros H; exfalso; apply H; reflexivity|].
  all: destruct (forecast_stage w) as [[df_fc errors1] events1];
    destruct (persist_stage w df_fc) as [errors2 events2]; reflexivity.
Qed.

Lemma database_error_critical (e : exn) :
  contains "databas" (lower (database_error e)) = true.
Proof. destruct e as [kind text]. reflexivity. Qed.

(** The claim C1 as written fails: the run in which the forecast fetch fails
    records that error and still ends with status 0, because the text of the
    error has neither keyword. *)
Lemma recorded_error_exit_zero :
  errors (main offline_world)
    = ["Prognos misslyckades: Max retries exceeded with url: /v1/forecast"] /\
  exit_status (main offline_world) = 0%Z.
Proof. split; reflexivity. Qed.

(** C1 (amended).  A run that recorded an error ends with a status other
    than 0 exactly when the lower-cased text of one of its recorded errors
    contains "kritiskt" or "databas"; the error recorded for a failure of
    the database save always does, so a run that recorded one never ends
    with status 0.  A run whose recorded errors carry neither keyword (a
    failed fetch, a failed notification) ends with status 0. *)
Theorem exit_status_of_recorded_errors (w : World) :
  (errors (main w) <> [] ->
     (exit_status (main w) <> 0%Z <->
      exists error : string,
        In error (errors (main w)) /\
        (contains "kritiskt" (lower error) = true \/
         contains "databas" (lower error) = true))) /\
  (forall e : exn, In (database_error e) (errors (main w)) -> exit_status (main w) <> 0%Z).
Proof.
  split.
  - intros Hne. rewrite (main_exit_status w Hne). apply exit_decision_spec.
  - intros e Hin.
    assert (Hne : errors (main w) <> []) by (intros E; rewrite E in Hin; destruct Hin).
    rewrite (main_exit_status w Hne). apply exit_decision_spec.
    exists (database_error e). split; [exact Hin|]. right. apply database_error_critical.
Qed.

Lemma exit_status_of_recorded_errors_witness :
  errors (main readonly_world) <> [] /\ exit_status (main readonly_world) <> 0%Z.
Proof.
  assert (Hin : In (database_error (PyErr "Exception" "attempt to write a readonly database"))
                   (errors (main readonly_world))) by (vm_compute; left; reflexivity).
  split.
  - vm_compute. discriminate.
  - exact (proj2 (exit_status_of_recorded_errors readonly_world) _ Hin).
Defined.

(** The claim C4 as written fails: in the run of [frost_world] the
    notification is sent before anything is saved. *)
Lemma notification_before_persistence :
  events (main frost_world)
  = ([FetchForecast; FrostAnalysis] ++ [SendNotifications]
       ++ [SaveWeather; SaveFrostWarnings] ++ [WriteHeartbeat])%list.
Proof. vm_compute. reflexivity. Qed.

Lemma forecast_stage_events (w : World) :
  snd (forecast_stage w) = [FetchForecast] \/
  snd (forecast_stage w) = [FetchForecast; FrostAnalysis] \/
  snd (forecast_stage w) = [FetchForecast; FrostAnalysis; SendNotifications].
Proof.
  unfold forecast_stage.
  destruct (fetch_forecast w) as [fc_json|e]; [|tauto].
  destruct (issue_time_local w) as [issue_time|e]; [|tauto].
  destruct (fst (transform_hourly_json _ _ _ _)) as [df_fc|e]; [|tauto].
  destruct (select_warnings _) as [warnings_only|e]; [|tauto].
  destruct (df_empty warnings_only); [tauto|].
  destruct (send_all_notifications w warnings_only); tauto.
Qed.

Lemma persist_stage_events (w : World) (df_fc : DataFrame) :
  snd (persist_stage w df_fc) = [] \/
  snd (persist_stage w df_fc) = [SaveWeather] \/
  snd (persist_stage w df_fc) = [SaveWeather; SaveFrostWarnings].
Proof.
  unfold persist_stage.
  destruct (df_empty df_fc); [tauto|].
  destruct (load_weather_data _ _); [|tauto].
  destruct (load_frost_warnings _ _ _ _); tauto.
Qed.

Ltac sublist_search :=
  repeat first [apply sublist_nil | apply sublist_skip | apply sublist_cons].

(** C4 (amended).  The stages of a run are entered one after the other in
    the order forecast fetch, frost analysis, notification, persistence of
    the forecast rows, persistence of the warning rows, heartbeat (a run
    enters some of them, never in another order): the notification is
    attempted before the run's data is saved. *)
Theorem stages_in_order (w : World) :
  events (main w) `sublist_of`
    [FetchForecast; FrostAnalysis; SendNotifications; SaveWeather; SaveFrostWarnings;
     WriteHeartbeat].
Proof.
  unfold main.
  destruct (load_config w); [simpl; sublist_search|].
  destruct (run_smoke_tests w) as [|[|]|];
    try (simpl; sublist_search; fail).
  all: destruct (prepare_database w); [simpl; sublist_search|].
  all: destruct (create_notification_manager w); [simpl; sublist_search|].
  all: pose proof (forecast_stage_events w) as H1;
    destruct (forecast_stage w) as [[df_fc errors1] events1];
    pose proof (persist_stage_events w df_fc) as H2;
    destruct (persist_stage w df_fc) as [errors2 events2];
    simpl in *;
    destruct H1 as [-> | [-> | ->]]; destruct H2 as [-> | [-> | ->]];
    simpl; sublist_search.
Qed.

End Run.

(** ** The transformation of the provider's answer *)

Section Transform.

Import Pipeline Examples.

Lemma map_zip_with_keep {A B C : Type} (f : B -> C) (g : A -> B -> B)
    (vs : list A) (rs : list B) :
  (forall v r, f (g v r) = f r) -> length vs = length rs ->
  map f (zip_with g vs rs) = map f rs.
Proof.
  intros Hf. revert rs. induction vs as [|v vs IH]; intros [|r rs] Hlen;
    simpl in *; try discriminate; [reflexivity|].
  rewrite Hf, IH by lia. reflexivity.
Qed.

Lemma map_zip_with_set {A B : Type} (f : B -> A) (g : A -> B -> B)
    (vs : list A) (rs : list B) :
  (forall v r, f (g v r) = v) -> length vs = length rs ->
  map f (zip_with g vs rs) = vs.
Proof.
  intros Hf. revert rs. induction vs as [|v vs IH]; intros [|r rs] Hlen;
    simpl in *; try discriminate; [reflexivity|].
  rewrite Hf, IH by lia. reflexivity.
Qed.

Lemma zip_with_same_length {A B : Type} (g : A -> B -> B) (vs : list A) (rs : list B) :
  length vs = length rs -> length (zip_with g vs rs) = length rs.
Proof.
  revert rs. induction vs as [|v vs IH]; intros [|r rs] Hlen;
    simpl in *; try discriminate; [reflexivity|].
  rewrite IH by lia. reflexivity.
Qed.

Lemma values_of_length (h : hourly_object) (cols : list string) (col : string) (n : nat) :
  parallel h cols n -> In col cols -> length (values_of h col n) = n.
Proof.
  intros Hp Hin. unfold values_of.
  destruct (series h !! col) as [values|] eqn:E; simpl.
  - exact (Hp col values Hin E).
  - apply length_replicate.
Qed.

Lemma assign_step_length (h : hourly_object) (cols : list string) (df : DataFrame)
    (col : string) :
  parallel h cols (length (rows df)) -> In col cols ->
  length (rows (assign_step h df col)) = length (rows df).
Proof.
  intros Hp Hin. unfold assign_step. simpl.
  apply zip_with_same_length. exact (values_of_length h cols col _ Hp Hin).
Qed.

Lemma assign_wanted_ok (h : hourly_object) (cols : list string) (df : DataFrame) :
  parallel h cols (length (rows df)) ->
  assign_wanted h cols df = Ok (foldl (assign_step h) df cols).
Proof.
  revert df. induction cols as [|col cols IH]; intros df Hp; simpl; [reflexivity|].
  assert (Hlen : length (values_of h col (length (rows df))) = length (rows df))
    by (apply (values_of_length h (col :: cols)); [exact Hp|left; reflexivity]).
  unfold assign_values. fold (values_of h col (length (rows df))).
  apply Nat.eqb_eq in Hlen. rewrite Hlen. cbn [mbind result_bind].
  fold (assign_step h df col). apply IH.
  intros c values Hin E.
  rewrite (assign_step_length h (col :: cols)); [|exact Hp|left; reflexivity].
  apply (Hp c values); [right; exact Hin|exact E].
Qed.

Lemma set_wanted_valid_time (col : string) (v : option Q) (r : Row) :
  valid_time (set_wanted col v r) = valid_time r.
Proof.
  unfold set_wanted.
  repeat match goal with |- context [if ?b then _ else _] => destruct b end; reflexivity.
Qed.

Lemma set_wanted_wind (col : string) (v : option Q) (r : Row) :
  wind_speed_10m (set_wanted col v r)
  = if String.eqb col "wind_speed_10m" then v else wind_speed_10m r.
Proof.
  unfold set_wanted.
  destruct (String.eqb col "temperature_2m") eqn:E1;
    [apply String.eqb_eq in E1; subst; reflexivity|].
  destruct (String.eqb col "relative_humidity_2m") eqn:E2;
    [apply String.eqb_eq in E2; subst; reflexivity|].
  destruct (String.eqb col "precipitation") eqn:E3;
    [apply String.eqb_eq in E3; subst; reflexivity|].
  destruct (String.eqb col "wind_speed_10m") eqn:E4; [reflexivity|].
  destruct (String.eqb col "precipitation_probability") eqn:E5; [reflexivity|].
  destruct (String.eqb col "cloud_cover") eqn:E6; reflexivity.
Qed.

Lemma assign_step_valid_time (h : hourly_object) (cols : list string) (df : DataFrame)
    (col : string) :
  parallel h cols (length (rows df)) -> In col cols ->
  map valid_time (rows (assign_step h df col)) = map valid_time (rows df).
Proof.
  intros Hp Hin. unfold assign_step. simpl.
  apply map_zip_with_keep.
  - intros v r. apply set_wanted_valid_time.
  - exact (values_of_length h cols col _ Hp Hin).
Qed.

Lemma assign_step_wind (h : hourly_object) (cols : list string) (df : DataFrame)
    (col : string) :
  parallel h cols (length (rows df)) -> In col cols ->
  map wind_speed_10m (rows (assign_step h df col))
  = if String.eqb col "wind_speed_10m"
    then values_of h "wind_speed_10m" (length (rows df))
    else map wind_speed_10m (rows df).
Proof.
  intros Hp Hin. unfold assign_step. simpl.
  pose proof (values_of_length h cols col _ Hp Hin) as Hlen.
  destruct (String.eqb col "wind_speed_10m") eqn:E.
  - apply String.eqb_eq in E. subst col.
    apply map_zip_with_set; [|exact Hlen].
    intros v r. reflexivity.
  - apply map_zip_with_keep; [|exact Hlen].
    intros v r. rewrite set_wanted_wind, E. reflexivity.
Qed.

Lemma foldl_assign_step (h : hourly_object) (all cols : list string) (df : DataFrame) :
  parallel h all (length (rows df)) -> incl cols all ->
  length (rows (foldl (assign_step h) df cols)) = length (rows df) /\
  map valid_time (rows (foldl (assign_step h) df cols)) = map valid_time (rows df) /\
  map wind_speed_10m (rows (foldl (assign_step h) df cols))
  = (if existsb (fun c => String.eqb c "wind_speed_10m") cols
     then values_of h "wind_speed_10m" (length (rows df))
     else map wind_speed_10m (rows df)) /\
  columns (foldl (assign_step h) df cols)
  = foldl (fun cs c => with_column c cs) (columns df) cols.
Proof.
  revert df. induction cols as [|col cols IH]; intros df Hp Hincl; simpl.
  - repeat split; reflexivity.
  - assert (Hin : In col all) by (apply Hincl; left; reflexivity).
    assert (Hincl' : incl cols all) by (intros c Hc; apply Hincl; right; exact Hc).
    pose proof (assign_step_length h all df col Hp Hin) as Hlen.
    assert (Hp' : parallel h all (length (rows (assign_step h df col))))
      by (rewrite Hlen; exact Hp).
    destruct (IH (assign_step h df col) Hp' Hincl') as (L & V & W & C).
    rewrite L, V, W, C, Hlen.
    rewrite (assign_step_valid_time h all df col Hp Hin).
    rewrite (assign_step_wind h all df col Hp Hin).
    repeat split.
    destruct (String.eqb col "wind_speed_10m"); simpl; [|reflexivity].
    destruct (existsb _ cols); reflexivity.
Qed.

Lemma select_columns_ok (cols : list string) (df : DataFrame) :
  forallb (fun c => has_column c df) cols = true ->
  select_columns cols df = Ok (mkDataFrame cols (rows df)).
Proof.
  intros H. unfold select_columns.
  assert (E : List.filter (fun c => negb (has_column c df)) cols = []).
  { induction cols as [|c cols IH]; [reflexivity|].
    simpl in *. apply andb_true_iff in H. destruct H as [Hc H].
    rewrite Hc. simpl. apply IH. exact H. }
  rewrite E. reflexivity.
Qed.

(** The claim C8 as written fails: when the provider's answer has two
    timestamps and a temperature array of one value, the transformation
    raises instead of producing two rows. *)
Lemma transform_length_counterexample :
  fst (transform_hourly_json
         (JsonObject (HourlyObject (mkHourly (Some [Some 1735689600%Z; Some 1735693200%Z])
                                             {[ "temperature_2m" := [Some 5.0%Q] ]})))
         "forecast" None "run")
  = Raise (PyErr "ValueError" "Length of values (1) does not match length of index (2)").
Proof. vm_compute. reflexivity. Qed.

(** C8 (amended).  For an answer that is an object whose arrays hold
    timestamps, numbers and nulls: when it has no member "hourly", or
    "hourly" is an object whose array of times is missing, null or empty,
    the transformation returns the empty table and does not raise.  When the answer is not an object, or its member "hourly" is
    null or another value that is not an object, the transformation raises
    [AttributeError].  Otherwise, when every wanted array that the answer
    carries has one value per timestamp, it returns a table with one row
    per timestamp, in which the wind speed is the provider's value divided
    by 3.6 (absent where the provider has no value), and whose columns are,
    in this order, valid_time, temperature_2m, relative_humidity_2m,
    precipitation, wind_speed_10m, precipitation_probability, cloud_cover,
    dataset, forecast_issue_time, horizon_hours, run_id. *)
Theorem transform_hourly_json_table (json_data : forecast_json) (dataset : string)
    (forecast_issue_time : option Z) (run_id : string) :
  ((json_data = JsonObject HourlyMissing \/
    exists h : hourly_object,
      json_data = JsonObject (HourlyObject h) /\ (time h = None \/ time h = Some [])) ->
   fst (transform_hourly_json json_data dataset forecast_issue_time run_id)
   = Ok empty_frame) /\
  (forall type_name : string,
     json_data = JsonNotObject type_name \/
     json_data = JsonObject (HourlyNotObject type_name) ->
     fst (transform_hourly_json json_data dataset forecast_issue_time run_id)
     = Raise (PyErr "AttributeError"
                    ("'" +:+ type_name +:+ "' object has no attribute 'get'"))) /\
  (forall (h : hourly_object) (times : list (option Z)),
     json_data = JsonObject (HourlyObject h) -> time h = Some times -> times <> [] ->
     (forall (col : string) (values : list (option Q)),
        In col WANTED_COLS -> series h !! col = Some values ->
        length values = length times) ->
     exists df : DataFrame,
       fst (transform_hourly_json json_data dataset forecast_issue_time run_id) = Ok df /\
       map valid_time (rows df) = times /\
       map wind_speed_10m (rows df)
       = map (fun v => match v with Some x => Some (x / 3.6)%Q | None => None end)
             (default (replicate (length times) None) (series h !! "wind_speed_10m")) /\
       columns df
       = ["valid_time"; "temperature_2m"; "relative_humidity_2m"; "precipitation";
          "wind_speed_10m"; "precipitation_probability"; "cloud_cover"; "dataset";
          "forecast_issue_time"; "horizon_hours"; "run_id"]).
Proof.
  split; [|split].
  - intros [E | (h & E & [T | T])]; rewrite E; unfold transform_hourly_json;
      cbn [hourly_of]; try rewrite T; reflexivity.
  - intros type_name [E | E]; rewrite E; reflexivity.
  - intros h times E T Hne Hpar.
    rewrite E. unfold transform_hourly_json. cbn [hourly_of]. rewrite T. simpl default.
    assert (N : is_nil times = false) by (destruct times; [contradiction|reflexivity]).
    rewrite N.
    set (df0 := mkDataFrame ["valid_time"] (map blank_row times)).
    assert (L0 : length (rows df0) = length times) by apply length_map.
    assert (Hp : parallel h WANTED_COLS (length (rows df0)))
      by (rewrite L0; exact Hpar).
    rewrite (assign_wanted_ok h WANTED_COLS df0 Hp). cbn [mbind result_bind fst].
    destruct (foldl_assign_step h WANTED_COLS WANTED_COLS df0 Hp (incl_refl _))
      as (L & V & W & C).
    set (df1 := foldl (assign_step h) df0 WANTED_COLS) in *.
    assert (C1 : columns df1
                 = ["valid_time"; "temperature_2m"; "relative_humidity_2m";
                    "precipitation"; "wind_speed_10m"; "precipitation_probability";
                    "cloud_cover"]) by (rewrite C; reflexivity).
    assert (Hw : has_column "wind_speed_10m" df1 = true)
      by (unfold has_column; rewrite C1; reflexivity).
    rewrite Hw.
    assert (V' : map valid_time (rows df1) = times).
    { rewrite V. unfold df0. cbn [rows]. rewrite map_map. apply map_id. }
    assert (W' : map wind_speed_10m (rows df1)
                 = default (replicate (length times) None) (series h !! "wind_speed_10m")).
    { rewrite W, L0. reflexivity. }
    clearbody df1. clear L V W C Hp L0. clearbody df0.
    eexists. split.
    + apply select_columns_ok.
      destruct forecast_issue_time;
        unfold transform_columns; cbn [forallb]; unfold has_column, assign;
        cbn [columns]; rewrite C1; vm_compute; reflexivity.
    + cbn [rows columns]. split; [|split; [|reflexivity]].
      * destruct forecast_issue_time; unfold assign; cbn [rows];
          rewrite !map_map; cbn; exact V'.
      * destruct forecast_issue_time; unfold assign; cbn [rows];
          rewrite !map_map; cbn; rewrite <- W', map_map; reflexivity.
Qed.

Lemma transform_hourly_json_table_witness :
  exists df : DataFrame,
    fst (transform_hourly_json wind_payload "forecast" (Some 1735680000%Z) "test_run_123")
      = Ok df /\
    map valid_time (rows df) = [Some 1735689600%Z; Some 1735693200%Z] /\
    map wind_speed_10m (rows df)
    = map (fun v => match v with Some x => Some (x / 3.6)%Q | None => None end)
          (default (replicate 2 None) (series wind_hourly !! "wind_speed_10m")) /\
    columns df
    = ["valid_time"; "temperature_2m"; "relative_humidity_2m"; "precipitation";
       "wind_speed_10m"; "precipitation_probability"; "cloud_cover"; "dataset";
       "forecast_issue_time"; "horizon_hours"; "run_id"].
Proof.
  apply (proj2 (proj2 (transform_hourly_json_table wind_payload "forecast"
                         (Some 1735680000%Z) "test_run_123"))
               wind_hourly [Some 1735689600%Z; Some 1735693200%Z]).
  - reflexivity.
  - reflexivity.
  - discriminate.
  - intros col values Hin E.
    repeat (destruct Hin as [<- | Hin];
            [vm_compute in E; first [discriminate | injection E as <-; reflexivity]|]).
    destruct Hin.
Defined.

End Transform.

(** ** Deduplication by valid time *)

Section Deduplication.

Import Pipeline.

Lemma insert_sorted_perm (r : Row) (l : list Row) :
  Permutation (insert_sorted r l) (r :: l).
Proof.
  induction l as [|x l IH]; simpl; [reflexivity|].
  destruct (sort_compare r x); try reflexivity.
  rewrite IH. apply perm_swap.
Qed.

Lemma sort_values_perm (l : list Row) : Permutation (sort_values l) l.
Proof.
  induction l as [|r l IH]; simpl; [reflexivity|].
  rewrite insert_sorted_perm. apply perm_skip. exact IH.
Qed.

Lemma sort_values_In (r : Row) (l : list Row) : In r (sort_values l) <-> In r l.
Proof.
  split; apply Permutation_in; [|symmetry]; apply sort_values_perm.
Qed.

Lemma sort_values_length (l : list Row) : length (sort_values l) = length l.
Proof. apply Permutation_length, sort_values_perm. Qed.

Lemma insert_key_In (k x : Z) (l : list Z) :
  In x (insert_key k l) <-> x = k \/ In x l.
Proof.
  induction l as [|y l IH]; simpl.
  - intuition.
  - destruct (k <? y)%Z; [simpl; intuition|].
    destruct (k =? y)%Z eqn:E.
    + apply Z.eqb_eq in E. subst y. simpl. intuition.
    + simpl. rewrite IH. intuition.
Qed.

Lemma insert_key_sorted (k : Z) (l : list Z) :
  StronglySorted Z.lt l -> StronglySorted Z.lt (insert_key k l).
Proof.
  induction l as [|y l IH]; intros Hs; simpl.
  - constructor; constructor.
  - inversion Hs as [|? ? Hs' Hall]; subst.
    destruct (k <? y)%Z eqn:E1.
    + apply Z.ltb_lt in E1. constructor; [exact Hs|].
      constructor; [exact E1|].
      eapply Forall_impl; [exact Hall|]. intros z Hz. simpl in Hz. lia.
    + destruct (k =? y)%Z eqn:E2; [exact Hs|].
      apply Z.ltb_ge in E1. apply Z.eqb_neq in E2.
      constructor; [apply IH; exact Hs'|].
      apply List.Forall_forall. intros z Hz. apply insert_key_In in Hz.
      destruct Hz as [-> | Hz]; [lia|].
      rewrite List.Forall_forall in Hall. apply Hall. exact Hz.
Qed.

Lemma insert_key_length (k : Z) (l : list Z) :
  (length (insert_key k l) <= S (length l))%nat.
Proof.
  induction l as [|y l IH]; simpl; [lia|].
  destruct (k <? y)%Z; [simpl; lia|].
  destruct (k =? y)%Z; simpl; lia.
Qed.

Lemma insert_key_length_fresh (k : Z) (l : list Z) :
  ~ In k l -> length (insert_key k l) = S (length l).
Proof.
  induction l as [|y l IH]; intros Hn; simpl; [reflexivity|].
  destruct (k <? y)%Z; [reflexivity|].
  destruct (k =? y)%Z eqn:E.
  - apply Z.eqb_eq in E. exfalso. apply Hn. left. symmetry. exact E.
  - simpl. rewrite IH; [reflexivity|]. intros H. apply Hn. right. exact H.
Qed.

Lemma group_keys_In (k : Z) (l : list Row) :
  In k (group_keys l) <-> exists r : Row, In r l /\ valid_time r = Some k.
Proof.
  induction l as [|x l IH]; simpl.
  - split; [intros []|intros (r & [] & _)].
  - destruct (valid_time x) as [kx|] eqn:E.
    + rewrite insert_key_In, IH. split.
      * intros [-> | (r & Hin & Hr)]; [exists x; auto|exists r; auto].
      * intros (r & [<- | Hin] & Hr); [left; congruence|right; exists r; auto].
    + rewrite IH. split.
      * intros (r & Hin & Hr). exists r. auto.
      * intros (r & [<- | Hin] & Hr); [congruence|exists r; auto].
Qed.

Lemma group_keys_sorted (l : list Row) : StronglySorted Z.lt (group_keys l).
Proof.
  induction l as [|x l IH]; simpl; [constructor|].
  destruct (valid_time x); [apply insert_key_sorted|]; exact IH.
Qed.

Lemma strongly_sorted_NoDup (l : list Z) : StronglySorted Z.lt l -> List.NoDup l.
Proof.
  induction 1 as [|x l Hs IH Hall]; constructor; [|exact IH].
  intros Hin. rewrite List.Forall_forall in Hall. specialize (Hall x Hin). lia.
Qed.

Lemma NoDup_map_Some (l : list Z) : List.NoDup l -> List.NoDup (map Some l).
Proof.
  induction 1 as [|x l Hnot Hnd IH]; simpl; constructor; [|exact IH].
  intros Hin. apply in_map_iff in Hin. destruct Hin as (y & E & Hy).
  injection E as ->. exact (Hnot Hy).
Qed.

Lemma group_keys_NoDup (l : list Row) : List.NoDup (group_keys l).
Proof. apply strongly_sorted_NoDup, group_keys_sorted. Qed.

Lemma group_keys_length (l : list Row) : (length (group_keys l) <= length l)%nat.
Proof.
  induction l as [|x l IH]; simpl; [lia|].
  destruct (valid_time x) as [k|]; [|lia].
  pose proof (insert_key_length k (group_keys l)). lia.
Qed.

Lemma group_keys_length_distinct (l : list Row) :
  List.NoDup (map valid_time l) -> (forall r : Row, In r l -> valid_time r <> None) ->
  length (group_keys l) = length l.
Proof.
  induction l as [|x l IH]; intros Hnd Hp; simpl; [reflexivity|].
  simpl in Hnd. inversion Hnd as [|? ? Hnot Hnd']; subst.
  destruct (valid_time x) as [k|] eqn:E.
  - rewrite insert_key_length_fresh.
    + rewrite IH; [reflexivity|exact Hnd'|]. intros r Hr. apply Hp. right. exact Hr.
    + intros Hin. apply group_keys_In in Hin. destruct Hin as (r & Hr & Hk).
      apply Hnot. rewrite <- Hk. apply in_map. exact Hr.
  - exfalso. apply (Hp x); [left; reflexivity|exact E].
Qed.

(** The keys do not depend on the order of the rows. *)
Lemma group_keys_perm_In (k : Z) (l1 l2 : list Row) :
  Permutation l1 l2 -> In k (group_keys l1) -> In k (group_keys l2).
Proof.
  intros Hp. rewrite !group_keys_In. intros (r & Hin & Hr).
  exists r. split; [|exact Hr]. eapply Permutation_in; eassumption.
Qed.

Lemma sorted_lists_equal (l1 l2 : list Z) :
  StronglySorted Z.lt l1 -> StronglySorted Z.lt l2 ->
  (forall k : Z, In k l1 <-> In k l2) -> l1 = l2.
Proof.
  revert l2. induction l1 as [|x l1 IH]; intros l2 H1 H2 Hiff.
  - destruct l2 as [|y l2]; [reflexivity|].
    exfalso. apply (proj2 (Hiff y)). left. reflexivity.
  - destruct l2 as [|y l2]; [exfalso; apply (proj1 (Hiff x)); left; reflexivity|].
    inversion H1 as [|? ? H1' A1]; inversion H2 as [|? ? H2' A2]; subst.
    rewrite List.Forall_forall in A1, A2.
    assert (x = y).
    { destruct (proj1 (Hiff x) (or_introl eq_refl)) as [E | Hx]; [congruence|].
      destruct (proj2 (Hiff y) (or_introl eq_refl)) as [E | Hy]; [congruence|].
      specialize (A1 y Hy). specialize (A2 x Hx). lia. }
    subst y. f_equal. apply IH; [exact H1'|exact H2'|].
    intros k. split; intros Hk.
    + destruct (proj1 (Hiff k) (or_intror Hk)) as [E | Hk']; [|exact Hk'].
      subst k. specialize (A1 x Hk). lia.
    + destruct (proj2 (Hiff k) (or_intror Hk)) as [E | Hk']; [|exact Hk'].
      subst k. specialize (A2 x Hk). lia.
Qed.

Lemma group_keys_perm (l1 l2 : list Row) :
  Permutation l1 l2 -> group_keys l1 = group_keys l2.
Proof.
  intros Hp. apply sorted_lists_equal; try apply group_keys_sorted.
  intros k. split; apply group_keys_perm_In; [exact Hp|symmetry; exact Hp].
Qed.

Lemma with_column_keeps (c col : string) (cols : list string) :
  c ∈ cols -> c ∈ with_column col cols.
Proof.
  intros H. unfold with_column. destruct (bool_decide (col ∈ cols)); [exact H|].
  apply elem_of_app. left. exact H.
Qed.

Lemma deduplicate_ok (df : DataFrame) :
  has_column "valid_time" df = true ->
  deduplicate df
  = Ok (mkDataFrame (deduplicated_columns (columns df)) (deduplicated (rows df))).
Proof.
  intros H. unfold deduplicate, require_column.
  assert (H' : has_column "valid_time"
                 (assign "forecast_issue_datetime"
                    (fun r => set_forecast_issue_datetime (forecast_issue_time r) r) df)
               = true).
  { unfold has_column in *. apply bool_decide_eq_true. apply bool_decide_eq_true in H.
    simpl. apply with_column_keeps. exact H. }
  rewrite H'. reflexivity.
Qed.

Lemma group_keys_map (f : Row -> Row) (l : list Row) :
  (forall r : Row, valid_time (f r) = valid_time r) ->
  group_keys (map f l) = group_keys l.
Proof.
  intros Hf. induction l as [|x l IH]; simpl; [reflexivity|].
  rewrite Hf, IH. reflexivity.
Qed.

Lemma deduplicated_keys (l : list Row) :
  map valid_time (deduplicated l) = map Some (group_keys l).
Proof.
  unfold deduplicated. rewrite map_map. simpl.
  rewrite (group_keys_perm _ _ (sort_values_perm _)).
  rewrite group_keys_map by reflexivity. reflexivity.
Qed.

Lemma deduplicated_length (l : list Row) :
  length (deduplicated l) = length (group_keys l).
Proof.
  rewrite <- (length_map valid_time), deduplicated_keys, length_map. reflexivity.
Qed.

Lemma first_valid_const {A : Type} (f : Row -> option A) (g : list Row) (v : option A) :
  g <> [] -> (forall r : Row, In r g -> f r = v) -> first_valid f g = v.
Proof.
  induction g as [|x g IH]; intros Hne Hall; [contradiction|].
  simpl. rewrite (Hall x (or_introl eq_refl)).
  destruct v as [a|]; [reflexivity|].
  destruct g as [|y g]; [reflexivity|].
  apply IH; [discriminate|]. intros r Hr. apply Hall. right. exact Hr.
Qed.

(** A row that survives the deduplication carries a key of the table and,
    when all rows of the table carry the same data set tag, that tag. *)
Lemma deduplicated_row (l : list Row) (r : Row) :
  In r (deduplicated l) ->
  exists k : Z,
    valid_time r = Some k /\
    (exists r0 : Row, In r0 l /\ valid_time r0 = Some k) /\
    forall ds : option string,
      (forall r0 : Row, In r0 l -> dataset r0 = ds) -> dataset r = ds.
Proof.
  unfold deduplicated. cbv zeta.
  set (f := fun r => set_forecast_issue_datetime (forecast_issue_time r) r).
  intros Hin. apply in_map_iff in Hin. destruct Hin as (k & <- & Hk).
  exists k. split; [reflexivity|].
  apply group_keys_In in Hk. destruct Hk as (r1 & Hr1 & Hv).
  apply (proj1 (sort_values_In _ _)) in Hr1. apply in_map_iff in Hr1.
  destruct Hr1 as (r0 & <- & Hr0).
  split; [exists r0; split; [exact Hr0|exact Hv]|].
  intros ds Hds. simpl. apply first_valid_const.
  - assert (Hg : In (f r0) (List.filter (in_group k) (sort_values (map f l)))).
    { apply filter_In. split.
      - apply (proj2 (sort_values_In _ _)). apply in_map. exact Hr0.
      - unfold in_group. apply bool_decide_eq_true. exact Hv. }
    intros E. rewrite E in Hg. destruct Hg.
  - intros r Hr. apply filter_In in Hr. destruct Hr as [Hr _].
    apply (proj1 (sort_values_In _ _)) in Hr. apply in_map_iff in Hr.
    destruct Hr as (r2 & <- & Hr2). simpl. apply Hds. exact Hr2.
Qed.

Lemma deduplicated_key_present (l : list Row) (r0 : Row) (k : Z) :
  In r0 l -> valid_time r0 = Some k ->
  exists r : Row, In r (deduplicated l) /\ valid_time r = Some k.
Proof.
  intros Hin Hv.
  assert (Hk : In (Some k) (map valid_time (deduplicated l))).
  { rewrite deduplicated_keys. apply in_map. apply group_keys_In.
    exists r0. split; assumption. }
  apply in_map_iff in Hk. destruct Hk as (r & Hr & Hin'). exists r. split; assumption.
Qed.

Lemma insert_all_accepted (execute : engine) (stmt : statement) (records : list Row) :
  (forall (st : statement) (rec : Row), execute st rec = None) ->
  insert_all execute stmt records = Ok records.
Proof.
  intros Hok. induction records as [|rec rest IH]; simpl; [reflexivity|].
  rewrite Hok, IH. reflexivity.
Qed.

(** *** The order of the sort *)

Ltac compare_cases :=
  unfold sorted_before, sort_compare, compare_na_last;
  repeat match goal with
  | |- context [valid_time ?r] => destruct (valid_time r)
  | |- context [forecast_issue_datetime ?r] => destruct (forecast_issue_datetime r)
  end;
  simpl;
  repeat match goal with
  | |- context [Z.compare ?a ?b] => destruct (Z.compare_spec a b)
  end;
  simpl; intros; try congruence; try lia.

Lemma sorted_before_total (r1 r2 : Row) :
  sort_compare r1 r2 = Gt -> sorted_before r2 r1.
Proof. compare_cases. Qed.

Lemma sorted_before_trans (r1 r2 r3 : Row) :
  sorted_before r1 r2 -> sorted_before r2 r3 -> sorted_before r1 r3.
Proof. compare_cases. Qed.

Lemma insert_sorted_sorted (r : Row) (l : list Row) :
  StronglySorted sorted_before l -> StronglySorted sorted_before (insert_sorted r l).
Proof.
  induction l as [|x l IH]; intros Hs; simpl.
  - constructor; constructor.
  - inversion Hs as [|? ? Hs' Hall]; subst.
    rewrite List.Forall_forall in Hall.
    destruct (sort_compare r x) eqn:E.
    + constructor; [exact Hs|]. apply List.Forall_forall. intros y [<- | Hy].
      * unfold sorted_before. congruence.
      * apply (sorted_before_trans r x y); [unfold sorted_before; congruence|].
        apply Hall. exact Hy.
    + constructor; [exact Hs|]. apply List.Forall_forall. intros y [<- | Hy].
      * unfold sorted_before. congruence.
      * apply (sorted_before_trans r x y); [unfold sorted_before; congruence|].
        apply Hall. exact Hy.
    + constructor; [apply IH; exact Hs'|]. apply List.Forall_forall. intros y Hy.
      apply (Permutation_in _ (insert_sorted_perm r l)) in Hy.
      destruct Hy as [<- | Hy]; [apply sorted_before_total; exact E|apply Hall; exact Hy].
Qed.

Lemma sort_values_sorted (l : list Row) : StronglySorted sorted_before (sort_values l).
Proof.
  induction l as [|r l IH]; simpl; [constructor|].
  apply insert_sorted_sorted. exact IH.
Qed.

Lemma filter_sorted (f : Row -> bool) (l : list Row) :
  StronglySorted sorted_before l -> StronglySorted sorted_before (List.filter f l).
Proof.
  induction 1 as [|x l Hs IH Hall]; simpl; [constructor|].
  destruct (f x); [|exact IH].
  constructor; [exact IH|].
  rewrite List.Forall_forall in *. intros y Hy. apply filter_In in Hy. apply Hall, Hy.
Qed.

(** In a group in sort order the first issue time that is present is the
    latest one. *)
Lemma first_valid_latest (k : Z) (g : list Row) :
  StronglySorted sorted_before g ->
  (forall r : Row, In r g ->
     valid_time r = Some k /\ forecast_issue_datetime r = forecast_issue_time r) ->
  forall (r0 : Row) (t0 : Z),
    In r0 g -> forecast_issue_time r0 = Some t0 ->
    exists t : Z, first_valid forecast_issue_time g = Some t /\ (t0 <= t)%Z.
Proof.
  induction 1 as [|x g Hs IH Hall]; intros Hg r0 t0 Hin Ht0; [destruct Hin|].
  simpl. destruct (Hg x (or_introl eq_refl)) as [Hvx Hdx].
  rewrite List.Forall_forall in Hall.
  destruct Hin as [<- | Hin].
  - rewrite Ht0. exists t0. split; [reflexivity|lia].
  - destruct (Hg r0 (or_intror Hin)) as [Hv0 Hd0].
    pose proof (Hall r0 Hin) as Hle. unfold sorted_before, sort_compare in Hle.
    rewrite Hvx, Hv0, Hdx, Hd0, Ht0 in Hle. simpl in Hle. rewrite Z.compare_refl in Hle.
    destruct (forecast_issue_time x) as [tx|] eqn:Etx.
    + exists tx. split; [reflexivity|]. simpl in Hle.
      destruct (Z.compare_spec t0 tx); try lia. congruence.
    + simpl in Hle. congruence.
Qed.

Lemma first_valid_from_group {A : Type} (f : Row -> option A) (g : list Row) (a : A) :
  first_valid f g = Some a -> exists r : Row, In r g /\ f r = Some a.
Proof.
  induction g as [|x g IH]; simpl; [discriminate|].
  destruct (f x) as [b|] eqn:E.
  - intros H. injection H as <-. exists x. split; [left; reflexivity|exact E].
  - intros H. destruct (IH H) as (r & Hr & Hf). exists r. split; [right; exact Hr|exact Hf].
Qed.

(** Latest issue wins, for the issue time: the row that survives for a valid
    time carries the latest issue time of the rows of that valid time. *)
Lemma deduplicated_latest_issue (l : list Row) (r : Row) (k : Z) :
  In r (deduplicated l) -> valid_time r = Some k ->
  (forall (r0 : Row) (t0 : Z),
     In r0 l -> valid_time r0 = Some k -> forecast_issue_time r0 = Some t0 ->
     exists t : Z, forecast_issue_time r = Some t /\ (t0 <= t)%Z) /\
  (forall t : Z,
     forecast_issue_time r = Some t ->
     exists r0 : Row, In r0 l /\ valid_time r0 = Some k /\ forecast_issue_time r0 = Some t).
Proof.
  unfold deduplicated. cbv zeta.
  set (f := fun r => set_forecast_issue_datetime (forecast_issue_time r) r).
  intros Hin Hv. apply in_map_iff in Hin. destruct Hin as (k' & <- & Hk).
  simpl in Hv. injection Hv as ->. simpl.
  set (g := List.filter (in_group k) (sort_values (map f l))).
  assert (Hg : forall r1 : Row, In r1 g ->
            exists r0 : Row, r1 = f r0 /\ In r0 l /\ valid_time r0 = Some k).
  { intros r1 Hr1. apply filter_In in Hr1. destruct Hr1 as [Hr1 Hkey].
    apply (proj1 (sort_values_In _ _)) in Hr1. apply in_map_iff in Hr1.
    destruct Hr1 as (r0 & <- & Hr0). exists r0. split; [reflexivity|]. split; [exact Hr0|].
    unfold in_group in Hkey. apply bool_decide_eq_true in Hkey. exact Hkey. }
  split.
  - intros r0 t0 Hr0 Hv0 Ht0.
    apply (first_valid_latest k g) with (r0 := f r0).
    + apply filter_sorted, sort_values_sorted.
    + intros r1 Hr1. destruct (Hg r1 Hr1) as (r2 & -> & _ & Hv2). split; [exact Hv2|reflexivity].
    + apply filter_In. split.
      * apply (proj2 (sort_values_In _ _)). apply in_map. exact Hr0.
      * unfold in_group. apply bool_decide_eq_true. exact Hv0.
    + exact Ht0.
  - intros t Ht. destruct (first_valid_from_group _ _ _ Ht) as (r1 & Hr1 & Hf1).
    destruct (Hg r1 Hr1) as (r0 & -> & Hr0 & Hv0).
    exists r0. split; [exact Hr0|]. split; [exact Hv0|exact Hf1].
Qed.

End Deduplication.

(** ** The two loaders *)

Section Loaders.

Import Analyzer AnalyzerTable Pipeline Examples.

(** C5: what the code does at the failing input.  The record written for
    the hour carries the later issue time and run, and the temperature of
    the forecast issued earlier: [GroupBy.first] fills the absent cell of
    the most recent row from the older row. *)
Lemma latest_issue_row_filled_from_older :
  exists r : Row,
    weather_records overlapping_forecasts = Ok [r] /\
    forecast_issue_time r = Some 1735729200%Z /\
    run_id r = Some "run_2" /\
    relative_humidity_2m r = Some 85%Q /\
    temperature_2m r = Some 5.0%Q.
Proof. eexists. split; [vm_compute; reflexivity|]. repeat split. Qed.

Lemma analyze_forecast_table (raw : DataFrame) :
  columns raw = transform_columns -> rows raw <> [] ->
  exists has_humidity : bool,
    fst (analyze_dataframe_advanced raw)
    = mkDataFrame (transform_columns ++ frost_columns)%list
        (map (fun row => set_frost (analyze_row has_humidity true row) row) (rows raw)).
Proof.
  destruct raw as [cols rws]. simpl. intros -> Hne.
  destruct rws as [|r rws]; [contradiction|].
  eexists. unfold analyze_dataframe_advanced.
  change (df_empty (mkDataFrame transform_columns (r :: rws))) with false.
  cbv iota.
  change (List.filter
            (fun col => negb (has_column col (mkDataFrame transform_columns (r :: rws))))
            required_cols) with (@nil string).
  change (has_column "cloud_cover" (mkDataFrame transform_columns (r :: rws))) with true.
  cbv beta iota zeta. cbn [negb is_nil fst].
  change (has_column "valid_time" (mkDataFrame transform_columns (r :: rws))) with true.
  change (has_column "relative_humidity_2m" (mkDataFrame transform_columns (r :: rws)))
    with true.
  reflexivity.
Qed.

Lemma set_frost_cells (result : string * Z * details) (r : Row) :
  valid_time (set_frost result r) = valid_time r /\
  dataset (set_frost result r) = dataset r /\
  forecast_issue_time (set_frost result r) = forecast_issue_time r /\
  frost_risk_numeric (set_frost result r) = Some (snd (fst result)) /\
  frost_warning (set_frost result r) = Some (0 <? snd (fst result))%Z.
Proof. destruct result as [[risk_text risk_numeric] det]. repeat split. Qed.

Lemma frost_warning_records_forecast (now : Z) (l : list Row) :
  frost_warning_records now (mkDataFrame (transform_columns ++ frost_columns)%list l)
  = Ok (deduplicated (map (set_created_at (Some now)) (warning_rows l))).
Proof.
  unfold frost_warning_records, require_column.
  change (has_column "frost_warning" (mkDataFrame (transform_columns ++ frost_columns)%list l))
    with true.
  cbn [mbind result_bind columns rows].
  destruct (warning_rows l) as [|r rest] eqn:E; [reflexivity|].
  change (df_empty (mkDataFrame (transform_columns ++ frost_columns)%list (r :: rest)))
    with false.
  cbv iota.
  set (wdf := assign "created_at" (set_created_at (Some now))
                (mkDataFrame (transform_columns ++ frost_columns)%list (r :: rest))).
  change (has_column "forecast_issue_time" wdf) with true. cbv iota.
  rewrite (deduplicate_ok wdf) by reflexivity.
  cbn [mbind result_bind].
  set (ddf := mkDataFrame (deduplicated_columns (columns wdf)) (deduplicated (rows wdf))).
  change (has_column "cloud_cover" ddf) with true. cbv iota.
  rewrite (select_columns_ok warning_cols ddf) by reflexivity.
  reflexivity.
Qed.

Lemma weather_records_forecast (l : list Row) :
  weather_records (mkDataFrame (transform_columns ++ frost_columns)%list l) = Ok l \/
  weather_records (mkDataFrame (transform_columns ++ frost_columns)%list l)
  = Ok (deduplicated l).
Proof.
  unfold weather_records.
  change (has_column "forecast_issue_time"
            (mkDataFrame (transform_columns ++ frost_columns)%list l)) with true.
  cbn [andb rows].
  destruct (negb (forallb (fun r => isna (forecast_issue_time r)) l)); [|left; reflexivity].
  right. rewrite deduplicate_ok by reflexivity. reflexivity.
Qed.

Lemma warning_rows_analyzed (f : Row -> string * Z * details) (l : list Row) :
  warning_rows (map (fun row => set_frost (f row) row) l)
  = risky_rows (map (fun row => set_frost (f row) row) l).
Proof.
  unfold warning_rows, risky_rows. apply filter_ext_in.
  intros r Hr. apply in_map_iff in Hr. destruct Hr as (row & <- & _).
  destruct (set_frost_cells (f row) row) as (_ & _ & _ & -> & ->). simpl.
  destruct (0 <? snd (fst (f row)))%Z eqn:E.
  - apply Z.ltb_lt in E. rewrite !bool_decide_eq_true_2; auto.
  - apply Z.ltb_ge in E. rewrite !bool_decide_eq_false_2; [reflexivity|lia|discriminate].
Qed.

(** On a database that accepts every record (a frost_warnings table that
    has the column cloud_cover), for the analysis of a forecast table (not
    empty, with the columns of the transformation): the warning write
    returns the number of rows it wrote; the rows written have pairwise
    different valid times, which are exactly the valid times present among
    the rows with a risk number above 0; so their number is that of the
    different valid times among those rows, at most the number of those
    rows, and equal to it when those rows have pairwise different, present
    valid times; nothing is written when there is no such row; and when all
    rows of the table carry the same data set tag, every written row's
    (valid_time, dataset) pair is also the pair of a row written by the
    weather write. *)
Lemma accepted_frost_warnings_written (execute : engine) (now : Z) (raw : DataFrame)
    (run_id : string) :
  columns raw = transform_columns -> rows raw <> [] ->
  (forall (st : statement) (rec : Row), execute st rec = None) ->
  let df := fst (analyze_dataframe_advanced raw) in
  let risky := risky_rows (rows df) in
  exists written : list Row,
    load_frost_warnings execute now df run_id = Ok (length written, written) /\
    List.NoDup (map valid_time written) /\
    (forall t : option Z,
       In t (map valid_time written) <-> t <> None /\ In t (map valid_time risky)) /\
    (length written <= length risky)%nat /\
    (List.NoDup (map valid_time risky) -> ~ In None (map valid_time risky) ->
     length written = length risky) /\
    (risky = [] -> written = []) /\
    (forall ds : option string,
       (forall r : Row, In r (rows raw) -> dataset r = ds) ->
       exists weather_written : list Row,
         load_weather_data execute df = Ok (length weather_written, weather_written) /\
         forall r : Row, In r written ->
           exists r' : Row,
             In r' weather_written /\ valid_time r' = valid_time r /\
             dataset r' = dataset r).
Proof.
  intros Hcols Hrows Hexec df risky.
  destruct (analyze_forecast_table raw Hcols Hrows) as (hh & Hdf).
  subst df risky. rewrite Hdf. cbn [rows].
  set (g := fun row => set_frost (analyze_row hh true row) row).
  set (l := map g (rows raw)).
  set (sc := set_created_at (Some now)).
  assert (Hwr : warning_rows l = risky_rows l) by apply warning_rows_analyzed.
  assert (Hl : l <> []).
  { unfold l. destruct (rows raw); [contradiction|discriminate]. }
  assert (Hne : df_empty (mkDataFrame (transform_columns ++ frost_columns)%list l) = false).
  { destruct l; [contradiction|reflexivity]. }
  assert (Hkeys : forall k : Z,
            In k (group_keys (map sc (risky_rows l))) <->
            In (Some k) (map valid_time (risky_rows l))).
  { intros k. rewrite group_keys_map by reflexivity. rewrite group_keys_In, in_map_iff.
    split; intros (r & A & B); exists r; auto. }
  exists (deduplicated (map sc (risky_rows l))).
  split; [|split; [|split; [|split; [|split; [|split]]]]].
  - unfold load_frost_warnings. rewrite Hne, frost_warning_records_forecast.
    cbn [mbind result_bind]. rewrite Hwr.
    rewrite insert_all_accepted by exact Hexec. reflexivity.
  - rewrite deduplicated_keys. apply NoDup_map_Some, group_keys_NoDup.
  - intros t. rewrite deduplicated_keys, in_map_iff. split.
    + intros (k & <- & Hk). split; [discriminate|]. apply Hkeys. exact Hk.
    + intros [Hsome Hin]. destruct t as [k|]; [|contradiction].
      exists k. split; [reflexivity|]. apply Hkeys. exact Hin.
  - rewrite deduplicated_length.
    pose proof (group_keys_length (map sc (risky_rows l))) as H.
    rewrite length_map in H. exact H.
  - intros Hnd Hnone. rewrite deduplicated_length, group_keys_map by reflexivity.
    apply group_keys_length_distinct; [exact Hnd|].
    intros r Hr E. apply Hnone. rewrite <- E. apply in_map. exact Hr.
  - intros ->. reflexivity.
  - intros ds Hds.
    assert (Hdsl : forall r : Row, In r l -> dataset r = ds).
    { intros r Hr. apply in_map_iff in Hr. destruct Hr as (row & <- & Hrow).
      unfold g. destruct (set_frost_cells (analyze_row hh true row) row)
        as (_ & -> & _). apply Hds. exact Hrow. }
    assert (Hw : forall r : Row, In r (deduplicated (map sc (risky_rows l))) ->
              exists (k : Z) (r1 : Row),
                valid_time r = Some k /\ dataset r = ds /\ In r1 l /\ valid_time r1 = Some k).
    { intros r Hr. destruct (deduplicated_row _ r Hr) as (k & Hv & (r0 & Hr0 & Hv0) & Hd).
      apply in_map_iff in Hr0. destruct Hr0 as (r1 & <- & Hr1).
      apply filter_In in Hr1. destruct Hr1 as [Hr1 _].
      exists k, r1. split; [exact Hv|]. split; [|split; [exact Hr1|exact Hv0]].
      apply Hd. intros r2 Hr2. apply in_map_iff in Hr2.
      destruct Hr2 as (r3 & <- & Hr3). apply filter_In in Hr3. destruct Hr3 as [Hr3 _].
      simpl. apply Hdsl. exact Hr3. }
    unfold load_weather_data. rewrite Hne.
    destruct (weather_records_forecast l) as [E | E]; rewrite E; cbn [mbind result_bind];
      rewrite insert_all_accepted by exact Hexec; eexists; (split; [reflexivity|]);
      intros r Hr; destruct (Hw r Hr) as (k & r1 & Hv & Hd & Hr1 & Hv1).
    + exists r1. split; [exact Hr1|]. split; [congruence|].
      rewrite Hd. apply Hdsl. exact Hr1.
    + destruct (deduplicated_key_present l r1 k Hr1 Hv1) as (r' & Hr' & Hv').
      exists r'. split; [exact Hr'|]. split; [congruence|].
      destruct (deduplicated_row l r' Hr') as (k' & _ & _ & Hd').
      rewrite Hd. apply Hd'. exact Hdsl.
Qed.

(** On the tables as they are created, the warning statement is refused
    for every record, and not as a violation of the UNIQUE constraint. *)
Lemma frost_warning_insert_refused (rec : Row) :
  exists text : string,
    created_database INSERT_FROST_WARNING_SQL rec = Some text /\
    String.prefix
      "(sqlite3.OperationalError) table frost_warnings has no column named cloud_cover"
      text = true /\
    contains "UNIQUE constraint failed" text = false.
Proof. eexists. split; [reflexivity|]. split; vm_compute; reflexivity. Qed.

(** C7: what the code does.  INSERT_FROST_WARNING_SQL names the column
    cloud_cover, which the table frost_warnings of [create_database_tables]
    does not have.  On the database that the program creates the warning
    write therefore returns 0 when it has no record to write and raises
    otherwise, with SQLite's "table frost_warnings has no column named
    cloud_cover": no warning row is ever written.  For the analysed table
    [duplicated_hour], with two rows of a risk number above 0, the weather
    write stores its record and the warning write raises; a run on that
    database with two freezing hours records the failure as a database
    error, writes the heartbeat "fail" and exits with status 1.  On a
    database that does accept the statement, the same table gives one
    written row for its two rows above 0: the rows are deduplicated by valid
    time before the write. *)
Theorem frost_warnings_refused_by_created_table :
  let refusal :=
    "(sqlite3.OperationalError) table frost_warnings has no column named cloud_cover" in
  let analysed := fst (analyze_dataframe_advanced duplicated_hour) in
  (In "cloud_cover" (inserted_columns INSERT_FROST_WARNING_SQL) /\
   ~ In "cloud_cover" (created_columns INSERT_FROST_WARNING_SQL)) /\
  (forall (now : Z) (df : DataFrame) (run_id : string),
     match (if df_empty df then Ok [] else frost_warning_records now df) with
     | Ok [] => load_frost_warnings created_database now df run_id = Ok (0%nat, [])
     | Ok (_ :: _) =>
         exists e : exn,
           load_frost_warnings created_database now df run_id = Raise e /\
           String.prefix refusal (exn_text e) = true
     | Raise e => load_frost_warnings created_database now df run_id = Raise e
     end) /\
  length (risky_rows (rows analysed)) = 2%nat /\
  (exists w : Row, load_weather_data created_database analysed = Ok (1%nat, [w])) /\
  (exists e : exn,
     load_frost_warnings created_database 1735732800%Z analysed "run_1" = Raise e /\
     String.prefix refusal (exn_text e) = true) /\
  (let run := Orchestrator.main fresh_database_world in
   Orchestrator.events run
   = [Orchestrator.FetchForecast; Orchestrator.FrostAnalysis;
      Orchestrator.SendNotifications; Orchestrator.SaveWeather;
      Orchestrator.SaveFrostWarnings; Orchestrator.WriteHeartbeat] /\
   (exists error : string,
      Orchestrator.errors run = [error] /\
      String.prefix ("Databas-sparning misslyckades: " +:+ refusal) error = true) /\
   Orchestrator.heartbeat_status run = Some "fail" /\
   Orchestrator.exit_status run = 1%Z) /\
  (exists r : Row,
     load_frost_warnings (fun _ _ => None) 1735732800%Z analysed "run_1" = Ok (1%nat, [r])).
Proof.
  intros refusal analysed.
  split; [split; [vm_compute; tauto|]|].
  { intros H. vm_compute in H. repeat destruct H as [H|H]; try discriminate H. exact H. }
  split.
  { intros now df run_id. unfold load_frost_warnings.
    destruct (df_empty df); [reflexivity|].
    destruct (frost_warning_records now df) as [[|rec rest]|e]; [reflexivity| |reflexivity].
    cbn [mbind result_bind insert_all].
    destruct (frost_warning_insert_refused rec) as (text & -> & Hp & ->).
    exists (PyErr "Exception" text). split; [reflexivity|exact Hp]. }
  split; [vm_compute; reflexivity|].
  split; [eexists; vm_compute; reflexivity|].
  split; [eexists; split; vm_compute; reflexivity|].
  split.
  { split; [vm_compute; reflexivity|].
    split; [eexists; split; vm_compute; reflexivity|].
    split; vm_compute; reflexivity. }
  eexists. vm_compute. reflexivity.
Qed.

End Loaders.

(** * Further properties of the sources *)

(** ** The classifier, continued *)

Section ClassifierRange.

Import Analyzer.
Local Open Scope Q_scope.

Ltac classifier_cases :=
  unfold calculate_advanced_frost_risk, risk_of, dynamic_threshold, humidity_rule;
  repeat match goal with
  | |- context [if ?b then _ else _] => destruct b eqn:?; simpl
  | |- context [match ?x with Some _ => _ | None => _ end] => destruct x eqn:?; simpl
  end.

Lemma risk_pairs
    (temperature wind_speed cloud_cover humidity : pyfloat) (hour_of_day : option Z) :
  In (risk_of (calculate_advanced_frost_risk temperature wind_speed cloud_cover humidity
                                             hour_of_day))
     [("okänd", 0%Z); ("ingen", 0%Z); ("låg", 1%Z); ("medel", 2%Z); ("hög", 3%Z)].
Proof.
  destruct temperature as [t|], wind_speed as [w|]; try (simpl; tauto).
  classifier_cases; tauto.
Qed.

Lemma freezing_is_high (t w : Q) (cloud_cover humidity : pyfloat) (hour_of_day : option Z) :
  t <= 0 ->
  risk_of (calculate_advanced_frost_risk (Some t) (Some w) cloud_cover humidity hour_of_day)
  = ("hög", 3%Z).
Proof.
  intros Ht. unfold calculate_advanced_frost_risk.
  assert (P : (0 <? t) = false) by (apply Qltb_ge; exact Ht).
  rewrite P, andb_false_r.
  apply Qle_bool_iff in Ht. rewrite Ht. reflexivity.
Qed.

(** X1.  Whatever the inputs, the classifier returns one of five pairs:
    ("okänd", 0), ("ingen", 0), ("låg", 1), ("medel", 2), ("hög", 3); the
    number is between 0 and 3 and determines the text except at 0. *)
Theorem risk_level_and_number
    (temperature wind_speed cloud_cover humidity : pyfloat) (hour_of_day : option Z) :
  In (risk_of (calculate_advanced_frost_risk temperature wind_speed cloud_cover humidity
                                             hour_of_day))
     [("okänd", 0%Z); ("ingen", 0%Z); ("låg", 1%Z); ("medel", 2%Z); ("hög", 3%Z)].
Proof. apply risk_pairs. Qed.

Lemma cloud_factor_cases (cloud_cover : pyfloat) :
  dynamic_threshold (calculate_cloud_impact_factor cloud_cover) = (3.0, "låg", 1%Z) \/
  dynamic_threshold (calculate_cloud_impact_factor cloud_cover) = (2.0, "medel", 2%Z) \/
  dynamic_threshold (calculate_cloud_impact_factor cloud_cover) = (1.0, "medel", 2%Z).
Proof.
  destruct (cloud_factor_values cloud_cover) as [H|[H|[H|H]]]; rewrite H;
    vm_compute; tauto.
Qed.

(** The result for a temperature above 0 outside the daytime filter, once
    the limit and the risk of the threshold rule are known. *)
Lemma risk_above_zero (t w : Q) (cloud_cover humidity : pyfloat) (hour_of_day : option Z)
    (temp_limit : Q) (risk_level : string) (risk_numeric : Z) :
  0 < t -> daytime hour_of_day = false ->
  dynamic_threshold (calculate_cloud_impact_factor cloud_cover)
    = (temp_limit, risk_level, risk_numeric) ->
  risk_of (calculate_advanced_frost_risk (Some t) (Some w) cloud_cover humidity hour_of_day)
  = if ((t <=? temp_limit) && (w <? 4))%bool then (risk_level, risk_numeric)
    else if humidity_rule t w humidity then ("medel", 2%Z) else ("ingen", 0%Z).
Proof.
  intros Ht Hd Hthr. unfold calculate_advanced_frost_risk.
  rewrite Hd, andb_false_l.
  assert (P : (t <=? 0) = false) by (apply Qleb_gt; exact Ht).
  rewrite P, Hthr.
  destruct ((t <=? temp_limit) && (w <? 4))%bool; [reflexivity|].
  destruct (humidity_rule t w humidity); reflexivity.
Qed.

(** X2.  Colder is never safer: with the wind, the cloud cover, the humidity
    and the hour unchanged, a lower temperature gives a risk number that is
    at least as high. *)
Theorem risk_antitone_in_temperature (t t' w : Q) (cloud_cover humidity : pyfloat)
    (hour_of_day : option Z) :
  t' <= t ->
  (snd (risk_of (calculate_advanced_frost_risk (Some t) (Some w) cloud_cover humidity
                                               hour_of_day))
   <= snd (risk_of (calculate_advanced_frost_risk (Some t') (Some w) cloud_cover humidity
                                                  hour_of_day)))%Z.
Proof.
  intros Hle.
  destruct (t' <=? 0) eqn:E'.
  - (* the lower temperature freezes: 3, the largest number *)
    assert (R : risk_of (calculate_advanced_frost_risk (Some t') (Some w) cloud_cover
                           humidity hour_of_day) = ("hög", 3%Z)).
    { apply freezing_is_high. apply Qle_bool_iff. exact E'. }
    rewrite R.
    pose proof (risk_pairs (Some t) (Some w) cloud_cover humidity hour_of_day) as Hin.
    destruct (risk_of (calculate_advanced_frost_risk (Some t) (Some w) cloud_cover humidity
                                                     hour_of_day)) as [lvl num].
    simpl in *.
    destruct Hin as [E|[E|[E|[E|[E|[]]]]]]; injection E as _ <-; lia.
  - apply Qleb_gt in E'. assert (Ht : 0 < t) by lra.
    destruct (daytime hour_of_day) eqn:D.
    + (* daytime with plus degrees: 0 for both *)
      unfold calculate_advanced_frost_risk. rewrite D.
      apply Qltb_lt in Ht. apply Qltb_lt in E'. rewrite Ht, E'. simpl. lia.
    + destruct (cloud_factor_cases cloud_cover) as [H|[H|H]];
        rewrite (risk_above_zero t w _ _ _ _ _ _ Ht D H),
                (risk_above_zero t' w _ _ _ _ _ _ E' D H);
        unfold humidity_rule; destruct humidity as [h|];
        repeat match goal with
        | |- context [Qle_bool ?a ?b] => destruct (Qle_bool a b) eqn:?
        | |- context [Qltb ?a ?b] => destruct (Qltb a b) eqn:?
        end; simpl; qprop; try lia; try lra.
Qed.

Lemma risk_antitone_in_temperature_witness :
  (snd (risk_of (calculate_advanced_frost_risk (Some 2.5%Q) (Some 1%Q) (Some 90%Q)
                                               (Some 90%Q) (Some 23)))
   <= snd (risk_of (calculate_advanced_frost_risk (Some 1.5%Q) (Some 1%Q) (Some 90%Q)
                                                  (Some 90%Q) (Some 23))))%Z.
Proof.
  apply risk_antitone_in_temperature. compute. discriminate.
Defined.

(** X3.  No warning in wind or warmth: with a temperature above 0, a wind of
    4 m/s or more gives ("ingen", 0) whatever the sky and the humidity, and
    so does every temperature above 3 degrees. *)
Theorem no_warning_when_windy_or_warm (t w : Q) (cloud_cover humidity : pyfloat)
    (hour_of_day : option Z) :
  (0 < t /\ 4 <= w) \/ 3 < t ->
  risk_of (calculate_advanced_frost_risk (Some t) (Some w) cloud_cover humidity hour_of_day)
  = ("ingen", 0%Z).
Proof.
  intros H. assert (Ht : 0 < t) by (destruct H as [[H _]|H]; lra).
  destruct (daytime hour_of_day) eqn:D.
  - unfold calculate_advanced_frost_risk. rewrite D.
    apply Qltb_lt in Ht. rewrite Ht. reflexivity.
  - destruct (cloud_factor_cases cloud_cover) as [Hc|[Hc|Hc]];
      rewrite (risk_above_zero t w _ _ _ _ _ _ Ht D Hc);
      unfold humidity_rule; destruct humidity as [h|];
      repeat match goal with
      | |- context [Qle_bool ?a ?b] => destruct (Qle_bool a b) eqn:?
      | |- context [Qltb ?a ?b] => destruct (Qltb a b) eqn:?
      end; simpl; qprop; try reflexivity; exfalso; destruct H as [[_ H]|H]; lra.
Qed.

Lemma no_warning_when_windy_or_warm_witness :
  risk_of (calculate_advanced_frost_risk (Some 2.5) (Some 5.0) (Some 30) (Some 95)
                                         (Some 23%Z))
  = ("ingen", 0%Z).
Proof.
  apply no_warning_when_windy_or_warm. left. split; compute; [reflexivity|discriminate].
Defined.

(** X4.  The humidity only matters under a sky that is more than half
    covered: for a cloud cover of at most 50 the level and the number are
    the same with every humidity as with none. *)
Theorem humidity_irrelevant_under_open_sky
    (temperature wind_speed humidity : pyfloat) (c : Q) (hour_of_day : option Z) :
  c <= 50 ->
  risk_of (calculate_advanced_frost_risk temperature wind_speed (Some c) humidity hour_of_day)
  = risk_of (calculate_advanced_frost_risk temperature wind_speed (Some c) None hour_of_day).
Proof.
  intros Hc. destruct temperature as [t|], wind_speed as [w|]; try reflexivity.
  unfold calculate_advanced_frost_risk.
  destruct (daytime hour_of_day && (0 <? t))%bool; [reflexivity|].
  destruct (t <=? 0); [reflexivity|].
  assert (Hthr : dynamic_threshold (calculate_cloud_impact_factor (Some c)) = (3.0, "låg", 1%Z)
              \/ dynamic_threshold (calculate_cloud_impact_factor (Some c))
                 = (2.0, "medel", 2%Z)).
  { unfold calculate_cloud_impact_factor.
    destruct (c <=? 20) eqn:A; [left; reflexivity|].
    destruct (c <=? 50) eqn:B; [right; reflexivity|]. qprop. lra. }
  destruct Hthr as [-> | ->];
    unfold humidity_rule; destruct humidity as [h|]; try reflexivity;
    repeat match goal with
    | |- context [Qle_bool ?a ?b] => destruct (Qle_bool a b) eqn:?
    | |- context [Qltb ?a ?b] => destruct (Qltb a b) eqn:?
    end; simpl; qprop; try reflexivity; lra.
Qed.

Lemma humidity_irrelevant_under_open_sky_witness :
  risk_of (calculate_advanced_frost_risk (Some 1.5) (Some 1) (Some 40) (Some 95) None)
  = risk_of (calculate_advanced_frost_risk (Some 1.5) (Some 1) (Some 40) None None).
Proof.
  apply humidity_irrelevant_under_open_sky. compute. discriminate.
Defined.

End ClassifierRange.

(** ** The evaluated variants and the production rule *)

Section HarnessVariants.

Import Analyzer Harness.
Local Open Scope Q_scope.

(** X5.  The production classifier warns exactly when the variant that the
    harness evaluates as "+ Komplett" does: for every observation and hour,
    [algorithm_comprehensive] is true if and only if the classifier's risk
    number is above 0. *)
Theorem comprehensive_variant_is_production
    (temp wind cloud_cover humidity : pyfloat) (hour : Z) :
  algorithm_comprehensive temp wind cloud_cover humidity hour
  = (0 <? snd (risk_of (calculate_advanced_frost_risk temp wind cloud_cover humidity
                                                      (Some hour))))%Z.
Proof.
  destruct temp as [t|], wind as [w|]; try reflexivity.
  unfold algorithm_comprehensive, calculate_advanced_frost_risk, daytime.
  change (Harness.calculate_cloud_impact_factor cloud_cover)
    with (Analyzer.calculate_cloud_impact_factor cloud_cover).
  destruct ((8 <=? hour)%Z && (hour <=? 17)%Z && (0 <? t))%bool; [reflexivity|].
  destruct (t <=? 0); [reflexivity|].
  unfold dynamic_threshold, humidity_rule.
  destruct (1.4 <=? Analyzer.calculate_cloud_impact_factor cloud_cover);
    [|destruct (1.1 <=? Analyzer.calculate_cloud_impact_factor cloud_cover)];
    (destruct (_ && (w <? 4))%bool; [reflexivity|]);
    destruct humidity as [h|]; try reflexivity;
    destruct ((t <=? 2) && (w <? 3) && (85 <? h))%bool; reflexivity.
Qed.

Lemma base_rules_freezing (t w : Q) : t <= 0 -> base_rules t w = true.
Proof.
  intros Ht. unfold base_rules. apply Qle_bool_iff in Ht. rewrite Ht. reflexivity.
Qed.

Lemma guard_freezing (hour : Z) (t : Q) :
  t <= 0 -> ((8 <=? hour)%Z && (hour <=? 17)%Z && (0 <? t))%bool = false.
Proof.
  intros Ht. apply Qltb_ge in Ht. rewrite Ht. apply andb_false_r.
Qed.

(** Every variant without the rolling mean warns for an observation that is
    an actual frost case and has a wind speed. *)
Lemma variants_flag_frost (o : observation) :
  actual_frost o = true -> o_wind_speed_10m o <> None ->
  predict_original o = true /\ predict_daytime o = true /\
  predict_clouds o = true /\ predict_comprehensive o = true.
Proof.
  unfold actual_frost, predict_original, predict_daytime, predict_clouds,
    predict_comprehensive, algorithm_original, algorithm_with_daytime_filter,
    algorithm_with_clouds_and_daytime, algorithm_comprehensive.
  destruct (o_temperature_2m o) as [t|]; [|discriminate].
  destruct (o_wind_speed_10m o) as [w|]; [|contradiction].
  intros Ht _. pose proof Ht as Ht'. apply Qle_bool_iff in Ht'.
  rewrite (guard_freezing _ _ Ht'), (base_rules_freezing _ w Ht'), Ht. tauto.
Qed.

Lemma count_none (f : observation -> bool) (df : list observation) :
  (forall o : observation, In o df -> f o = false) -> Harness.count f df = 0%nat.
Proof.
  intros H. unfold Harness.count. induction df as [|o df IH]; [reflexivity|].
  simpl. rewrite (H o (or_introl eq_refl)). apply IH.
  intros o' Ho'. apply H. right. exact Ho'.
Qed.

Lemma count_positive (f : observation -> bool) (df : list observation) (o : observation) :
  In o df -> f o = true -> (0 < Harness.count f df)%nat.
Proof.
  intros Hin Hf. unfold Harness.count.
  assert (H : In o (List.filter f df)) by (apply filter_In; split; assumption).
  destruct (List.filter f df); [destruct H|simpl; lia].
Qed.

Lemma ratio_self (n : nat) : (0 < n)%nat -> ratio n n == 1.
Proof.
  intros Hn. unfold ratio. apply Qmult_inv_r.
  intros E. unfold Qeq in E. simpl in E. lia.
Qed.

Lemma recall_without_misses (df : list observation) (predict : observation -> bool) :
  (forall o : observation, In o df -> actual_frost o = true -> predict o = true) ->
  false_negatives (evaluate_algorithm df predict) = 0%nat /\
  ((exists o : observation, In o df /\ actual_frost o = true) ->
   recall (evaluate_algorithm df predict) == 1).
Proof.
  intros Hp.
  assert (Hfn : Harness.count (fun o => actual_frost o && negb (predict o))%bool df = 0%nat).
  { apply count_none. intros o Ho. destruct (actual_frost o) eqn:A; [|reflexivity].
    rewrite (Hp o Ho A). reflexivity. }
  unfold evaluate_algorithm. cbn [false_negatives recall]. rewrite Hfn.
  split; [reflexivity|].
  intros (o & Ho & A).
  assert (Htp : (0 < Harness.count (fun o => actual_frost o && predict o)%bool df)%nat).
  { apply (count_positive _ df o Ho). rewrite A, (Hp o Ho A). reflexivity. }
  rewrite Nat.add_0_r.
  apply Nat.ltb_lt in Htp. rewrite Htp. apply ratio_self. apply Nat.ltb_lt. exact Htp.
Qed.

(** X6.  On a table whose rows all have a wind speed (the harness query
    keeps only such rows), none of the four variants without the rolling
    mean misses an actual frost case: the count of false negatives is 0, and
    the recall is 1 as soon as the table has one frost case.  In particular
    the daytime filter costs no recall. *)
Theorem variants_have_full_recall (df : list observation) :
  (forall o : observation, In o df -> o_wind_speed_10m o <> None) ->
  forall predict : observation -> bool,
    In predict [predict_original; predict_daytime; predict_clouds; predict_comprehensive] ->
    false_negatives (evaluate_algorithm df predict) = 0%nat /\
    ((exists o : observation, In o df /\ actual_frost o = true) ->
     recall (evaluate_algorithm df predict) == 1).
Proof.
  intros Hwind predict Hin. apply recall_without_misses.
  intros o Ho A. destruct (variants_flag_frost o A (Hwind o Ho)) as (H1 & H2 & H3 & H4).
  destruct Hin as [<-|[<-|[<-|[<-|[]]]]]; assumption.
Qed.

Lemma variants_have_full_recall_witness :
  false_negatives
    (evaluate_algorithm
       [mkObservation (Some (-1.0)) (Some 2.0) (Some 80) (Some 20) 14;
        mkObservation (Some 2.0) (Some 1.5) (Some 80) (Some 20) 14]
       predict_daytime) = 0%nat.
Proof.
  refine (proj1 (variants_have_full_recall _ _ predict_daytime _)).
  - intros o [<-|[<-|[]]]; discriminate.
  - right. left. reflexivity.
Defined.

(** X7.  The variants are nested: a warning of the variant with the daytime
    filter is a warning of the original variant and of the variant with
    clouds, so the filter only removes warnings and the cloud rule only adds
    some; and the filter removes none at or below 0 degrees. *)
Theorem variants_nested (temp wind cloud_cover : pyfloat) (hour : Z) :
  (algorithm_with_daytime_filter temp wind hour = true ->
   algorithm_original temp wind = true /\
   algorithm_with_clouds_and_daytime temp wind cloud_cover hour = true) /\
  (forall t : Q, temp = Some t -> t <= 0 ->
   algorithm_with_daytime_filter temp wind hour = algorithm_original temp wind).
Proof.
  unfold algorithm_with_daytime_filter, algorithm_original,
    algorithm_with_clouds_and_daytime.
  destruct temp as [t|], wind as [w|]; split; try discriminate; try reflexivity.
  - destruct ((8 <=? hour)%Z && (hour <=? 17)%Z && (0 <? t))%bool; [discriminate|].
    intros ->. split; reflexivity.
  - intros t' E Ht. injection E as ->. rewrite (guard_freezing _ _ Ht). reflexivity.
Qed.

Lemma variants_nested_witness :
  algorithm_original (Some 2.5) (Some 1.0) = true /\
  algorithm_with_clouds_and_daytime (Some 2.5) (Some 1.0) (Some 90) 23 = true.
Proof.
  apply (proj1 (variants_nested (Some 2.5) (Some 1.0) (Some 90) 23)). reflexivity.
Defined.

End HarnessVariants.

(** ** The batch analysis, continued *)

Section BatchAnalysisTable.

Import Analyzer AnalyzerTable.

Lemma has_column_with_column (col c : string) (cols : list string) (rws : list Row) :
  has_column col (mkDataFrame (with_column c cols) rws)
  = (has_column col (mkDataFrame cols rws) || bool_decide (col = c))%bool.
Proof.
  unfold has_column, with_column. cbn [columns].
  destruct (bool_decide (c ∈ cols)) eqn:E.
  - apply bool_decide_eq_true in E.
    destruct (bool_decide (col = c)) eqn:E2; [|rewrite orb_false_r; reflexivity].
    apply bool_decide_eq_true in E2. subst col.
    rewrite orb_true_r. apply bool_decide_eq_true. exact E.
  - apply eq_true_iff_eq. rewrite orb_true_iff, !bool_decide_eq_true.
    rewrite elem_of_app, list_elem_of_singleton. reflexivity.
Qed.

Lemma required_present (df : DataFrame) :
  has_column "temperature_2m" df = true -> has_column "wind_speed_10m" df = true ->
  List.filter (fun col => negb (has_column col df)) required_cols = [].
Proof. intros H1 H2. unfold required_cols. simpl. rewrite H1, H2. reflexivity. Qed.


Lemma analyze_present (df : DataFrame) :
  df_empty df = false ->
  has_column "temperature_2m" df = true -> has_column "wind_speed_10m" df = true ->
  analyze_dataframe_advanced df
  = let result_df :=
      if has_column "cloud_cover" df then df
      else assign "cloud_cover" (set_cloud_cover (Some 50.0%Q)) df in
    let has_humidity :=
      (has_column "relative_humidity_2m" result_df
       && negb (forallb (fun r => isna (relative_humidity_2m r)) (rows result_df)))%bool in
    let has_valid_time := has_column "valid_time" result_df in
    let analyzed :=
      map (fun row => set_frost (analyze_row has_humidity has_valid_time row) row)
          (rows result_df) in
    (mkDataFrame
       (with_column "frost_details"
          (with_column "frost_warning"
             (with_column "frost_risk_numeric"
                (with_column "frost_risk_level" (columns result_df)))))
       analyzed,
     if (0 <? length (List.filter (fun r => default false (frost_warning r)) analyzed))%nat
     then [(LvlInfo,
            FrostanalysRisk
              (length (List.filter (fun r => default false (frost_warning r)) analyzed))
              (length analyzed))]
     else []).
Proof.
  intros Hne Ht Hw. unfold analyze_dataframe_advanced.
  rewrite Hne, (required_present df Ht Hw). reflexivity.
Qed.

Lemma analyze_absent (df : DataFrame) :
  df_empty df = true \/ has_column "temperature_2m" df = false
  \/ has_column "wind_speed_10m" df = false ->
  fst (analyze_dataframe_advanced df) = df.
Proof.
  intros H. unfold analyze_dataframe_advanced.
  destruct (df_empty df) eqn:E; [reflexivity|].
  destruct H as [H|H]; [discriminate|].
  pose proof (missing_cols_nonempty df H) as Hne.
  destruct (List.filter _ required_cols); [contradiction|reflexivity].
Qed.


Lemma set_frost_forecast_cells (result : string * Z * details) (r : Row) :
  valid_time (set_frost result r) = valid_time r /\
  temperature_2m (set_frost result r) = temperature_2m r /\
  relative_humidity_2m (set_frost result r) = relative_humidity_2m r /\
  precipitation (set_frost result r) = precipitation r /\
  wind_speed_10m (set_frost result r) = wind_speed_10m r /\
  precipitation_probability (set_frost result r) = precipitation_probability r /\
  cloud_cover (set_frost result r) = cloud_cover r /\
  dataset (set_frost result r) = dataset r /\
  forecast_issue_time (set_frost result r) = forecast_issue_time r /\
  horizon_hours (set_frost result r) = horizon_hours r /\
  run_id (set_frost result r) = run_id r.
Proof. destruct result as [[risk_text risk_numeric] det]. repeat split. Qed.

Lemma Forall2_map_right {A B : Type} (P : A -> B -> Prop) (f : A -> B) (l : list A) :
  (forall a : A, P a (f a)) -> Forall2 P l (map f l).
Proof. intros H. induction l as [|a l IH]; simpl; constructor; auto. Qed.

(** X8.  The analysis never drops, adds or reorders rows and never changes
    a forecast cell: for every table, the returned table has the rows of the
    input in the same order with the same valid time, temperature,
    humidity, precipitation, wind speed, precipitation probability, dataset,
    issue time, horizon and run id, and the cloud cover too when the input
    lists that column; every column of the input is still a column. *)
Theorem analysis_keeps_forecast_cells (df : DataFrame) :
  (forall col : string,
     has_column col df = true ->
     has_column col (fst (analyze_dataframe_advanced df)) = true) /\
  Forall2
    (fun r r' : Row =>
       valid_time r' = valid_time r /\
       temperature_2m r' = temperature_2m r /\
       relative_humidity_2m r' = relative_humidity_2m r /\
       precipitation r' = precipitation r /\
       wind_speed_10m r' = wind_speed_10m r /\
       precipitation_probability r' = precipitation_probability r /\
       dataset r' = dataset r /\
       forecast_issue_time r' = forecast_issue_time r /\
       horizon_hours r' = horizon_hours r /\
       run_id r' = run_id r /\
       (has_column "cloud_cover" df = true -> cloud_cover r' = cloud_cover r))
    (rows df) (rows (fst (analyze_dataframe_advanced df))).
Proof.
  destruct (df_empty df) eqn:Hne;
    [|destruct (has_column "temperature_2m" df) eqn:Ht;
      [destruct (has_column "wind_speed_10m" df) eqn:Hw|]].
  2: {
    rewrite (analyze_present df Hne Ht Hw). cbv zeta. cbn [fst rows]. split.
    - intros col Hcol. rewrite !has_column_with_column.
      assert (H : has_column col
                    (mkDataFrame
                       (columns (if has_column "cloud_cover" df then df
                                 else assign "cloud_cover" (set_cloud_cover (Some 50.0%Q)) df))
                       (rows df)) = true).
      { destruct (has_column "cloud_cover" df); [exact Hcol|].
        unfold assign. cbn [columns]. rewrite has_column_with_column.
        unfold has_column in *. cbn [columns]. rewrite Hcol. reflexivity. }
      unfold has_column in *. cbn [columns] in *. rewrite H. reflexivity.
    - destruct (has_column "cloud_cover" df) eqn:Hc.
      + apply Forall2_map_right. intros r.
        destruct (set_frost_forecast_cells
                    (analyze_row
                       (has_column "relative_humidity_2m" df
                        && negb (forallb (fun r => isna (relative_humidity_2m r)) (rows df)))
                       (has_column "valid_time" df) r) r)
          as (H1 & H2 & H3 & H4 & H5 & H6 & H7 & H8 & H9 & H10 & H11).
        repeat split; try assumption. intros _. assumption.
      + unfold assign. cbn [rows]. rewrite map_map.
        apply Forall2_map_right. intros r.
        match goal with
        | |- context [set_frost ?res (set_cloud_cover ?v r)] =>
            destruct (set_frost_forecast_cells res (set_cloud_cover v r))
              as (H1 & H2 & H3 & H4 & H5 & H6 & H7 & H8 & H9 & H10 & H11)
        end.
        repeat split; try assumption. discriminate. }
  all: rewrite (analyze_absent df) by tauto;
    (split; [intros col Hcol; exact Hcol|]);
    apply Forall2_same_length_lookup_2; [reflexivity|];
    intros i r r' E1 E2; rewrite E1 in E2; injection E2 as <-;
    repeat split; reflexivity.
Qed.

Lemma analysis_keeps_forecast_cells_witness :
  has_column "valid_time"
    (fst (analyze_dataframe_advanced
            (mkDataFrame ["valid_time"; "temperature_2m"; "wind_speed_10m"]
               [set_wind_speed_10m (Some 1.0%Q)
                  (set_temperature_2m (Some (-2.0)%Q)
                     (Pipeline.blank_row (Some 1735689600%Z)))]))) = true.
Proof.
  apply (proj1 (analysis_keeps_forecast_cells
                  (mkDataFrame ["valid_time"; "temperature_2m"; "wind_speed_10m"]
                     [set_wind_speed_10m (Some 1.0%Q)
                        (set_temperature_2m (Some (-2.0)%Q)
                           (Pipeline.blank_row (Some 1735689600%Z)))]))).
  reflexivity.
Defined.

Lemma set_frost_result (result : string * Z * details) (r : Row) :
  frost_risk_level (set_frost result r) = Some (fst (fst result)) /\
  frost_risk_numeric (set_frost result r) = Some (snd (fst result)) /\
  frost_warning (set_frost result r) = Some (0 <? snd (fst result))%Z.
Proof. destruct result as [[risk_text risk_numeric] det]. repeat split. Qed.

Lemma analyze_row_pairs (has_humidity has_valid_time : bool) (row : Row) :
  In (risk_of (analyze_row has_humidity has_valid_time row))
     [("okänd", 0%Z); ("ingen", 0%Z); ("låg", 1%Z); ("medel", 2%Z); ("hög", 3%Z)].
Proof. unfold analyze_row. apply risk_pairs. Qed.

Lemma analyze_row_freezing (has_humidity has_valid_time : bool) (row : Row) (t : Q) :
  temperature_2m row = Some t -> (t <= 0)%Q -> wind_speed_10m row <> None ->
  risk_of (analyze_row has_humidity has_valid_time row) = ("hög", 3%Z).
Proof.
  intros Ht Hle Hw. unfold analyze_row. rewrite Ht.
  destruct (wind_speed_10m row) as [w|]; [|contradiction].
  apply freezing_is_high. exact Hle.
Qed.

(** X9.  In a table that is not empty and lists temperature_2m and
    wind_speed_10m, the analysis fills the four frost columns in every row:
    the level and the number are one of the classifier's five pairs,
    frost_warning is true exactly when the number is above 0, and a row at
    or below 0 degrees with a wind speed is ("hög", 3) with a warning,
    whatever its hour, cloud cover and humidity. *)
Theorem analysed_rows_are_flagged (df : DataFrame) :
  df_empty df = false ->
  has_column "temperature_2m" df = true -> has_column "wind_speed_10m" df = true ->
  (forall col : string,
     In col frost_columns -> has_column col (fst (analyze_dataframe_advanced df)) = true) /\
  (forall r : Row,
     In r (rows (fst (analyze_dataframe_advanced df))) ->
     exists (risk_level : string) (risk_numeric : Z),
       frost_risk_level r = Some risk_level /\
       frost_risk_numeric r = Some risk_numeric /\
       frost_warning r = Some (0 <? risk_numeric)%Z /\
       In (risk_level, risk_numeric)
          [("okänd", 0%Z); ("ingen", 0%Z); ("låg", 1%Z); ("medel", 2%Z); ("hög", 3%Z)] /\
       (forall t : Q,
          temperature_2m r = Some t -> (t <= 0)%Q -> wind_speed_10m r <> None ->
          risk_level = "hög" /\ risk_numeric = 3%Z)).
Proof.
  intros Hne Ht Hw. rewrite (analyze_present df Hne Ht Hw). cbv zeta. cbn [fst rows].
  split.
  - intros col Hcol. rewrite !has_column_with_column.
    destruct Hcol as [<-|[<-|[<-|[<-|[]]]]]; cbn;
      repeat (rewrite ?orb_true_r; try reflexivity).
  - intros r Hr. apply in_map_iff in Hr. destruct Hr as (row & <- & _).
    match goal with
    | |- context [set_frost ?res row] =>
        set (result := res);
        destruct (set_frost_result result row) as (H1 & H2 & H3);
        destruct (set_frost_forecast_cells result row) as (_ & C2 & _ & _ & C5 & _)
    end.
    exists (fst (fst result)), (snd (fst result)).
    split; [exact H1|]. split; [exact H2|]. split; [exact H3|]. split.
    + pose proof (analyze_row_pairs _ _ row : In (risk_of result) _) as P. exact P.
    + intros t Etemp Hle Hwind. rewrite C2 in Etemp. rewrite C5 in Hwind.
      pose proof (analyze_row_freezing _ _ row t Etemp Hle Hwind : risk_of result = _) as P.
      unfold risk_of in P. injection P as -> ->. split; reflexivity.
Qed.

Lemma analysed_rows_are_flagged_witness :
  has_column "frost_warning"
    (fst (analyze_dataframe_advanced
            (mkDataFrame ["valid_time"; "temperature_2m"; "wind_speed_10m"]
               [set_wind_speed_10m (Some 1.0%Q)
                  (set_temperature_2m (Some (-2.0)%Q)
                     (Pipeline.blank_row (Some 1735689600%Z)))]))) = true.
Proof.
  apply (proj1 (analysed_rows_are_flagged
                  (mkDataFrame ["valid_time"; "temperature_2m"; "wind_speed_10m"]
                     [set_wind_speed_10m (Some 1.0%Q)
                        (set_temperature_2m (Some (-2.0)%Q)
                           (Pipeline.blank_row (Some 1735689600%Z)))])
                  eq_refl eq_refl eq_refl)).
  right. right. left. reflexivity.
Defined.

Lemma with_column_present (col : string) (cols : list string) :
  col ∈ cols -> with_column col cols = cols.
Proof.
  intros H. unfold with_column. rewrite bool_decide_eq_true_2 by exact H. reflexivity.
Qed.

Lemma elem_of_with_column (col c : string) (cols : list string) :
  col ∈ with_column c cols <-> col ∈ cols \/ col = c.
Proof.
  unfold with_column. destruct (bool_decide (c ∈ cols)) eqn:E.
  - apply bool_decide_eq_true in E. split; [tauto|]. intros [H| ->]; assumption.
  - rewrite elem_of_app, list_elem_of_singleton. reflexivity.
Qed.

Lemma frost_columns_twice (cols : list string) :
  let cols' :=
    with_column "frost_details"
      (with_column "frost_warning"
         (with_column "frost_risk_numeric" (with_column "frost_risk_level" cols))) in
  with_column "frost_details"
    (with_column "frost_warning"
       (with_column "frost_risk_numeric" (with_column "frost_risk_level" cols'))) = cols'.
Proof.
  cbv zeta.
  rewrite (with_column_present "frost_risk_level")
    by (rewrite !elem_of_with_column; tauto).
  rewrite (with_column_present "frost_risk_numeric")
    by (rewrite !elem_of_with_column; tauto).
  rewrite (with_column_present "frost_warning")
    by (rewrite !elem_of_with_column; tauto).
  rewrite (with_column_present "frost_details")
    by (rewrite !elem_of_with_column; tauto).
  reflexivity.
Qed.

Lemma set_frost_twice (result result' : string * Z * details) (r : Row) :
  set_frost result (set_frost result' r) = set_frost result r.
Proof. destruct result as [[a b] c], result' as [[a' b'] c']. reflexivity. Qed.

Lemma analyze_row_set_frost (has_humidity has_valid_time : bool)
    (result : string * Z * details) (r : Row) :
  analyze_row has_humidity has_valid_time (set_frost result r)
  = analyze_row has_humidity has_valid_time r.
Proof. destruct result as [[a b] c]. reflexivity. Qed.

(** X10.  Analysing twice changes nothing: the table returned for an
    already analysed table is that table, for every input. *)
Theorem analysis_idempotent (df : DataFrame) :
  fst (analyze_dataframe_advanced (fst (analyze_dataframe_advanced df)))
  = fst (analyze_dataframe_advanced df).
Proof.
  destruct (df_empty df) eqn:Hne;
    [|destruct (has_column "temperature_2m" df) eqn:Ht;
      [destruct (has_column "wind_speed_10m" df) eqn:Hw|]].
  2: {
    rewrite (analyze_present df Hne Ht Hw). cbv zeta. cbn [fst].
    set (result_df := if has_column "cloud_cover" df then df
                      else assign "cloud_cover" (set_cloud_cover (Some 50.0%Q)) df).
    assert (Hrows : is_nil (rows result_df) = false).
    { unfold df_empty in Hne. apply orb_false_elim in Hne. destruct Hne as [_ Hr].
      subst result_df. destruct (has_column "cloud_cover" df); [exact Hr|].
      unfold assign. cbn [rows]. destruct (rows df); [discriminate|reflexivity]. }
    assert (Hcols : forall col, has_column col df = true -> col ∈ columns result_df).
    { intros col Hcol. apply bool_decide_eq_true in Hcol. subst result_df.
      destruct (has_column "cloud_cover" df); [exact Hcol|].
      unfold assign. cbn [columns]. apply elem_of_with_column. left. exact Hcol. }
    assert (Hcloud : "cloud_cover" ∈ columns result_df).
    { subst result_df. destruct (has_column "cloud_cover" df) eqn:Hc.
      - apply bool_decide_eq_true in Hc. exact Hc.
      - unfold assign. cbn [columns]. apply elem_of_with_column. right. reflexivity. }
    set (has_humidity := (has_column "relative_humidity_2m" result_df && _)%bool).
    set (has_valid_time := has_column "valid_time" result_df).
    set (F := fun row => set_frost (analyze_row has_humidity has_valid_time row) row).
    set (cols' := with_column "frost_details" _).
    set (out := mkDataFrame cols' (map F (rows result_df))).
    assert (Hin : forall col, col ∈ columns result_df -> has_column col out = true).
    { intros col Hcol. apply bool_decide_eq_true. subst out cols'. cbn [columns].
      rewrite !elem_of_with_column. tauto. }
    assert (Hsame : forall col,
               ~ In col frost_columns ->
               has_column col out = has_column col result_df).
    { intros col Hcol. subst out cols'. rewrite !has_column_with_column.
      unfold frost_columns in Hcol. simpl in Hcol.
      rewrite !(bool_decide_eq_false_2 (col = _)) by (intros ->; tauto).
      rewrite !orb_false_r. unfold has_column. reflexivity. }
    assert (Hne' : df_empty out = false).
    { unfold df_empty. apply orb_false_intro.
      - assert (H : "cloud_cover" ∈ columns out)
          by (apply (proj1 (bool_decide_eq_true _)); apply Hin; exact Hcloud).
        destruct (columns out); [inversion H|reflexivity].
      - subst out. cbn [rows]. destruct (rows result_df); [discriminate|reflexivity]. }
    rewrite (analyze_present out Hne' (Hin _ (Hcols _ Ht)) (Hin _ (Hcols _ Hw))).
    cbv zeta. cbn [fst]. rewrite (Hin _ Hcloud).
    rewrite (Hsame "relative_humidity_2m"), (Hsame "valid_time")
      by (vm_compute; intuition discriminate).
    fold has_valid_time.
    assert (Hhum : forallb (fun r => isna (relative_humidity_2m r)) (rows out)
                   = forallb (fun r => isna (relative_humidity_2m r)) (rows result_df)).
    { subst out. cbn [rows]. generalize (rows result_df) as l.
      induction l as [|r l IH]; [reflexivity|]. simpl. rewrite IH. f_equal.
      subst F. cbv beta.
      destruct (set_frost_forecast_cells (analyze_row has_humidity has_valid_time r) r)
        as (_ & _ & -> & _). reflexivity. }
    rewrite Hhum. fold has_humidity. fold F.
    subst out. cbn [columns rows]. subst cols'. f_equal.
    - apply frost_columns_twice.
    - rewrite map_map. apply map_ext. intros r. subst F. cbv beta.
      rewrite analyze_row_set_frost. apply set_frost_twice. }
  all: rewrite !(analyze_absent df) by tauto; reflexivity.
Qed.

(** X11.  What a completed analysis logs: one info record with the number
    of rows whose risk number is above 0 and the number of rows of the
    input, and nothing at all when no row has a risk. *)
Theorem analysis_log_counts_warnings (df : DataFrame) :
  df_empty df = false ->
  has_column "temperature_2m" df = true -> has_column "wind_speed_10m" df = true ->
  let warning_count := length (risky_rows (rows (fst (analyze_dataframe_advanced df)))) in
  snd (analyze_dataframe_advanced df)
  = if (0 <? warning_count)%nat
    then [(LvlInfo, FrostanalysRisk warning_count (length (rows df)))]
    else [].
Proof.
  intros Hne Ht Hw. rewrite (analyze_present df Hne Ht Hw). cbv zeta. cbn [fst snd rows].
  set (result_df := if has_column "cloud_cover" df then df
                    else assign "cloud_cover" (set_cloud_cover (Some 50.0%Q)) df).
  assert (Hlen : length (rows result_df) = length (rows df)).
  { subst result_df. destruct (has_column "cloud_cover" df); [reflexivity|].
    unfold assign. cbn [rows]. apply length_map. }
  set (analyzed := map _ (rows result_df)).
  assert (Hcount : List.filter (fun r => default false (frost_warning r)) analyzed
                   = risky_rows analyzed).
  { unfold risky_rows. apply filter_ext_in. intros r Hr.
    subst analyzed. apply in_map_iff in Hr. destruct Hr as (row & <- & _).
    match goal with
    | |- context [set_frost ?res row] =>
        destruct (set_frost_result res row) as (_ & -> & ->); generalize (snd (fst res))
    end.
    intros n. simpl. destruct (0 <? n)%Z eqn:E.
    - symmetry. apply bool_decide_eq_true. apply Z.ltb_lt. exact E.
    - symmetry. apply bool_decide_eq_false. apply Z.ltb_ge in E. lia. }
  rewrite Hcount. subst analyzed. rewrite length_map, Hlen. reflexivity.
Qed.

Lemma analysis_log_counts_warnings_witness :
  snd (analyze_dataframe_advanced
         (mkDataFrame ["valid_time"; "temperature_2m"; "wind_speed_10m"]
            [set_wind_speed_10m (Some 1.0%Q)
               (set_temperature_2m (Some (-2.0)%Q) (Pipeline.blank_row (Some 1735689600%Z)));
             set_wind_speed_10m (Some 6.0%Q)
               (set_temperature_2m (Some 5.0%Q) (Pipeline.blank_row (Some 1735693200%Z)))]))
  = [(LvlInfo, FrostanalysRisk 1 2)].
Proof.
  exact (analysis_log_counts_warnings
           (mkDataFrame ["valid_time"; "temperature_2m"; "wind_speed_10m"]
              [set_wind_speed_10m (Some 1.0%Q)
                 (set_temperature_2m (Some (-2.0)%Q)
                    (Pipeline.blank_row (Some 1735689600%Z)));
               set_wind_speed_10m (Some 6.0%Q)
                 (set_temperature_2m (Some 5.0%Q) (Pipeline.blank_row (Some 1735693200%Z)))])
           eq_refl eq_refl eq_refl).
Defined.

End BatchAnalysisTable.

(** ** The retry loop *)

Section Retry.

Import Fetch.
Local Open Scope Z_scope.

Context {J : Type}.

Lemma attempts_answer (get : nat -> attempt_outcome J) (max_retries backoff : Z)
    (json : J) (k : nat) :
  forall remaining a : nat,
    0 <= backoff ->
    (forall i : nat, (a <= i < a + k)%nat -> exists e : exn, get i = RequestException e) ->
    get (a + k)%nat = Answer json ->
    (k < remaining)%nat -> Z.of_nat (a + k) < max_retries ->
    attempts get max_retries backoff remaining a
    = (Ok (Some json),
       (flat_map (fun attempt => [Get attempt; Sleep (backoff * (Z.of_nat attempt + 1))])
                 (seq a k) ++ [Get (a + k)%nat])%list).
Proof.
  induction k as [|k IH]; intros remaining a Hb Hfail Hans Hrem Hmax.
  - destruct remaining as [|remaining]; [lia|]. simpl.
    rewrite Nat.add_0_r in Hans. rewrite Hans, Nat.add_0_r. reflexivity.
  - destruct remaining as [|remaining]; [lia|]. simpl.
    destruct (Hfail a ltac:(lia)) as (e & ->).
    assert (H1 : (Z.of_nat a <? max_retries - 1) = true) by (apply Z.ltb_lt; lia).
    assert (H2 : (backoff * (Z.of_nat a + 1) <? 0) = false) by (apply Z.ltb_ge; nia).
    rewrite H1, H2.
    rewrite (IH remaining (S a)); try assumption; try lia.
    + replace (S a + k)%nat with (a + S k)%nat by lia. reflexivity.
    + intros i Hi. apply Hfail. lia.
    + replace (S a + k)%nat with (a + S k)%nat by lia. exact Hans.
Qed.

Lemma attempts_exhausted (get : nat -> attempt_outcome J) (max_retries backoff : Z)
    (e : exn) (k : nat) :
  forall remaining a : nat,
    0 <= backoff ->
    (forall i : nat, (a <= i < a + k)%nat -> exists e' : exn, get i = RequestException e') ->
    get (a + k)%nat = RequestException e ->
    (k < remaining)%nat -> Z.of_nat (a + k) = max_retries - 1 ->
    attempts get max_retries backoff remaining a
    = (Raise e,
       (flat_map (fun attempt => [Get attempt; Sleep (backoff * (Z.of_nat attempt + 1))])
                 (seq a k) ++ [Get (a + k)%nat])%list).
Proof.
  induction k as [|k IH]; intros remaining a Hb Hfail Hlast Hrem Hmax.
  - destruct remaining as [|remaining]; [lia|]. simpl.
    rewrite Nat.add_0_r in Hlast. rewrite Hlast, Nat.add_0_r.
    assert (H1 : (Z.of_nat a <? max_retries - 1) = false) by (apply Z.ltb_ge; lia).
    rewrite H1. reflexivity.
  - destruct remaining as [|remaining]; [lia|]. simpl.
    destruct (Hfail a ltac:(lia)) as (e' & ->).
    assert (H1 : (Z.of_nat a <? max_retries - 1) = true) by (apply Z.ltb_lt; lia).
    assert (H2 : (backoff * (Z.of_nat a + 1) <? 0) = false) by (apply Z.ltb_ge; nia).
    rewrite H1, H2.
    rewrite (IH remaining (S a)); try assumption; try lia.
    + replace (S a + k)%nat with (a + S k)%nat by lia. reflexivity.
    + intros i Hi. apply Hfail. lia.
    + replace (S a + k)%nat with (a + S k)%nat by lia. exact Hlast.
Qed.

(** X12.  When the first [k] attempts fail with a request exception and
    attempt [k] (counted from 0, below max_retries) answers, the fetch
    returns that answer after exactly [k + 1] requests, having waited
    backoff, 2 backoff, ..., k backoff seconds between them. *)
Theorem fetch_returns_first_answer (get : nat -> attempt_outcome J)
    (max_retries backoff : Z) (json : J) (k : nat) :
  0 <= backoff -> Z.of_nat k < max_retries ->
  (forall i : nat, (i < k)%nat -> exists e : exn, get i = RequestException e) ->
  get k = Answer json ->
  fetch_with_retry get max_retries backoff
  = (Ok (Some json), (retried backoff k ++ [Get k])%list).
Proof.
  intros Hb Hk Hfail Hans. unfold fetch_with_retry, retried.
  apply (attempts_answer get max_retries backoff json k (Z.to_nat max_retries) 0%nat);
    try assumption; try lia.
  intros i Hi. apply Hfail. lia.
Qed.

(** X13.  When every one of the max_retries attempts fails with a request
    exception, the fetch raises the exception of the last attempt, after
    max_retries requests and waits of backoff, ..., (max_retries - 1) backoff
    seconds: there is no wait after the last failure. *)
Theorem fetch_raises_last_failure (get : nat -> attempt_outcome J)
    (max_retries backoff : Z) (e : exn) (n : nat) :
  0 <= backoff -> max_retries = Z.of_nat (S n) ->
  (forall i : nat, (i < n)%nat -> exists e' : exn, get i = RequestException e') ->
  get n = RequestException e ->
  fetch_with_retry get max_retries backoff
  = (Raise e, (retried backoff n ++ [Get n])%list).
Proof.
  intros Hb Hmax Hfail Hlast. unfold fetch_with_retry, retried.
  apply (attempts_exhausted get max_retries backoff e n (Z.to_nat max_retries) 0%nat);
    try assumption; try lia.
  intros i Hi. apply Hfail. lia.
Qed.

Lemma attempts_bounds (get : nat -> attempt_outcome J) (max_retries backoff : Z) :
  forall remaining a : nat,
    (requests (snd (attempts get max_retries backoff remaining a)) <= remaining)%nat /\
    (Z.of_nat (a + remaining) = max_retries -> remaining <> 0%nat ->
     fst (attempts get max_retries backoff remaining a) <> Ok None).
Proof.
  induction remaining as [|remaining IH]; intros a.
  - split; [unfold requests; simpl; lia|]. intros _ H. contradiction.
  - simpl. destruct (get a) as [json|e|e].
    + split; [unfold requests; cbn; lia|]. intros _ _. discriminate.
    + destruct (Z.of_nat a <? max_retries - 1) eqn:E1.
      * destruct (backoff * (Z.of_nat a + 1) <? 0) eqn:E2.
        -- split; [unfold requests; cbn; lia|]. intros _ _. discriminate.
        -- destruct (IH (S a)) as [Hreq Hnone].
           destruct (attempts get max_retries backoff remaining (S a)) as [r actions].
           split.
           ++ unfold requests in *. cbn in *. lia.
           ++ intros Hinv _. cbn in *. apply Hnone; [lia|].
              apply Z.ltb_lt in E1. lia.
      * split; [unfold requests; cbn; lia|]. intros _ _. discriminate.
    + split; [unfold requests; cbn; lia|]. intros _ _. discriminate.
Qed.

(** X14.  Whatever the server does, the fetch makes at most max_retries
    requests, and it returns no answer at all ([None]) exactly when
    max_retries is 0 or less, in which case it makes no request. *)
Theorem fetch_request_bound (get : nat -> attempt_outcome J) (max_retries backoff : Z) :
  (Z.of_nat (requests (snd (fetch_with_retry get max_retries backoff)))
   <= Z.max 0 max_retries) /\
  (fst (fetch_with_retry get max_retries backoff) = Ok None <-> max_retries <= 0) /\
  (max_retries <= 0 -> snd (fetch_with_retry get max_retries backoff) = []).
Proof.
  unfold fetch_with_retry.
  destruct (attempts_bounds get max_retries backoff (Z.to_nat max_retries) 0%nat)
    as [Hreq Hnone].
  split; [lia|]. split; [split|].
  - intros H. destruct (Z_le_gt_dec max_retries 0) as [Hle|Hgt]; [exact Hle|].
    exfalso. apply Hnone; [lia|lia|exact H].
  - intros Hle. replace (Z.to_nat max_retries) with 0%nat by lia. reflexivity.
  - intros Hle. replace (Z.to_nat max_retries) with 0%nat by lia. reflexivity.
Qed.

End Retry.

Lemma fetch_returns_first_answer_witness :
  Fetch.fetch_with_retry
    (fun attempt => if (attempt <? 2)%nat
                    then Fetch.RequestException (PyErr "ConnectionError" "connection refused")
                    else Fetch.Answer 7%Z) 3 2
  = (Ok (Some 7%Z),
     [Fetch.Get 0; Fetch.Sleep 2; Fetch.Get 1; Fetch.Sleep 4; Fetch.Get 2]).
Proof.
  apply (fetch_returns_first_answer
           (fun attempt => if (attempt <? 2)%nat
                           then Fetch.RequestException
                                  (PyErr "ConnectionError" "connection refused")
                           else Fetch.Answer 7%Z) 3 2 7%Z 2).
  - lia.
  - simpl. lia.
  - intros i Hi. exists (PyErr "ConnectionError" "connection refused").
    destruct i as [|[|i]]; [reflexivity|reflexivity|lia].
  - reflexivity.
Defined.

Lemma fetch_raises_last_failure_witness :
  Fetch.fetch_with_retry
    (fun _ => @Fetch.RequestException Z (PyErr "Timeout" "read timed out")) 3 2
  = (Raise (PyErr "Timeout" "read timed out"),
     [Fetch.Get 0; Fetch.Sleep 2; Fetch.Get 1; Fetch.Sleep 4; Fetch.Get 2]).
Proof.
  apply (fetch_raises_last_failure
           (fun _ => @Fetch.RequestException Z (PyErr "Timeout" "read timed out"))
           3 2 (PyErr "Timeout" "read timed out") 2).
  - lia.
  - reflexivity.
  - intros i _. exists (PyErr "Timeout" "read timed out"). reflexivity.
  - reflexivity.
Defined.

Lemma fetch_request_bound_witness :
  fst (Fetch.fetch_with_retry
         (fun _ => @Fetch.RequestException Z (PyErr "Timeout" "read timed out")) 0 2)
  = Ok None.
Proof.
  apply (proj2 (proj1 (proj2 (fetch_request_bound
                                (fun _ => @Fetch.RequestException Z
                                            (PyErr "Timeout" "read timed out")) 0 2)))).
  lia.
Defined.

(** ** The text message, continued *)

Section SmsText.

Import Sms Email.
Local Open Scope Z_scope.

Lemma append_assoc (s1 s2 s3 : string) : (s1 +:+ s2) +:+ s3 = s1 +:+ s2 +:+ s3.
Proof.
  induction s1 as [|a s1 IH]; [reflexivity|].
  change (String a ((s1 +:+ s2) +:+ s3) = String a (s1 +:+ s2 +:+ s3)).
  rewrite IH. reflexivity.
Qed.

Lemma long_message_parts
    (emoji risk_text time_or_duration temp wind_text action location : string) :
  long_message emoji risk_text time_or_duration temp wind_text action location
  = (emoji +:+ " FROST " +:+ risk_text)
    +:+ (" " +:+ time_or_duration +:+ ". Temp " +:+ temp +:+ "°C, " +:+ wind_text +:+ ". "
         +:+ action)
    +:+ " MVH " +:+ location.
Proof. unfold long_message. rewrite !append_assoc. reflexivity. Qed.

Lemma short_message_parts (emoji risk_text temp action location : string) :
  short_message emoji risk_text temp action location
  = (emoji +:+ " FROST " +:+ risk_text)
    +:+ (". Temp " +:+ temp +:+ "°C. " +:+ action)
    +:+ " MVH " +:+ location.
Proof. unfold short_message. rewrite !append_assoc. reflexivity. Qed.

Lemma series_max_reaches (n : Z) (l : list (option Z)) :
  risk_at_least n (series_max l)
  = existsb (fun x => match x with Some m => n <=? m | None => false end) l.
Proof.
  induction l as [|x l IH]; [reflexivity|].
  simpl. rewrite <- IH. destruct x as [a|]; [|reflexivity].
  destruct (series_max l) as [b|]; simpl.
  - destruct (n <=? a) eqn:Ea, (n <=? b) eqn:Eb; simpl;
      [apply Z.leb_le|apply Z.leb_le|apply Z.leb_le|apply Z.leb_gt];
      try apply Z.leb_le in Ea; try apply Z.leb_le in Eb;
      try apply Z.leb_gt in Ea; try apply Z.leb_gt in Eb; lia.
  - rewrite orb_false_r. reflexivity.
Qed.

Lemma max_risk_reaches (n : Z) (l : list Row) :
  risk_at_least n (series_max (map frost_risk_numeric l)) = existsb (risk_reaches n) l.
Proof.
  rewrite series_max_reaches. induction l as [|r l IH]; [reflexivity|].
  simpl. rewrite IH. reflexivity.
Qed.

(** The message for a table that is not empty: its beginning, chosen by the
    highest risk number of the table, and its end. *)
Lemma sms_text (now : Z) (warnings_df : DataFrame) (location msg : string) :
  df_empty warnings_df = false ->
  create_frost_sms_message now warnings_df location = Ok msg ->
  exists middle : string,
    msg = (if existsb (risk_reaches 3) (rows warnings_df) then "🚨 FROST HÖG RISK"
           else if existsb (risk_reaches 2) (rows warnings_df) then "⚠️ FROST MEDEL RISK"
           else "❄️ FROST LÅG RISK")
          +:+ middle +:+ " MVH " +:+ location.
Proof.
  intros Hne. unfold create_frost_sms_message, require_column. rewrite Hne.
  destruct (has_column "frost_risk_numeric" warnings_df); [|discriminate].
  destruct (has_column "valid_time" warnings_df); [|discriminate].
  cbn [mbind result_bind].
  destruct (rows warnings_df) as [|r rest] eqn:Erows; [discriminate|].
  destruct (valid_time r) as [t|]; [|discriminate].
  cbn [mbind result_bind].
  rewrite <- !max_risk_reaches.
  set (max_risk := series_max _).
  destruct (has_column "temperature_2m" warnings_df); [|destruct (risk_at_least 3 max_risk);
    [|destruct (risk_at_least 2 max_risk)]; discriminate].
  destruct (has_column "wind_speed_10m" warnings_df); [|destruct (risk_at_least 3 max_risk);
    [|destruct (risk_at_least 2 max_risk)]; discriminate].
  destruct (risk_at_least 3 max_risk); [|destruct (risk_at_least 2 max_risk)];
    cbv beta iota zeta; cbn [mbind result_bind];
    destruct (length (r :: rest) =? 1)%nat;
    match goal with
    | |- context [(160 <? ?n)%nat] => destruct (160 <? n)%nat
    end;
    intros E; injection E as <-;
    eexists; first [apply long_message_parts | apply short_message_parts].
Qed.


Lemma sms_text_not_empty (now : Z) (warnings_df : DataFrame) (location msg : string) :
  df_empty warnings_df = false ->
  create_frost_sms_message now warnings_df location = Ok msg ->
  String.eqb msg "" = false.
Proof.
  intros Hne Hmsg. destruct (sms_text now warnings_df location msg Hne Hmsg) as (middle & ->).
  destruct (existsb (risk_reaches 3) (rows warnings_df));
    [|destruct (existsb (risk_reaches 2) (rows warnings_df))]; reflexivity.
Qed.

(** X15.  The text message for a table that is not empty begins with the
    alarm sign and the label of the highest risk number among all rows of
    the table (HÖG RISK when a row reaches 3, MEDEL RISK when a row reaches
    2, LÅG RISK otherwise) and ends with the signature " MVH " and the
    location; it is never the empty text. *)
Theorem sms_text_names_highest_risk (now : Z) (warnings_df : DataFrame)
    (location msg : string) :
  df_empty warnings_df = false ->
  create_frost_sms_message now warnings_df location = Ok msg ->
  msg <> "" /\
  exists middle : string,
    msg = (if existsb (risk_reaches 3) (rows warnings_df) then "🚨 FROST HÖG RISK"
           else if existsb (risk_reaches 2) (rows warnings_df) then "⚠️ FROST MEDEL RISK"
           else "❄️ FROST LÅG RISK")
          +:+ middle +:+ " MVH " +:+ location.
Proof.
  intros Hne Hmsg. split.
  - pose proof (sms_text_not_empty now warnings_df location msg Hne Hmsg) as H.
    intros ->. discriminate.
  - exact (sms_text now warnings_df location msg Hne Hmsg).
Qed.

Lemma sms_text_names_highest_risk_witness :
  exists msg : string,
    create_frost_sms_message 1704067200 Examples.one_warning "Din trakt" = Ok msg /\
    msg <> "".
Proof.
  eexists. split; [vm_compute; reflexivity|].
  apply (sms_text_names_highest_risk 1704067200 Examples.one_warning "Din trakt").
  - reflexivity.
  - vm_compute. reflexivity.
Defined.

End SmsText.

(** ** The delivery of the text message *)

Section Delivery.

Import Sms SmsDelivery.

Variable notifier : SmsNotifier.
Variable message : string.

Lemma send_each_requests (recipients : list string) :
  forall (results : gmap string bool) (sent : outbox),
  exists k : nat,
    (k <= length recipients)%nat /\
    snd (send_each notifier recipients message results sent)
    = (sent ++ map (request_to notifier message) (take k recipients))%list /\
    (forall results' : gmap string bool,
       fst (send_each notifier recipients message results sent) = Ok results' ->
       k = length recipients).
Proof.
  induction recipients as [|number rest IH]; intros results sent.
  - exists 0%nat. simpl. rewrite app_nil_r. repeat split. lia.
  - simpl. unfold send_sms. fold (request_to notifier message number).
    destruct (client notifier (length sent) (request_to notifier message number)) as [sid|text|e].
    + destruct (IH (<[number := true]> results) (sent ++ [request_to notifier message number])%list)
        as (k & Hk & Hsent & Hok).
      exists (S k). split; [simpl; lia|]. split.
      * rewrite Hsent. simpl. rewrite <- app_assoc. reflexivity.
      * intros results' E. rewrite (Hok results' E). reflexivity.
    + destruct (IH (<[number := false]> results) (sent ++ [request_to notifier message number])%list)
        as (k & Hk & Hsent & Hok).
      exists (S k). split; [simpl; lia|]. split.
      * rewrite Hsent. simpl. rewrite <- app_assoc. reflexivity.
      * intros results' E. rewrite (Hok results' E). reflexivity.
    + exists 1%nat. split; [simpl; lia|]. split; [reflexivity|]. discriminate.
Qed.

Lemma send_each_results (recipients : list string) :
  forall (results results' : gmap string bool) (sent : outbox),
    fst (send_each notifier recipients message results sent) = Ok results' ->
    (forall number : string,
       results' !! number = Some true ->
       results !! number = Some true \/
       exists i : nat,
         recipients !! i = Some number /\
         accepted notifier (length sent + i) (request_to notifier message number) = true) /\
    (forall number : string, number ∉ recipients -> results' !! number = results !! number) /\
    (List.NoDup recipients ->
     forall (i : nat) (number : string),
       recipients !! i = Some number ->
       accepted notifier (length sent + i) (request_to notifier message number) = true ->
       results' !! number = Some true).
Proof.
  induction recipients as [|number rest IH]; intros results results' sent.
  - simpl. intros E. injection E as <-. repeat split.
    + intros n H. left. exact H.
    + intros _ i n H. rewrite lookup_nil in H. discriminate.
  - simpl. unfold send_sms. fold (request_to notifier message number).
    assert (Hlen : forall x : request, length (sent ++ [x])%list = S (length sent))
      by (intros x; rewrite length_app; simpl; lia).
    destruct (client notifier (length sent) (request_to notifier message number)) as [sid|text|e] eqn:Ec;
      [| |discriminate].
    + intros E. destruct (IH _ _ _ E) as (H1 & H2 & H3). rewrite Hlen in *.
      repeat split.
      * intros n Hn. destruct (H1 n Hn) as [Hr|(i & Hi & Ha)].
        -- destruct (decide (n = number)) as [->|Hneq].
           ++ right. exists 0%nat. split; [reflexivity|].
              unfold accepted. rewrite Nat.add_0_r, Ec. reflexivity.
           ++ left. rewrite lookup_insert_ne in Hr by congruence. exact Hr.
        -- right. exists (S i). split; [exact Hi|].
           replace (length sent + S i)%nat with (S (length sent) + i)%nat by lia. exact Ha.
      * intros n Hn. rewrite H2 by (intros Hin; apply Hn; right; exact Hin).
        apply lookup_insert_ne. intros ->. apply Hn. left.
      * intros Hnd i n Hi Ha. apply List.NoDup_cons_iff in Hnd. destruct Hnd as [Hnotin Hnd].
        destruct i as [|i].
        -- simpl in Hi. injection Hi as <-.
           rewrite H2 by (intros Hin; apply Hnotin; apply list_elem_of_In; exact Hin).
           apply lookup_insert_eq.
        -- simpl in Hi. apply (H3 Hnd i n Hi).
           replace (S (length sent) + i)%nat with (length sent + S i)%nat by lia. exact Ha.
    + intros E. destruct (IH _ _ _ E) as (H1 & H2 & H3). rewrite Hlen in *.
      repeat split.
      * intros n Hn. destruct (H1 n Hn) as [Hr|(i & Hi & Ha)].
        -- destruct (decide (n = number)) as [->|Hneq].
           ++ rewrite lookup_insert_eq in Hr. discriminate.
           ++ left. rewrite lookup_insert_ne in Hr by congruence. exact Hr.
        -- right. exists (S i). split; [exact Hi|].
           replace (length sent + S i)%nat with (S (length sent) + i)%nat by lia. exact Ha.
      * intros n Hn. rewrite H2 by (intros Hin; apply Hn; right; exact Hin).
        apply lookup_insert_ne. intros ->. apply Hn. left.
      * intros Hnd i n Hi Ha. apply List.NoDup_cons_iff in Hnd. destruct Hnd as [Hnotin Hnd].
        destruct i as [|i].
        -- simpl in Hi. injection Hi as <-.
           unfold accepted in Ha. rewrite Nat.add_0_r, Ec in Ha. discriminate.
        -- simpl in Hi. apply (H3 Hnd i n Hi).
           replace (S (length sent) + i)%nat with (length sent + S i)%nat by lia. exact Ha.
Qed.

Lemma successful_positive (results : gmap string bool) :
  (0 <? successful results)%nat = true <-> exists number : string, results !! number = Some true.
Proof.
  unfold successful. rewrite Nat.ltb_lt. split.
  - intros H.
    destruct (List.filter (fun kv : string * bool => snd kv) (map_to_list results))
      as [|[number b] l] eqn:E; [simpl in H; lia|].
    assert (Hin : In (number, b) (List.filter (fun kv : string * bool => snd kv)
                                    (map_to_list results)))
      by (rewrite E; left; reflexivity).
    apply filter_In in Hin. destruct Hin as [Hin Hb]. simpl in Hb. subst b.
    exists number. apply elem_of_map_to_list. apply list_elem_of_In. exact Hin.
  - intros (number & Hn).
    assert (Hin : In (number, true) (List.filter (fun kv : string * bool => snd kv)
                                       (map_to_list results))).
    { apply filter_In. split; [|reflexivity].
      apply list_elem_of_In. apply elem_of_map_to_list. exact Hn. }
    destruct (List.filter _ (map_to_list results)); [destruct Hin|simpl; lia].
Qed.


(** What [send_frost_sms_notification] does once the message is composed. *)
Lemma sms_notification_sends (now : Z) (warnings_df : DataFrame)
    (recipients : list string) (location : string) (sent : outbox) :
  df_empty warnings_df = false -> recipients <> [] ->
  create_frost_sms_message now warnings_df location = Ok message ->
  send_frost_sms_notification now warnings_df notifier recipients location sent
  = match send_each notifier recipients message ∅ sent with
    | (Raise e, sent') => (Raise e, sent')
    | (Ok results, sent') => (Ok (0 <? successful results)%nat, sent')
    end.
Proof.
  intros Hne Hrec Hmsg. unfold send_frost_sms_notification, send_bulk_sms.
  rewrite Hne, Hmsg, (sms_text_not_empty now warnings_df location message Hne Hmsg).
  destruct recipients; [contradiction|reflexivity].
Qed.

End Delivery.

Section DeliveryOutcome.

Import Sms SmsDelivery.

Lemma sms_notification_requests (now : Z) (warnings_df : DataFrame)
    (notifier : SmsNotifier) (recipients : list string) (location : string)
    (sent : outbox) :
  exists (k : nat) (message : string),
    (k <= length recipients)%nat /\
    snd (send_frost_sms_notification now warnings_df notifier recipients location sent)
    = (sent ++ map (request_to notifier message) (take k recipients))%list /\
    (k <> 0%nat ->
     df_empty warnings_df = false /\
     create_frost_sms_message now warnings_df location = Ok message) /\
    (fst (send_frost_sms_notification now warnings_df notifier recipients location sent)
     = Ok true -> k = length recipients).
Proof.
  assert (Hnone : forall res : result bool,
            send_frost_sms_notification now warnings_df notifier recipients location sent
            = (res, sent) -> res <> Ok true ->
            exists (k : nat) (message : string),
              (k <= length recipients)%nat /\
              snd (send_frost_sms_notification now warnings_df notifier recipients
                                               location sent)
              = (sent ++ map (request_to notifier message) (take k recipients))%list /\
              (k <> 0%nat ->
               df_empty warnings_df = false /\
               create_frost_sms_message now warnings_df location = Ok message) /\
              (fst (send_frost_sms_notification now warnings_df notifier recipients
                                                location sent)
               = Ok true -> k = length recipients)).
  { intros res E Hres. exists 0%nat, "". rewrite E. simpl. rewrite app_nil_r.
    split; [lia|]. split; [reflexivity|]. split; [intros H; contradiction|].
    intros H. contradiction. }
  destruct (df_empty warnings_df) eqn:Hne.
  { apply (Hnone (Ok false)); [|discriminate].
    unfold send_frost_sms_notification. rewrite Hne. reflexivity. }
  destruct recipients as [|number rest] eqn:Hrec.
  { apply (Hnone (Ok false)); [|discriminate].
    unfold send_frost_sms_notification. rewrite Hne. reflexivity. }
  rewrite <- Hrec in *.
  assert (Hrec' : recipients <> []) by (rewrite Hrec; discriminate).
  destruct (create_frost_sms_message now warnings_df location) as [message|e] eqn:Hmsg.
  2: { apply (Hnone (Raise e)); [|discriminate].
       unfold send_frost_sms_notification. rewrite Hne, Hmsg, Hrec. reflexivity. }
  rewrite (sms_notification_sends notifier message now warnings_df recipients location sent
             Hne Hrec' Hmsg).
  destruct (send_each_requests notifier message recipients ∅ sent) as (k & Hk & Hsent & Hok).
  exists k, message.
  destruct (send_each notifier recipients message ∅ sent) as [[results|e] sent'];
    simpl in *; (split; [exact Hk|]); (split; [exact Hsent|]);
    (split; [intros _; split; reflexivity|]).
  - intros _. apply (Hok results). reflexivity.
  - discriminate.
Qed.

(** X16.  Every request that the frost notification makes goes to a listed
    recipient, in the order of the list and one per entry, from the
    notifier's number and with the composed text as its body, the same for
    all; the requests stop at the first exception that is not a gateway
    rejection.  No request is made for an empty table, an empty list of
    recipients or a text that cannot be composed, and the result true means
    that every listed recipient was tried. *)
Theorem sms_requests_follow_recipients (now : Z) (warnings_df : DataFrame)
    (notifier : SmsNotifier) (recipients : list string) (location : string)
    (sent : outbox) :
  exists (k : nat) (message : string),
    (k <= length recipients)%nat /\
    snd (send_frost_sms_notification now warnings_df notifier recipients location sent)
    = (sent ++ map (request_to notifier message) (take k recipients))%list /\
    (k <> 0%nat ->
     df_empty warnings_df = false /\
     create_frost_sms_message now warnings_df location = Ok message) /\
    (fst (send_frost_sms_notification now warnings_df notifier recipients location sent)
     = Ok true -> k = length recipients).
Proof. apply sms_notification_requests. Qed.

(** X17.  When the result of the frost notification is true, the gateway
    accepted a request to one of the recipients; and when no number is
    listed twice, the result is true as soon as the gateway accepts one of
    the requests (and no request ends in an exception that is not a gateway
    rejection). *)
Theorem sms_result_reports_acceptance (now : Z) (warnings_df : DataFrame)
    (notifier : SmsNotifier) (recipients : list string) (location message : string)
    (sent sent' : outbox) (success : bool) :
  df_empty warnings_df = false ->
  create_frost_sms_message now warnings_df location = Ok message ->
  send_frost_sms_notification now warnings_df notifier recipients location sent
  = (Ok success, sent') ->
  (success = true ->
   exists (i : nat) (number : string),
     recipients !! i = Some number /\
     accepted notifier (length sent + i) (request_to notifier message number) = true) /\
  (List.NoDup recipients ->
   (exists (i : nat) (number : string),
      recipients !! i = Some number /\
      accepted notifier (length sent + i) (request_to notifier message number) = true) ->
   success = true).
Proof.
  intros Hne Hmsg Hres.
  destruct recipients as [|number0 rest] eqn:Hrec.
  { unfold send_frost_sms_notification in Hres. rewrite Hne in Hres. simpl in Hres.
    injection Hres as <- <-. split; [discriminate|].
    intros _ (i & number & Hi & _). rewrite lookup_nil in Hi. discriminate. }
  rewrite <- Hrec in *.
  assert (Hrec' : recipients <> []) by (rewrite Hrec; discriminate).
  rewrite (sms_notification_sends notifier message now warnings_df recipients location sent
             Hne Hrec' Hmsg) in Hres.
  pose proof (fun results' => send_each_results notifier message recipients ∅ results' sent)
    as Hresults.
  destruct (send_each notifier recipients message ∅ sent) as [[results|e] sent''];
    [|discriminate].
  destruct (Hresults results eq_refl) as (H1 & H2 & H3).
  injection Hres as <- <-. split.
  - intros Hpos. apply successful_positive in Hpos. destruct Hpos as (number & Hn).
    destruct (H1 number Hn) as [Hempty|(i & Hi & Ha)].
    + rewrite lookup_empty in Hempty. discriminate.
    + exists i, number. split; assumption.
  - intros Hnd (i & number & Hi & Ha). apply successful_positive.
    exists number. exact (H3 Hnd i number Hi Ha).
Qed.


Lemma sms_requests_follow_recipients_witness :
  exists (k : nat) (message : string),
    snd (send_frost_sms_notification 1704067200 Examples.one_warning
           (mkSmsNotifier (fun n _ => if (n =? 0)%nat then RestException "HTTP 400"
                                      else Created "SM1") "+46700000000")
           ["+46701111111"; "+46702222222"] "Din trakt" [])
    = map (request_to
             (mkSmsNotifier (fun n _ => if (n =? 0)%nat then RestException "HTTP 400"
                                        else Created "SM1") "+46700000000") message)
          (take k ["+46701111111"; "+46702222222"]).
Proof.
  destruct (sms_requests_follow_recipients 1704067200 Examples.one_warning
              (mkSmsNotifier (fun n _ => if (n =? 0)%nat then RestException "HTTP 400"
                                         else Created "SM1") "+46700000000")
              ["+46701111111"; "+46702222222"] "Din trakt" [])
    as (k & message & _ & H & _).
  exists k, message. exact H.
Defined.

Lemma sms_result_reports_acceptance_witness :
  exists message : string,
    create_frost_sms_message 1704067200 Examples.one_warning "Din trakt" = Ok message /\
    exists (i : nat) (number : string),
      ["+46701111111"; "+46702222222"] !! i = Some number /\
      accepted
        (mkSmsNotifier (fun n _ => if (n =? 0)%nat then RestException "HTTP 400"
                                   else Created "SM1") "+46700000000")
        (0 + i)
        (request_to
           (mkSmsNotifier (fun n _ => if (n =? 0)%nat then RestException "HTTP 400"
                                      else Created "SM1") "+46700000000")
           message number) = true.
Proof.
  eexists. split; [vm_compute; reflexivity|].
  refine (proj1 (sms_result_reports_acceptance 1704067200 Examples.one_warning
                   (mkSmsNotifier (fun n _ => if (n =? 0)%nat then RestException "HTTP 400"
                                              else Created "SM1") "+46700000000")
                   ["+46701111111"; "+46702222222"] "Din trakt" _ [] _ true
                   eq_refl _ _) eq_refl).
  - vm_compute. reflexivity.
  - vm_compute. reflexivity.
Defined.

End DeliveryOutcome.

(** ** The notification manager *)

Section Manager.

Import Sms SmsDelivery Notifications.

Lemma active_numbers_ok (entries : list recipient_entry) (numbers : list string) :
  active_numbers entries = Ok numbers ->
  forall n : string,
    In n numbers ->
    exists r : sms_recipient,
      In (Mapping r) entries /\ enabled r = true /\ number r = Some n.
Proof.
  revert numbers. induction entries as [|[type_name|r] rest IH]; intros numbers E n Hn.
  - simpl in E. injection E as <-. destruct Hn.
  - discriminate.
  - simpl in E. destruct (enabled r) eqn:Er.
    + destruct (number r) as [n0|] eqn:En; [|discriminate].
      destruct (active_numbers rest) as [numbers'|e]; [|discriminate].
      simpl in E. injection E as <-. destruct Hn as [<-|Hn].
      * exists r. split; [left; reflexivity|]. split; assumption.
      * destruct (IH numbers' eq_refl n Hn) as (r' & Hr' & H). exists r'.
        split; [right; exact Hr'|exact H].
    + destruct (IH numbers E n Hn) as (r' & Hr' & H). exists r'.
      split; [right; exact Hr'|exact H].
Qed.

(** The loop over the entries raises at the first entry that is not a
    mapping or is an enabled mapping without a number. *)
Lemma active_numbers_raise (entries : list recipient_entry) (e : exn) :
  active_numbers entries = Raise e <->
  exists (good : list recipient_entry) (entry : recipient_entry)
         (rest : list recipient_entry),
    entries = (good ++ entry :: rest)%list /\
    (forall x : recipient_entry,
       In x good ->
       exists r : sms_recipient, x = Mapping r /\ (enabled r = false \/ number r <> None)) /\
    ((exists type_name : string,
        entry = NotMapping type_name /\
        e = PyErr "AttributeError"
                  ("'" +:+ type_name +:+ "' object has no attribute 'get'")) \/
     (exists r : sms_recipient,
        entry = Mapping r /\ enabled r = true /\ number r = None /\
        e = PyErr "KeyError" "'number'")).
Proof.
  induction entries as [|entry0 rest0 IH].
  - simpl. split; [discriminate|].
    intros (good & entry & rest & E & _). destruct good; discriminate.
  - assert (Hhead : forall (good : list recipient_entry) (entry : recipient_entry)
                           (rest : list recipient_entry),
              entry0 :: rest0 = (good ++ entry :: rest)%list ->
              (good = [] /\ entry = entry0 /\ rest = rest0) \/
              (exists good' : list recipient_entry,
                 good = entry0 :: good' /\ rest0 = (good' ++ entry :: rest)%list)).
    { intros [|x good'] entry rest E; simpl in E; injection E as E1 E2.
      - left. subst. repeat split.
      - right. exists good'. subst. split; reflexivity. }
    destruct entry0 as [type_name|r0].
    + simpl. split.
      * intros E. injection E as <-. exists [], (NotMapping type_name), rest0.
        split; [reflexivity|]. split; [intros x []|]. left. exists type_name.
        split; reflexivity.
      * intros (good & entry & rest & E & Hgood & Hentry).
        destruct (Hhead good entry rest E) as [(-> & -> & ->)|(good' & -> & _)].
        -- destruct Hentry as [(ty & Ety & ->)|(r & Er & _)]; [|discriminate].
           injection Ety as <-. reflexivity.
        -- destruct (Hgood (NotMapping type_name) (or_introl eq_refl)) as (r & Er & _).
           discriminate.
    + simpl. destruct (enabled r0) eqn:En; [destruct (number r0) as [n0|] eqn:Enum|].
      * (* an enabled mapping with a number: the loop goes on *)
        destruct (active_numbers rest0) as [numbers|e0] eqn:Erest; simpl.
        -- split; [discriminate|].
           intros (good & entry & rest & E & Hgood & Hentry). exfalso.
           destruct (Hhead good entry rest E) as [(-> & -> & ->)|(good' & -> & E')].
           ++ destruct Hentry as [(ty & Ety & _)|(r & Er & _ & Hnone & _)];
                [discriminate|]. injection Er as <-. congruence.
           ++ assert (H : Ok numbers = Raise e).
              { apply IH. exists good', entry, rest. split; [exact E'|].
                split; [|exact Hentry]. intros x Hx. apply Hgood. right. exact Hx. }
              discriminate.
        -- split.
           ++ intros E. injection E as ->.
              destruct (proj1 IH eq_refl) as (good & entry & rest & E' & Hgood & Hentry).
              exists (Mapping r0 :: good), entry, rest.
              split; [rewrite E'; reflexivity|]. split; [|exact Hentry].
              intros x [<-|Hx]; [|exact (Hgood x Hx)].
              exists r0. split; [reflexivity|]. right. congruence.
           ++ intros (good & entry & rest & E & Hgood & Hentry).
              destruct (Hhead good entry rest E) as [(-> & -> & ->)|(good' & -> & E')].
              ** exfalso.
                 destruct Hentry as [(ty & Ety & _)|(r & Er & _ & Hnone & _)];
                   [discriminate|]. injection Er as <-. congruence.
              ** f_equal. assert (H : @Raise (list string) e0 = Raise e).
                 { apply IH. exists good', entry, rest. split; [exact E'|].
                   split; [|exact Hentry]. intros x Hx. apply Hgood. right. exact Hx. }
                 injection H as ->. reflexivity.
      * (* an enabled mapping without a number *)
        split.
        -- intros E. injection E as <-. exists [], (Mapping r0), rest0.
           split; [reflexivity|]. split; [intros x []|]. right. exists r0.
           repeat split; assumption.
        -- intros (good & entry & rest & E & Hgood & Hentry).
           destruct (Hhead good entry rest E) as [(-> & -> & ->)|(good' & -> & _)].
           ++ destruct Hentry as [(ty & Ety & _)|(r & _ & _ & _ & ->)];
                [discriminate|reflexivity].
           ++ exfalso.
              destruct (Hgood (Mapping r0) (or_introl eq_refl)) as (r & Er & [Hd|Hn]);
                injection Er as <-; congruence.
      * (* a mapping that is not enabled: the loop goes on *)
        rewrite IH. split.
        -- intros (good & entry & rest & E' & Hgood & Hentry).
           exists (Mapping r0 :: good), entry, rest.
           split; [rewrite E'; reflexivity|]. split; [|exact Hentry].
           intros x [<-|Hx]; [|exact (Hgood x Hx)].
           exists r0. split; [reflexivity|]. left. exact En.
        -- intros (good & entry & rest & E & Hgood & Hentry).
           destruct (Hhead good entry rest E) as [(-> & -> & ->)|(good' & -> & E')].
           ++ exfalso.
              destruct Hentry as [(ty & Ety & _)|(r & Er & He & _)];
                [discriminate|]. injection Er as <-. congruence.
           ++ exists good', entry, rest. split; [exact E'|].
              split; [|exact Hentry]. intros x Hx. apply Hgood. right. exact Hx.
Qed.

(** X18.  Text messages go only to enabled recipients: every request that
    [send_all_notifications] makes is from the number of the manager's
    notifier to the number of a configured recipient that is enabled, all
    requests carry the same body, and none is made for an empty table. *)
Theorem sms_only_to_enabled_recipients (now : Z) (m : NotificationManager)
    (warnings_df : DataFrame) (sent : outbox) :
  exists extra : outbox,
    snd (send_all_notifications now m warnings_df sent) = (sent ++ extra)%list /\
    (forall req : request,
       In req extra ->
       exists (notifier : SmsNotifier) (entries : list recipient_entry) (r : sms_recipient),
         sms_notifier m = Some notifier /\ from_ req = from_number notifier /\
         sms_recipients (cfg m) = Recipients entries /\ In (Mapping r) entries /\
         enabled r = true /\ number r = Some (to req)) /\
    (forall req1 req2 : request, In req1 extra -> In req2 extra -> body req1 = body req2) /\
    (df_empty warnings_df = true -> extra = []).
Proof.
  assert (Hnone : snd (send_all_notifications now m warnings_df sent) = sent ->
            exists extra : outbox,
              snd (send_all_notifications now m warnings_df sent) = (sent ++ extra)%list /\
              (forall req : request,
                 In req extra ->
                 exists (notifier : SmsNotifier) (entries : list recipient_entry)
                        (r : sms_recipient),
                   sms_notifier m = Some notifier /\ from_ req = from_number notifier /\
                   sms_recipients (cfg m) = Recipients entries /\ In (Mapping r) entries /\
                   enabled r = true /\ number r = Some (to req)) /\
              (forall req1 req2 : request,
                 In req1 extra -> In req2 extra -> body req1 = body req2) /\
              (df_empty warnings_df = true -> extra = [])).
  { intros E. exists []. rewrite E, app_nil_r. split; [reflexivity|].
    split; [intros req []|]. split; [intros req1 req2 []|]. reflexivity. }
  unfold send_all_notifications in *.
  destruct (df_empty warnings_df) eqn:Hne; [apply Hnone; reflexivity|].
  unfold send_sms_notifications in *.
  destruct (sms_notifier m) as [notifier|] eqn:Hn; [|apply Hnone; reflexivity].
  unfold get_sms_recipients in *.
  destruct (sms_recipients (cfg m)) as [|type_name|entries] eqn:Hcfg;
    [apply Hnone; reflexivity|apply Hnone; reflexivity|].
  destruct (active_numbers entries) as [recipients|e] eqn:Hrec;
    [|apply Hnone; reflexivity].
  destruct (is_nil recipients); [apply Hnone; reflexivity|].
  destruct (get_location_name m) as [location|e]; [|apply Hnone; reflexivity].
  clear Hnone.
  destruct (sms_notification_requests now warnings_df notifier recipients location sent)
    as (k & message & Hk & Hsent & _ & _).
  exists (map (request_to notifier message) (take k recipients)).
  split.
  - destruct (send_frost_sms_notification now warnings_df notifier recipients location sent)
      as [[success|e] sent']; exact Hsent.
  - split; [|split; [|discriminate]].
    + intros req Hreq. apply in_map_iff in Hreq. destruct Hreq as (n & <- & Hin).
      assert (Hin' : In n recipients).
      { apply list_elem_of_In. apply list_elem_of_In in Hin.
        apply elem_of_take in Hin. destruct Hin as (i & Hi & _).
        exact (list_elem_of_lookup_2 _ _ _ Hi). }
      destruct (active_numbers_ok _ _ Hrec n Hin') as (r & Hr & He & Hnum).
      exists notifier, entries, r. repeat split; assumption.
    + intros req1 req2 H1 H2. apply in_map_iff in H1, H2.
      destruct H1 as (n1 & <- & _), H2 as (n2 & <- & _). reflexivity.
Qed.

(** X19.  [send_all_notifications] raises only when the table is not
    empty, a text message notifier is active and the configured recipients
    are malformed, and then before any request is made: [TypeError] when
    the value under recipients cannot be iterated (null, a number), and
    otherwise the exception of the first entry that is not a mapping
    ([AttributeError]) or is an enabled mapping without a number
    ([KeyError] for 'number').  A failing mail server, gateway, location
    lookup or message composition never makes it raise. *)
Theorem notifications_raise_only_for_malformed_recipients (now : Z)
    (m : NotificationManager) (warnings_df : DataFrame) (sent : outbox) (e : exn) :
  (fst (send_all_notifications now m warnings_df sent) = Raise e <->
   df_empty warnings_df = false /\
   is_Some (sms_notifier m) /\
   ((exists type_name : string,
       sms_recipients (cfg m) = RecipientsNotIterable type_name /\
       e = PyErr "TypeError" ("'" +:+ type_name +:+ "' object is not iterable")) \/
    (exists (good : list recipient_entry) (entry : recipient_entry)
            (rest : list recipient_entry),
       sms_recipients (cfg m) = Recipients (good ++ entry :: rest) /\
       (forall x : recipient_entry,
          In x good ->
          exists r : sms_recipient,
            x = Mapping r /\ (enabled r = false \/ number r <> None)) /\
       ((exists type_name : string,
           entry = NotMapping type_name /\
           e = PyErr "AttributeError"
                     ("'" +:+ type_name +:+ "' object has no attribute 'get'")) \/
        (exists r : sms_recipient,
           entry = Mapping r /\ enabled r = true /\ number r = None /\
           e = PyErr "KeyError" "'number'"))))) /\
  (fst (send_all_notifications now m warnings_df sent) = Raise e ->
   snd (send_all_notifications now m warnings_df sent) = sent).
Proof.
  unfold send_all_notifications, send_sms_notifications, get_sms_recipients.
  destruct (df_empty warnings_df) eqn:Hne.
  { split; [|discriminate]. split; [discriminate|]. intros (H & _). discriminate. }
  destruct (sms_notifier m) as [notifier|] eqn:Hn.
  2: { split; [|discriminate]. split; [discriminate|].
       intros (_ & [x Hx] & _). discriminate. }
  assert (Hquiet : forall recipients : list string,
            fst (let '(r, sent') :=
                   if is_nil recipients then (Ok false, sent)
                   else match get_location_name m with
                        | Ok location =>
                            match send_frost_sms_notification now warnings_df notifier
                                    recipients location sent with
                            | (Ok success, sent') => (Ok success, sent')
                            | (Raise _, sent') => (Ok false, sent')
                            end
                        | Raise _ => (Ok false, sent)
                        end in
                 match r with
                 | Ok sms_success =>
                     (Ok (Orchestrator.mkResults (send_email_notifications m warnings_df)
                            sms_success
                            (send_email_notifications m warnings_df || sms_success)),
                      sent')
                 | Raise e0 => (Raise e0, sent')
                 end) <> Raise e).
  { intros recipients. destruct (is_nil recipients); [discriminate|].
    destruct (get_location_name m) as [location|e0]; [|discriminate].
    destruct (send_frost_sms_notification now warnings_df notifier recipients location sent)
      as [[success|e0] sent']; discriminate. }
  destruct (sms_recipients (cfg m)) as [|type_name|entries] eqn:Hcfg.
  - split; [|discriminate]. split; [discriminate|].
    intros (_ & _ & [(ty & E & _)|(good & entry & rest & E & _)]); discriminate.
  - simpl. split; [|reflexivity]. split.
    + intros E. injection E as <-. split; [reflexivity|].
      split; [exists notifier; reflexivity|]. left. exists type_name.
      split; reflexivity.
    + intros (_ & _ & [(ty & E & ->)|(good & entry & rest & E & _)]); [|discriminate].
      injection E as <-. reflexivity.
  - pose proof (active_numbers_raise entries e) as Hraise.
    destruct (active_numbers entries) as [recipients|e'] eqn:Hrec.
    + split.
      * split.
        -- intros E. exfalso. exact (Hquiet recipients E).
        -- intros (_ & _ & [(ty & E & _)|(good & entry & rest & E & Hgood & Hentry)]);
             [discriminate|].
           exfalso. injection E as ->.
           assert (H : Ok recipients = Raise e)
             by (apply Hraise; exists good, entry, rest; repeat split; assumption).
           discriminate.
      * intros E. exfalso. exact (Hquiet recipients E).
    + simpl. split; [|reflexivity]. split.
      * intros E. injection E as ->.
        destruct (proj1 Hraise eq_refl) as (good & entry & rest & -> & Hgood & Hentry).
        split; [reflexivity|]. split; [exists notifier; reflexivity|].
        right. exists good, entry, rest. repeat split; assumption.
      * intros (_ & _ & [(ty & E & _)|(good & entry & rest & E & Hgood & Hentry)]);
          [discriminate|].
        injection E as ->.
        assert (H : @Raise (list string) e' = Raise e)
          by (apply Hraise; exists good, entry, rest; repeat split; assumption).
        injection H as ->. reflexivity.
Qed.

Lemma sms_only_to_enabled_recipients_witness :
  exists extra : outbox,
    snd (send_all_notifications 1704067200
           (mkManager
              (mkConfig None
                 (Recipients [Mapping (mkRecipient true (Some "+46701111111"));
                              Mapping (mkRecipient false (Some "+46702222222"))])
                 LocationMissing)
              None (Some (mkSmsNotifier (fun _ _ => Created "SM1") "+46700000000")))
           Examples.one_warning [])
    = extra /\
    forall req : request, In req extra -> to req <> "+46702222222".
Proof.
  destruct (sms_only_to_enabled_recipients 1704067200
              (mkManager
                 (mkConfig None
                    (Recipients [Mapping (mkRecipient true (Some "+46701111111"));
                                 Mapping (mkRecipient false (Some "+46702222222"))])
                    LocationMissing)
                 None (Some (mkSmsNotifier (fun _ _ => Created "SM1") "+46700000000")))
              Examples.one_warning [])
    as (extra & Hsent & Hto & _).
  exists extra. split; [exact Hsent|].
  intros req Hreq E.
  destruct (Hto req Hreq) as (notifier & entries & r & _ & _ & Hcfg & Hr & He & Hn).
  rewrite E in Hn. simpl in Hcfg. injection Hcfg as <-.
  destruct Hr as [Hr|[Hr|[]]]; injection Hr as <-; simpl in *; discriminate.
Defined.

Lemma notifications_raise_only_for_malformed_recipients_witness :
  fst (send_all_notifications 1704067200
         (mkManager
            (mkConfig None
               (Recipients [Mapping (mkRecipient false None); NotMapping "str"])
               LocationMissing)
            None (Some (mkSmsNotifier (fun _ _ => Created "SM1") "+46700000000")))
         Examples.one_warning [])
  = Raise (PyErr "AttributeError" "'str' object has no attribute 'get'").
Proof.
  apply (proj1 (notifications_raise_only_for_malformed_recipients 1704067200
                  (mkManager
                     (mkConfig None
                        (Recipients [Mapping (mkRecipient false None); NotMapping "str"])
                        LocationMissing)
                     None (Some (mkSmsNotifier (fun _ _ => Created "SM1") "+46700000000")))
                  Examples.one_warning []
                  (PyErr "AttributeError" "'str' object has no attribute 'get'"))).
  split; [reflexivity|]. split; [eexists; reflexivity|]. right.
  exists [Mapping (mkRecipient false None)], (NotMapping "str"), [].
  split; [reflexivity|]. split.
  - intros x [<-|[]]. eexists. split; [reflexivity|]. left. reflexivity.
  - left. exists "str". split; reflexivity.
Defined.

End Manager.

(** ** The transformation, continued *)

Section TransformCells.

Import Pipeline Cells.

Lemma get_set_wanted (c col : string) (v : option Q) (r : Row) :
  In col WANTED_COLS ->
  get_wanted col (set_wanted c v r) = if String.eqb c col then v else get_wanted col r.
Proof.
  intros Hin. unfold set_wanted.
  destruct (String.eqb c "temperature_2m") eqn:E1;
    [apply String.eqb_eq in E1; subst c|
  destruct (String.eqb c "relative_humidity_2m") eqn:E2;
    [apply String.eqb_eq in E2; subst c|
  destruct (String.eqb c "precipitation") eqn:E3;
    [apply String.eqb_eq in E3; subst c|
  destruct (String.eqb c "wind_speed_10m") eqn:E4;
    [apply String.eqb_eq in E4; subst c|
  destruct (String.eqb c "precipitation_probability") eqn:E5;
    [apply String.eqb_eq in E5; subst c|
  destruct (String.eqb c "cloud_cover") eqn:E6;
    [apply String.eqb_eq in E6; subst c|]]]]]];
  unfold WANTED_COLS in Hin; simpl in Hin;
  repeat (destruct Hin as [<-|Hin]; [try reflexivity; try (rewrite ?E1, ?E2, ?E3, ?E4, ?E5, ?E6; reflexivity)|]);
  try destruct Hin.
Qed.

Lemma assign_wanted_inv (h : hourly_object) (cols : list string) :
  forall df df' : DataFrame,
    assign_wanted h cols df = Ok df' -> parallel h cols (length (rows df)).
Proof.
  induction cols as [|c cols IH]; intros df df' E.
  - intros col values [].
  - simpl in E. unfold assign_values in E.
    destruct (length (default (replicate (length (rows df)) None) (series h !! c))
              =? length (rows df))%nat eqn:Hlen; [|discriminate].
    cbn [mbind result_bind] in E. apply Nat.eqb_eq in Hlen.
    pose proof (IH _ _ E) as Hp. cbn [rows] in Hp.
    rewrite zip_with_same_length in Hp by exact Hlen.
    intros col values [<-|Hin] Hv.
    + rewrite Hv in Hlen. exact Hlen.
    + exact (Hp col values Hin Hv).
Qed.

Lemma foldl_assign_step_cell (h : hourly_object) (all cols : list string) (col : string) :
  forall df : DataFrame,
    parallel h all (length (rows df)) -> incl cols all -> In col WANTED_COLS ->
    map (get_wanted col) (rows (foldl (assign_step h) df cols))
    = if existsb (fun c => String.eqb c col) cols
      then values_of h col (length (rows df))
      else map (get_wanted col) (rows df).
Proof.
  induction cols as [|c cols IH]; intros df Hp Hincl Hcol; simpl; [reflexivity|].
  assert (Hin : In c all) by (apply Hincl; left; reflexivity).
  assert (Hincl' : incl cols all) by (intros x Hx; apply Hincl; right; exact Hx).
  pose proof (assign_step_length h all df c Hp Hin) as Hlen.
  assert (Hp' : parallel h all (length (rows (assign_step h df c))))
    by (rewrite Hlen; exact Hp).
  rewrite (IH (assign_step h df c) Hp' Hincl' Hcol), Hlen.
  destruct (existsb (fun c0 => String.eqb c0 col) cols);
    [rewrite orb_true_r; reflexivity|]. rewrite orb_false_r.
  unfold assign_step. cbn [rows].
  pose proof (values_of_length h all c _ Hp Hin) as Hv.
  destruct (String.eqb c col) eqn:E.
  - apply String.eqb_eq in E. subst c.
    apply map_zip_with_set; [|exact Hv].
    intros v r. rewrite get_set_wanted by exact Hcol. rewrite String.eqb_refl. reflexivity.
  - apply map_zip_with_keep; [|exact Hv].
    intros v r. rewrite get_set_wanted by exact Hcol. rewrite E. reflexivity.
Qed.

(** The table that the transformation returns when every array has one
    value per timestamp: the rows after the loop over the wanted columns,
    with the wind converted and the run's stamps written. *)
Lemma transform_parallel (json_data : forecast_json) (dataset : string)
    (forecast_issue_time : option Z) (run_id : string) (h : hourly_object)
    (times : list (option Z)) :
  json_data = JsonObject (HourlyObject h) -> time h = Some times -> times <> [] ->
  parallel h WANTED_COLS (length times) ->
  fst (transform_hourly_json json_data dataset forecast_issue_time run_id)
  = Ok (mkDataFrame transform_columns
          (map (fun r =>
                  set_run_id (Some run_id)
                    (set_horizon_hours
                       (match forecast_issue_time with
                        | Some fit => horizon fit (valid_time r)
                        | None => None
                        end)
                       (set_forecast_issue_time forecast_issue_time
                          (set_dataset (Some dataset)
                             (set_wind_speed_10m (kmh_to_ms (wind_speed_10m r)) r)))))
               (rows (foldl (assign_step h)
                        (mkDataFrame ["valid_time"] (map blank_row times)) WANTED_COLS)))).
Proof.
  intros E T Hne Hpar.
  rewrite E. unfold transform_hourly_json. cbn [hourly_of]. rewrite T. simpl default.
  assert (N : is_nil times = false) by (destruct times; [contradiction|reflexivity]).
  rewrite N.
  set (df0 := mkDataFrame ["valid_time"] (map blank_row times)).
  assert (L0 : length (rows df0) = length times) by apply length_map.
  assert (Hp : parallel h WANTED_COLS (length (rows df0))) by (rewrite L0; exact Hpar).
  rewrite (assign_wanted_ok h WANTED_COLS df0 Hp). cbn [mbind result_bind fst].
  destruct (foldl_assign_step h WANTED_COLS WANTED_COLS df0 Hp (incl_refl _))
    as (_ & _ & _ & C).
  set (df1 := foldl (assign_step h) df0 WANTED_COLS) in *.
  assert (C1 : columns df1
               = ["valid_time"; "temperature_2m"; "relative_humidity_2m";
                  "precipitation"; "wind_speed_10m"; "precipitation_probability";
                  "cloud_cover"]) by (rewrite C; reflexivity).
  assert (Hw : has_column "wind_speed_10m" df1 = true)
    by (unfold has_column; rewrite C1; reflexivity).
  rewrite Hw. clearbody df1. clear C Hp L0. clearbody df0.
  rewrite select_columns_ok.
  - f_equal. f_equal. cbn [rows].
    destruct forecast_issue_time; unfold assign; cbn [rows]; rewrite !map_map;
      apply map_ext; intros r; reflexivity.
  - destruct forecast_issue_time;
      unfold transform_columns; cbn [forallb]; unfold has_column, assign;
      cbn [columns]; rewrite C1; vm_compute; reflexivity.
Qed.

(** X20.  When every array of the answer has one value per timestamp, the
    returned table carries the provider's values column by column and row
    by row: temperature, humidity, precipitation, precipitation probability
    and cloud cover as they are (absent where the answer has no array), and
    the wind speed divided by 3.6.  Every row is stamped with the dataset
    tag, the run id and the issue time, and has a horizon exactly when the
    issue time and its own valid time are present. *)
Theorem transform_copies_values (json_data : forecast_json) (tag : string)
    (issue_time : option Z) (run : string) (h : hourly_object)
    (times : list (option Z)) :
  json_data = JsonObject (HourlyObject h) -> time h = Some times -> times <> [] ->
  (forall (col : string) (values : list (option Q)),
     In col WANTED_COLS -> series h !! col = Some values -> length values = length times) ->
  let provided :=
    fun col : string => default (replicate (length times) None) (series h !! col) in
  exists df : DataFrame,
    fst (transform_hourly_json json_data tag issue_time run) = Ok df /\
    map temperature_2m (rows df) = provided "temperature_2m" /\
    map relative_humidity_2m (rows df) = provided "relative_humidity_2m" /\
    map precipitation (rows df) = provided "precipitation" /\
    map precipitation_probability (rows df) = provided "precipitation_probability" /\
    map cloud_cover (rows df) = provided "cloud_cover" /\
    map wind_speed_10m (rows df)
    = map (fun v => match v with Some x => Some (x / 3.6)%Q | None => None end)
          (provided "wind_speed_10m") /\
    (forall r : Row,
       In r (rows df) ->
       dataset r = Some tag /\ run_id r = Some run /\
       forecast_issue_time r = issue_time /\
       (horizon_hours r = None <-> issue_time = None \/ valid_time r = None)).
Proof.
  intros E T Hne Hpar provided.
  eexists. split; [exact (transform_parallel _ _ _ _ h times E T Hne Hpar)|].
  match goal with
  | |- context [rows (mkDataFrame ?c ?l)] => change (rows (mkDataFrame c l)) with l
  end.
  set (df0 := mkDataFrame ["valid_time"] (map blank_row times)).
  assert (L0 : length (rows df0) = length times) by apply length_map.
  assert (Hp : parallel h WANTED_COLS (length (rows df0))) by (rewrite L0; exact Hpar).
  assert (Hcell : forall col : string,
            In col WANTED_COLS ->
            map (get_wanted col) (rows (foldl (assign_step h) df0 WANTED_COLS))
            = provided col).
  { intros col Hcol.
    rewrite (foldl_assign_step_cell h WANTED_COLS WANTED_COLS col df0 Hp (incl_refl _) Hcol).
    assert (Hex : existsb (fun c => String.eqb c col) WANTED_COLS = true).
    { apply existsb_exists. exists col. split; [exact Hcol|apply String.eqb_refl]. }
    rewrite Hex, L0. reflexivity. }
  rewrite !map_map.
  repeat split.
  - rewrite <- (Hcell "temperature_2m") by (vm_compute; tauto). reflexivity.
  - rewrite <- (Hcell "relative_humidity_2m") by (vm_compute; tauto). reflexivity.
  - rewrite <- (Hcell "precipitation") by (vm_compute; tauto). reflexivity.
  - rewrite <- (Hcell "precipitation_probability") by (vm_compute; tauto). reflexivity.
  - rewrite <- (Hcell "cloud_cover") by (vm_compute; tauto). reflexivity.
  - rewrite <- (Hcell "wind_speed_10m") by (vm_compute; tauto). rewrite map_map.
    reflexivity.
  - apply in_map_iff in H. destruct H as (r0 & <- & _). reflexivity.
  - apply in_map_iff in H. destruct H as (r0 & <- & _). reflexivity.
  - apply in_map_iff in H. destruct H as (r0 & <- & _). reflexivity.
  - apply in_map_iff in H. destruct H as (r0 & <- & _). cbn.
    destruct issue_time as [fit|]; [|left; reflexivity].
    unfold horizon. destruct (valid_time r0); [discriminate|]. right. reflexivity.
  - apply in_map_iff in H. destruct H as (r0 & <- & _). cbn.
    intros [->|Hv]; [reflexivity|].
    destruct issue_time as [fit|]; [|reflexivity]. rewrite Hv. reflexivity.
Qed.

Lemma transform_copies_values_witness :
  exists df : DataFrame,
    fst (transform_hourly_json Examples.wind_payload "forecast" (Some 1735680000%Z)
                               "test_run_123") = Ok df /\
    map temperature_2m (rows df) = [Some 5.0%Q; Some 4.2%Q] /\
    map wind_speed_10m (rows df) = [Some (7.2 / 3.6)%Q; Some (8.1 / 3.6)%Q].
Proof.
  destruct (transform_copies_values Examples.wind_payload "forecast" (Some 1735680000%Z)
              "test_run_123" Examples.wind_hourly [Some 1735689600%Z; Some 1735693200%Z])
    as (df & Hdf & Htemp & _ & _ & _ & _ & Hwind & _).
  - reflexivity.
  - reflexivity.
  - discriminate.
  - intros col values Hin E.
    repeat (destruct Hin as [<- | Hin];
            [vm_compute in E; first [discriminate | injection E as <-; reflexivity]|]).
    destruct Hin.
  - exists df. split; [exact Hdf|]. split; [exact Htemp|exact Hwind].
Defined.

Lemma Ok_inj {A : Type} (a b : A) : Ok a = Ok b -> a = b.
Proof. congruence. Qed.

Lemma transform_aligned (json_data : forecast_json) (tag : string)
    (issue_time : option Z) (run : string) (df : DataFrame) (h : hourly_object)
    (times : list (option Z)) :
  json_data = JsonObject (HourlyObject h) -> time h = Some times -> times <> [] ->
  fst (transform_hourly_json json_data tag issue_time run) = Ok df ->
  parallel h WANTED_COLS (length times).
Proof.
  intros E T Hne Hok. rewrite E in Hok. unfold transform_hourly_json in Hok.
  cbn [hourly_of] in Hok. rewrite T in Hok.
  simpl default in Hok.
  assert (N : is_nil times = false) by (destruct times; [contradiction|reflexivity]).
  rewrite N in Hok. cbn [fst] in Hok.
  destruct (assign_wanted h WANTED_COLS (mkDataFrame ["valid_time"] (map blank_row times)))
    as [df1|e] eqn:Ha; [|discriminate].
  apply assign_wanted_inv in Ha. cbn [rows] in Ha. rewrite length_map in Ha. exact Ha.
Qed.

Lemma transform_ok_shape (json_data : forecast_json) (tag : string)
    (issue_time : option Z) (run : string) (df : DataFrame) :
  fst (transform_hourly_json json_data tag issue_time run) = Ok df ->
  df = empty_frame \/ (columns df = transform_columns /\ rows df <> []).
Proof.
  intros Hok.
  destruct json_data as [type_name|[|type_name|h]] eqn:E; try discriminate.
  { left. apply Ok_inj in Hok. symmetry. exact Hok. }
  destruct (time h) as [times|] eqn:T.
  2: { left. unfold transform_hourly_json in Hok. cbn [hourly_of] in Hok.
       rewrite T in Hok. apply Ok_inj in Hok. symmetry. exact Hok. }
  destruct (decide (times = [])) as [->|Hne].
  { left. unfold transform_hourly_json in Hok. cbn [hourly_of] in Hok.
    rewrite T in Hok. apply Ok_inj in Hok. symmetry. exact Hok. }
  right.
  pose proof (transform_aligned _ _ _ _ _ h times eq_refl T Hne Hok) as Hpar.
  rewrite (transform_parallel _ _ _ _ h times eq_refl T Hne Hpar) in Hok.
  apply Ok_inj in Hok. subst df. split; [reflexivity|].
  match goal with
  | |- context [rows (mkDataFrame ?c ?l)] => change (rows (mkDataFrame c l)) with l
  end.
  set (df0 := mkDataFrame ["valid_time"] (map blank_row times)).
  assert (L0 : length (rows df0) = length times) by apply length_map.
  assert (Hp : parallel h WANTED_COLS (length (rows df0))) by (rewrite L0; exact Hpar).
  destruct (foldl_assign_step h WANTED_COLS WANTED_COLS df0 Hp (incl_refl _)) as (L & _).
  intros Hnil. apply (f_equal (@length Row)) in Hnil.
  rewrite length_map, L, L0 in Hnil. destruct times; [contradiction|discriminate].
Qed.

(** X21.  The transformation returns a table for a non-empty array of times
    only when every wanted array that the answer carries has exactly one
    value per timestamp (otherwise it raises); the table then has the
    eleven columns of the transformation and the timestamps as its valid
    times, in their order. *)
Theorem transform_returns_only_aligned_tables (json_data : forecast_json) (tag : string)
    (issue_time : option Z) (run : string) (df : DataFrame) (h : hourly_object)
    (times : list (option Z)) :
  json_data = JsonObject (HourlyObject h) -> time h = Some times -> times <> [] ->
  fst (transform_hourly_json json_data tag issue_time run) = Ok df ->
  (forall (col : string) (values : list (option Q)),
     In col WANTED_COLS -> series h !! col = Some values -> length values = length times) /\
  columns df = transform_columns /\
  map valid_time (rows df) = times.
Proof.
  intros E T Hne Hok.
  pose proof (transform_aligned _ _ _ _ _ h times E T Hne Hok) as Hpar.
  split; [exact Hpar|].
  rewrite (transform_parallel _ _ _ _ h times E T Hne Hpar) in Hok.
  apply Ok_inj in Hok. subst df. split; [reflexivity|].
  match goal with
  | |- context [rows (mkDataFrame ?c ?l)] => change (rows (mkDataFrame c l)) with l
  end.
  set (df0 := mkDataFrame ["valid_time"] (map blank_row times)).
  assert (L0 : length (rows df0) = length times) by apply length_map.
  assert (Hp : parallel h WANTED_COLS (length (rows df0))) by (rewrite L0; exact Hpar).
  destruct (foldl_assign_step h WANTED_COLS WANTED_COLS df0 Hp (incl_refl _))
    as (_ & V & _).
  rewrite map_map.
  change (map valid_time (rows (foldl (assign_step h) df0 WANTED_COLS)) = times).
  rewrite V. unfold df0. cbn [rows]. rewrite map_map. apply map_id.
Qed.

Lemma transform_returns_only_aligned_tables_witness :
  exists df : DataFrame,
    fst (transform_hourly_json Examples.wind_payload "forecast" None "run") = Ok df /\
    columns df = transform_columns /\
    map valid_time (rows df) = [Some 1735689600%Z; Some 1735693200%Z].
Proof.
  eexists. split; [vm_compute; reflexivity|].
  refine (proj2 (transform_returns_only_aligned_tables Examples.wind_payload "forecast" None
                   "run" _ Examples.wind_hourly [Some 1735689600%Z; Some 1735693200%Z]
                   eq_refl eq_refl _ _)).
  - discriminate.
  - vm_compute. reflexivity.
Defined.

End TransformCells.

(** ** The orchestrator, continued *)

Section RunStages.

Import AnalyzerTable Pipeline Orchestrator.

Variable w : World.

(** The run gets past its preparations. *)
Hypothesis config_loaded : load_config w = None.
Hypothesis smoke_passed : run_smoke_tests w <> SmokeReturned false.
Hypothesis database_prepared : prepare_database w = None.
Hypothesis manager_created : create_notification_manager w = None.

Lemma main_started :
  main w
  = let '(df_fc, errors1, events1) := forecast_stage w in
    let '(errors2, events2) := persist_stage w df_fc in
    let errors := (errors1 ++ errors2)%list in
    let status := if is_nil errors then "ok" else "fail" in
    mkRun (exit_decision errors) (events1 ++ events2 ++ [WriteHeartbeat])%list errors
          (match write_heartbeat w status with
           | None => Some status
           | Some _ => None
           end).
Proof.
  unfold main. rewrite config_loaded, database_prepared, manager_created.
  destruct (run_smoke_tests w) as [|[|]|]; try reflexivity. contradiction.
Qed.

Lemma select_after_analysis (json_data : forecast_json) (issue_time : Z) (df : DataFrame) :
  fst (transform_hourly_json json_data "forecast" (Some issue_time) (run_id w)) = Ok df ->
  exists warnings_only : DataFrame,
    select_warnings (perform_frost_analysis df) = Ok warnings_only.
Proof.
  intros Hok. destruct (transform_ok_shape _ _ _ _ _ Hok) as [->|[Hcols Hrows]].
  - eexists. reflexivity.
  - destruct (analyze_forecast_table df Hcols Hrows) as (has_humidity & Ha).
    unfold perform_frost_analysis.
    assert (Hne : df_empty df = false).
    { unfold df_empty. rewrite Hcols. destruct (rows df); [contradiction|reflexivity]. }
    rewrite Hne, Ha. clear Hne. unfold select_warnings.
    assert (Hc : forall l : list Row,
              has_column "frost_warning"
                (mkDataFrame (transform_columns ++ frost_columns)%list l) = true)
      by reflexivity.
    rewrite Hc.
    destruct (df_empty (mkDataFrame _ _)); eexists; reflexivity.
Qed.

(** X22.  A run that gets past its preparations begins with the forecast
    fetch and ends with the heartbeat, which it attempts exactly once,
    whatever failed in between; the status written is "ok" when the run
    recorded no error and "fail" otherwise. *)
Theorem heartbeat_closes_the_run :
  exists stages : list event,
    events (main w) = (FetchForecast :: stages ++ [WriteHeartbeat])%list /\
    ~ In WriteHeartbeat stages /\
    forall status : string,
      heartbeat_status (main w) = Some status ->
      status = if is_nil (errors (main w)) then "ok" else "fail".
Proof.
  rewrite main_started.
  pose proof (forecast_stage_events w) as H1.
  destruct (forecast_stage w) as [[df_fc errors1] events1].
  pose proof (persist_stage_events w df_fc) as H2.
  destruct (persist_stage w df_fc) as [errors2 events2].
  simpl in *.
  assert (Hstatus : forall status : string,
            match write_heartbeat w (if is_nil (errors1 ++ errors2)%list then "ok" else "fail")
            with
            | Some _ => None
            | None => Some (if is_nil (errors1 ++ errors2)%list then "ok" else "fail")
            end = Some status ->
            status = if is_nil (errors1 ++ errors2)%list then "ok" else "fail").
  { intros status. destruct (write_heartbeat w _); [discriminate|].
    intros E. injection E as <-. reflexivity. }
  exists (tl events1 ++ events2)%list.
  split; [|split; [|exact Hstatus]];
    destruct H1 as [-> | [-> | ->]]; destruct H2 as [-> | [-> | ->]];
    first [reflexivity | simpl; intuition discriminate].
Qed.

(** X23.  When the forecast cannot be fetched, stamped with the local time
    or transformed, the run analyses nothing, notifies nobody and saves
    nothing: it records the one error "Prognos misslyckades: ..." and goes
    on to the heartbeat, whose status is then "fail". *)
Theorem failed_fetch_saves_nothing (e : exn) :
  fetch_forecast w = Raise e \/
  (exists json_data : forecast_json,
     fetch_forecast w = Ok json_data /\ issue_time_local w = Raise e) \/
  (exists (json_data : forecast_json) (issue_time : Z),
     fetch_forecast w = Ok json_data /\ issue_time_local w = Ok issue_time /\
     fst (transform_hourly_json json_data "forecast" (Some issue_time) (run_id w))
     = Raise e) ->
  events (main w) = [FetchForecast; WriteHeartbeat] /\
  errors (main w) = [prognos_error e] /\
  (heartbeat_status (main w) = Some "fail" \/ heartbeat_status (main w) = None).
Proof.
  intros H. rewrite main_started.
  assert (Hstage : forecast_stage w = (empty_frame, [prognos_error e], [FetchForecast])).
  { unfold forecast_stage.
    destruct H as [->|[(json_data & -> & ->)|(json_data & issue_time & -> & -> & ->)]];
      reflexivity. }
  rewrite Hstage. simpl.
  split; [reflexivity|]. split; [reflexivity|].
  destruct (write_heartbeat w "fail"); [right|left]; reflexivity.
Qed.

Lemma forecast_stage_notified :
  In SendNotifications (snd (forecast_stage w)) ->
  df_empty (fst (fst (forecast_stage w))) = false.
Proof.
  unfold forecast_stage.
  destruct (fetch_forecast w) as [json_data|e]; [|simpl; intuition discriminate].
  destruct (issue_time_local w) as [issue_time|e]; [|simpl; intuition discriminate].
  destruct (fst (transform_hourly_json _ _ _ _)) as [df|e];
    [|simpl; intuition discriminate].
  unfold select_warnings.
  destruct (df_empty (perform_frost_analysis df)) eqn:Hne.
  { simpl. intuition discriminate. }
  destruct (has_column "frost_warning" (perform_frost_analysis df));
    [|simpl; intuition discriminate].
  destruct (df_empty (mkDataFrame _ _)); [simpl; intuition discriminate|].
  destruct (send_all_notifications w _); intros _; exact Hne.
Qed.

(** X24.  Whenever a run attempts the notification, it also attempts to
    save the forecast afterwards, whether the notification succeeded,
    returned without sending or raised. *)
Theorem notified_forecast_is_saved :
  In SendNotifications (events (main w)) -> In SaveWeather (events (main w)).
Proof.
  rewrite main_started.
  pose proof forecast_stage_notified as Hn.
  pose proof (forecast_stage_events w) as H1.
  destruct (forecast_stage w) as [[df_fc errors1] events1].
  pose proof (persist_stage_events w df_fc) as H2.
  unfold persist_stage in *.
  simpl in Hn.
  destruct (df_empty df_fc) eqn:Hne.
  - simpl. intros Hin. apply in_app_or in Hin. destruct Hin as [Hin|Hin].
    + specialize (Hn Hin). discriminate.
    + simpl in Hin. intuition discriminate.
  - intros _.
    destruct (load_weather_data (execute w) df_fc);
      [destruct (load_frost_warnings (execute w) (now w) df_fc (run_id w))|];
      simpl; apply in_or_app; right; left; reflexivity.
Qed.

(** X25.  Every error that a run records comes from one of three places: the
    forecast part raised (the fetch, the reading of the clock in the
    configured time zone, or the transformation), the notification call
    raised, or a database write raised.  The analysis and the selection of
    the warning rows never add one. *)
Theorem recorded_errors_have_three_origins (error : string) :
  In error (errors (main w)) ->
  (exists e : exn,
     error = prognos_error e /\
     (fetch_forecast w = Raise e \/
      (exists json_data : forecast_json,
         fetch_forecast w = Ok json_data /\ issue_time_local w = Raise e) \/
      (exists (json_data : forecast_json) (issue_time : Z),
         fetch_forecast w = Ok json_data /\ issue_time_local w = Ok issue_time /\
         fst (transform_hourly_json json_data "forecast" (Some issue_time) (run_id w))
         = Raise e))) \/
  (exists (e : exn) (warnings_only : DataFrame),
     error = notification_error e /\ send_all_notifications w warnings_only = Raise e) \/
  (exists (e : exn) (df_fc : DataFrame),
     error = database_error e /\
     (load_weather_data (execute w) df_fc = Raise e \/
      load_frost_warnings (execute w) (now w) df_fc (run_id w) = Raise e)).
Proof.
  rewrite main_started.
  assert (H1 : forall error1 : string,
            In error1 (snd (fst (forecast_stage w))) ->
            (exists e : exn,
               error1 = prognos_error e /\
               (fetch_forecast w = Raise e \/
                (exists json_data : forecast_json,
                   fetch_forecast w = Ok json_data /\ issue_time_local w = Raise e) \/
                (exists (json_data : forecast_json) (issue_time : Z),
                   fetch_forecast w = Ok json_data /\
                   issue_time_local w = Ok issue_time /\
                   fst (transform_hourly_json json_data "forecast" (Some issue_time)
                          (run_id w)) = Raise e))) \/
            (exists (e : exn) (warnings_only : DataFrame),
               error1 = notification_error e /\
               send_all_notifications w warnings_only = Raise e)).
  { intros error1. unfold forecast_stage.
    destruct (fetch_forecast w) as [json_data|e] eqn:Ef.
    2: { simpl. intros [<-|[]]. left. exists e. split; [reflexivity|]. left. reflexivity. }
    destruct (issue_time_local w) as [issue_time|e] eqn:Ei.
    2: { simpl. intros [<-|[]]. left. exists e. split; [reflexivity|]. right. left.
         exists json_data. split; reflexivity. }
    destruct (fst (transform_hourly_json json_data "forecast" (Some issue_time) (run_id w)))
      as [df|e] eqn:Et.
    2: { simpl. intros [<-|[]]. left. exists e. split; [reflexivity|]. right. right.
         exists json_data, issue_time. split; [reflexivity|]. split; [reflexivity|exact Et]. }
    destruct (select_after_analysis json_data issue_time df Et) as (warnings_only & ->).
    destruct (df_empty warnings_only); [intros []|].
    destruct (send_all_notifications w warnings_only) as [res|e] eqn:Es; [intros []|].
    simpl. intros [<-|[]]. right. exists e, warnings_only. split; [reflexivity|exact Es]. }
  assert (H2 : forall (df_fc : DataFrame) (error2 : string),
            In error2 (fst (persist_stage w df_fc)) ->
            exists e : exn,
              error2 = database_error e /\
              (load_weather_data (execute w) df_fc = Raise e \/
               load_frost_warnings (execute w) (now w) df_fc (run_id w) = Raise e)).
  { intros df_fc error2. unfold persist_stage.
    destruct (df_empty df_fc); [intros []|].
    destruct (load_weather_data (execute w) df_fc) as [x|e] eqn:Ew.
    - destruct (load_frost_warnings (execute w) (now w) df_fc (run_id w)) as [y|e] eqn:El;
        [intros []|].
      simpl. intros [<-|[]]. exists e. split; [reflexivity|right; reflexivity].
    - simpl. intros [<-|[]]. exists e. split; [reflexivity|left; reflexivity]. }
  destruct (forecast_stage w) as [[df_fc errors1] events1].
  specialize (H2 df_fc).
  destruct (persist_stage w df_fc) as [errors2 events2].
  simpl in *. intros Hin. apply in_app_or in Hin. destruct Hin as [Hin|Hin].
  - destruct (H1 error Hin) as [H|H]; [left|right; left]; exact H.
  - right. right. destruct (H2 error Hin) as (e & He). exists e, df_fc. exact He.
Qed.

End RunStages.

Lemma heartbeat_closes_the_run_witness :
  exists stages : list Orchestrator.event,
    Orchestrator.events (Orchestrator.main Examples.frost_world)
    = (Orchestrator.FetchForecast :: stages ++ [Orchestrator.WriteHeartbeat])%list.
Proof.
  destruct (heartbeat_closes_the_run Examples.frost_world eq_refl ltac:(discriminate)
              eq_refl eq_refl) as (stages & H & _).
  exists stages. exact H.
Defined.

Lemma failed_fetch_saves_nothing_witness :
  Orchestrator.events (Orchestrator.main Examples.offline_world)
  = [Orchestrator.FetchForecast; Orchestrator.WriteHeartbeat].
Proof.
  apply (failed_fetch_saves_nothing Examples.offline_world eq_refl ltac:(discriminate)
           eq_refl eq_refl
           (PyErr "ConnectionError" "Max retries exceeded with url: /v1/forecast")).
  left. reflexivity.
Defined.

Lemma notified_forecast_is_saved_witness :
  In Orchestrator.SaveWeather (Orchestrator.events (Orchestrator.main Examples.frost_world)).
Proof.
  apply (notified_forecast_is_saved Examples.frost_world eq_refl ltac:(discriminate)
           eq_refl eq_refl).
  vm_compute. tauto.
Defined.

Lemma recorded_errors_have_three_origins_witness :
  exists e : exn,
    "Databas-sparning misslyckades: attempt to write a readonly database"
    = Orchestrator.database_error e.
Proof.
  destruct (recorded_errors_have_three_origins Examples.readonly_world eq_refl
              ltac:(discriminate) eq_refl eq_refl
              "Databas-sparning misslyckades: attempt to write a readonly database")
    as [(e & He & _)|[(e & df & He & _)|H]].
  - vm_compute. left. reflexivity.
  - destruct e as [kind text]. discriminate.
  - destruct e as [kind text]. discriminate.
  - destruct H as (e & df_fc & He & _). exists e. exact He.
Defined.

(** ** The loaders, continued *)

Section Writes.

Import Pipeline.

Lemma insert_all_outcome (execute : engine) (stmt : statement) (records : list Row) :
  (forall written : list Row,
     insert_all execute stmt records = Ok written ->
     written = List.filter (fun rec => bool_decide (execute stmt rec = None)) records /\
     forall (rec : Row) (text : string),
       In rec records -> execute stmt rec = Some text ->
       contains "UNIQUE constraint failed" text = true) /\
  (forall e : exn,
     insert_all execute stmt records = Raise e ->
     exists (rec : Row) (text : string),
       In rec records /\ execute stmt rec = Some text /\
       contains "UNIQUE constraint failed" text = false /\
       e = PyErr "Exception" text).
Proof.
  induction records as [|rec rest [IHok IHraise]]; simpl.
  - split.
    + intros written E. injection E as <-. split; [reflexivity|]. intros rec text [].
    + discriminate.
  - destruct (execute stmt rec) as [text|] eqn:Ex.
    + destruct (contains "UNIQUE constraint failed" text) eqn:Ec.
      * split.
        -- intros written E. destruct (IHok written E) as [-> Hu].
           rewrite bool_decide_eq_false_2 by discriminate.
           split; [reflexivity|].
           intros rec' text' [<-|Hin] Hx; [congruence|exact (Hu rec' text' Hin Hx)].
        -- intros e E. destruct (IHraise e E) as (rec' & text' & Hin & H).
           exists rec', text'. split; [right; exact Hin|exact H].
      * split; [discriminate|].
        intros e E. injection E as <-. exists rec, text.
        split; [left; reflexivity|]. repeat split; assumption.
    + rewrite bool_decide_eq_true_2 by reflexivity. split.
      * intros written E.
        destruct (insert_all execute stmt rest) as [written'|e]; [|discriminate].
        simpl in E. injection E as <-. destruct (IHok written' eq_refl) as [-> Hu].
        split; [reflexivity|].
        intros rec' text' [<-|Hin] Hx; [congruence|exact (Hu rec' text' Hin Hx)].
      * intros e E.
        destruct (insert_all execute stmt rest) as [written'|e']; [discriminate|].
        simpl in E. injection E as <-. destruct (IHraise e' eq_refl) as (rec' & text' & Hin & H).
        exists rec', text'. split; [right; exact Hin|exact H].
Qed.

(** X26.  The write loop skips exactly the records that the database
    refuses with a text containing "UNIQUE constraint failed": when it
    completes, the records written are the accepted ones, in their order, and
    every refusal was of that kind; it raises only for a refusal of another
    kind, with that refusal's text. *)
Theorem write_loop_skips_unique_violations (execute : engine) (stmt : statement)
    (records : list Row) :
  (forall written : list Row,
     insert_all execute stmt records = Ok written ->
     written = List.filter (fun rec => bool_decide (execute stmt rec = None)) records /\
     forall (rec : Row) (text : string),
       In rec records -> execute stmt rec = Some text ->
       contains "UNIQUE constraint failed" text = true) /\
  (forall e : exn,
     insert_all execute stmt records = Raise e ->
     exists (rec : Row) (text : string),
       In rec records /\ execute stmt rec = Some text /\
       contains "UNIQUE constraint failed" text = false /\
       e = PyErr "Exception" text).
Proof. apply insert_all_outcome. Qed.

Lemma write_loop_skips_unique_violations_witness :
  insert_all
    (fun _ rec => if bool_decide (valid_time rec = Some 1735689600%Z)
                  then Some "UNIQUE constraint failed: weather_hourly.valid_time"
                  else None)
    INSERT_WEATHER_SQL [blank_row (Some 1735689600%Z); blank_row (Some 1735693200%Z)]
  = Ok [blank_row (Some 1735693200%Z)].
Proof.
  destruct (insert_all
              (fun _ rec => if bool_decide (valid_time rec = Some 1735689600%Z)
                            then Some "UNIQUE constraint failed: weather_hourly.valid_time"
                            else None)
              INSERT_WEATHER_SQL
              [blank_row (Some 1735689600%Z); blank_row (Some 1735693200%Z)])
    as [written|e] eqn:E; [|vm_compute in E; discriminate].
  destruct (proj1 (write_loop_skips_unique_violations _ _ _) written E) as [-> _].
  reflexivity.
Defined.

(** X27.  The number that the weather write returns is the number of
    records handed to the database, which is never less than the number of
    rows written and exceeds it by the records skipped for a UNIQUE
    constraint. *)
Theorem weather_count_includes_skipped (execute : engine) (df : DataFrame) (n : nat)
    (written : list Row) :
  load_weather_data execute df = Ok (n, written) ->
  (length written <= n)%nat /\
  (df_empty df = false ->
   exists records : list Row,
     weather_records df = Ok records /\ n = length records /\
     written
     = List.filter (fun rec => bool_decide (execute INSERT_WEATHER_SQL rec = None)) records).
Proof.
  unfold load_weather_data. destruct (df_empty df).
  - intros E. injection E as <- <-. split; [reflexivity|discriminate].
  - destruct (weather_records df) as [records|e]; [|discriminate].
    cbn [mbind result_bind].
    destruct (insert_all execute INSERT_WEATHER_SQL records) as [written'|e] eqn:Ei;
      [|discriminate].
    cbn [mbind result_bind]. intros E. injection E as <- <-.
    destruct (proj1 (insert_all_outcome execute INSERT_WEATHER_SQL records) written' Ei)
      as [-> _].
    split.
    + apply filter_length_le.
    + intros _. exists records. repeat split.
Qed.


Lemma weather_count_includes_skipped_witness :
  exists (n : nat) (written : list Row),
    load_weather_data
      (fun _ rec => if bool_decide (valid_time rec = Some 1735689600%Z)
                    then Some "UNIQUE constraint failed: weather_hourly.valid_time"
                    else None)
      (mkDataFrame ["valid_time"]
         [blank_row (Some 1735689600%Z); blank_row (Some 1735693200%Z)])
    = Ok (n, written) /\
    (length written <= n)%nat.
Proof.
  eexists. eexists. split; [vm_compute; reflexivity|].
  refine (proj1 (weather_count_includes_skipped
                   (fun _ rec => if bool_decide (valid_time rec = Some 1735689600%Z)
                                 then Some "UNIQUE constraint failed: weather_hourly.valid_time"
                                 else None)
                   (mkDataFrame ["valid_time"]
                      [blank_row (Some 1735689600%Z); blank_row (Some 1735693200%Z)])
                   _ _ _)).
  vm_compute. reflexivity.
Defined.

End Writes.

Section OneRecordPerHour.

Import Pipeline.

Lemma weather_records_deduplicated (df : DataFrame) :
  has_column "forecast_issue_time" df = true -> has_column "valid_time" df = true ->
  (exists r : Row, In r (rows df) /\ forecast_issue_time r <> None) ->
  weather_records df = Ok (deduplicated (rows df)).
Proof.
  intros Hi Hv (r & Hr & Hissue). unfold weather_records. rewrite Hi.
  assert (Hall : forallb (fun r => isna (forecast_issue_time r)) (rows df) = false).
  { destruct (forallb _ (rows df)) eqn:E; [|reflexivity].
    rewrite forallb_forall in E. specialize (E r Hr).
    destruct (forecast_issue_time r); [discriminate|contradiction]. }
  rewrite Hall. simpl. rewrite (deduplicate_ok df Hv). reflexivity.
Qed.

(** X28.  When the table lists valid_time and forecast_issue_time and some
    row has an issue time, the weather write hands over one record per
    valid time: the records' valid times are the different valid times
    present in the table, in strictly ascending order (rows without a valid
    time give no record), and each record carries the latest issue time
    among the rows of its valid time: its issue time is the issue time of
    one of those rows, and no row of that valid time has a later one. *)
Theorem weather_records_one_per_hour (df : DataFrame) :
  has_column "forecast_issue_time" df = true -> has_column "valid_time" df = true ->
  (exists r : Row, In r (rows df) /\ forecast_issue_time r <> None) ->
  exists (records : list Row) (keys : list Z),
    weather_records df = Ok records /\
    map valid_time records = map Some keys /\
    StronglySorted Z.lt keys /\
    (forall k : Z, In k keys <-> exists r : Row, In r (rows df) /\ valid_time r = Some k) /\
    (forall (r r0 : Row) (k t0 : Z),
       In r records -> valid_time r = Some k ->
       In r0 (rows df) -> valid_time r0 = Some k -> forecast_issue_time r0 = Some t0 ->
       exists t : Z, forecast_issue_time r = Some t /\ (t0 <= t)%Z) /\
    (forall (r : Row) (k t : Z),
       In r records -> valid_time r = Some k -> forecast_issue_time r = Some t ->
       exists r0 : Row,
         In r0 (rows df) /\ valid_time r0 = Some k /\ forecast_issue_time r0 = Some t).
Proof.
  intros Hi Hv Hsome.
  exists (deduplicated (rows df)), (group_keys (rows df)).
  split; [exact (weather_records_deduplicated df Hi Hv Hsome)|].
  split; [apply deduplicated_keys|].
  split; [apply group_keys_sorted|].
  split; [intros k; apply group_keys_In|].
  split.
  - intros r r0 k t0 Hr Hk Hr0 Hk0 Ht0.
    exact (proj1 (deduplicated_latest_issue (rows df) r k Hr Hk) r0 t0 Hr0 Hk0 Ht0).
  - intros r k t Hr Hk Ht.
    exact (proj2 (deduplicated_latest_issue (rows df) r k Hr Hk) t Ht).
Qed.

Lemma weather_records_one_per_hour_witness :
  exists (records : list Row) (keys : list Z),
    weather_records Examples.overlapping_forecasts = Ok records /\
    map valid_time records = map Some keys /\
    StronglySorted Z.lt keys.
Proof.
  destruct (weather_records_one_per_hour Examples.overlapping_forecasts eq_refl eq_refl)
    as (records & keys & H1 & H2 & H3 & _).
  - eexists. split; [left; reflexivity|]. discriminate.
  - exists records, keys. repeat split; assumption.
Defined.

Lemma first_valid_single {A : Type} (f : Row -> option A) (r : Row) :
  first_valid f [r] = f r.
Proof. simpl. destruct (f r); reflexivity. Qed.

Lemma group_first_single (k : Z) (r : Row) :
  valid_time r = Some k -> group_first k [r] = r.
Proof.
  intros Hk. unfold group_first. rewrite !first_valid_single, <- Hk.
  destruct r. reflexivity.
Qed.

Lemma insert_key_below (k : Z) (l : list Z) :
  Forall (fun x => (k < x)%Z) l -> insert_key k l = k :: l.
Proof.
  intros H. destruct l as [|x l]; [reflexivity|].
  simpl. inversion H as [|? ? Hx _]; subst.
  apply Z.ltb_lt in Hx. rewrite Hx. reflexivity.
Qed.

Lemma filter_all_false {A : Type} (f : A -> bool) (l : list A) :
  (forall x : A, In x l -> f x = false) -> List.filter f l = [].
Proof.
  induction l as [|x l IH]; intros H; [reflexivity|].
  simpl. rewrite (H x (or_introl eq_refl)). apply IH.
  intros y Hy. apply H. right. exact Hy.
Qed.

(** A list that is strictly ascending in its valid times, all present, is
    its own deduplication. *)
Lemma groups_of_ascending (s : list Row) :
  StronglySorted
    (fun r1 r2 =>
       exists k1 k2 : Z, valid_time r1 = Some k1 /\ valid_time r2 = Some k2 /\ (k1 < k2)%Z) s ->
  (forall r : Row, In r s -> valid_time r <> None) ->
  map (fun k => group_first k (List.filter (in_group k) s)) (group_keys s) = s.
Proof.
  induction s as [|r s IH]; intros Hs Hp; [reflexivity|].
  apply StronglySorted_inv in Hs. destruct Hs as [Hs Hhd].
  rewrite List.Forall_forall in Hhd.
  assert (Hr : exists k : Z, valid_time r = Some k).
  { destruct (valid_time r) as [k|] eqn:E; [exists k; reflexivity|].
    exfalso. apply (Hp r); [left; reflexivity|exact E]. }
  destruct Hr as (k & Hk).
  assert (Habove : forall r' : Row,
            In r' s -> exists k' : Z, valid_time r' = Some k' /\ (k < k')%Z).
  { intros r' Hr'. destruct (Hhd r' Hr') as (k1 & k2 & H1 & H2 & Hlt).
    assert (k1 = k) by congruence. subst k1. exists k2. split; assumption. }
  assert (Hkeys : Forall (fun x => (k < x)%Z) (group_keys s)).
  { apply List.Forall_forall. intros x Hx. apply group_keys_In in Hx.
    destruct Hx as (r' & Hr' & Hv). destruct (Habove r' Hr') as (k' & Hv' & Hlt).
    assert (k' = x) by congruence. subst k'. exact Hlt. }
  change (group_keys (r :: s))
    with (match valid_time r with
          | Some k0 => insert_key k0 (group_keys s)
          | None => group_keys s
          end).
  rewrite Hk, (insert_key_below k _ Hkeys). cbn [map]. f_equal.
  - assert (Hin : in_group k r = true)
      by (unfold in_group; apply bool_decide_eq_true_2; exact Hk).
    cbn [List.filter]. rewrite Hin.
    rewrite (filter_all_false (in_group k) s).
    + apply group_first_single. exact Hk.
    + intros r' Hr'. destruct (Habove r' Hr') as (k' & Hv' & Hlt).
      unfold in_group. apply bool_decide_eq_false_2. rewrite Hv'. intros E.
      injection E as ->. lia.
  - transitivity (map (fun k0 => group_first k0 (List.filter (in_group k0) s)) (group_keys s)).
    + apply map_ext_in. intros k' Hk'.
      rewrite List.Forall_forall in Hkeys. specialize (Hkeys k' Hk').
      assert (Hout : in_group k' r = false).
      { unfold in_group. apply bool_decide_eq_false_2. rewrite Hk. intros E.
        injection E as ->. lia. }
      cbn [List.filter]. rewrite Hout. reflexivity.
    + apply IH; [exact Hs|]. intros r' Hr'. apply Hp. right. exact Hr'.
Qed.

Lemma ascending_of_sorted (s : list Row) :
  StronglySorted sorted_before s ->
  List.NoDup (map valid_time s) ->
  (forall r : Row, In r s -> valid_time r <> None) ->
  StronglySorted
    (fun r1 r2 =>
       exists k1 k2 : Z, valid_time r1 = Some k1 /\ valid_time r2 = Some k2 /\ (k1 < k2)%Z) s.
Proof.
  induction s as [|r s IH]; intros Hs Hnd Hp; [constructor|].
  apply StronglySorted_inv in Hs. destruct Hs as [Hs Hhd].
  simpl in Hnd. apply List.NoDup_cons_iff in Hnd. destruct Hnd as [Hnotin Hnd].
  constructor.
  - apply IH; [exact Hs|exact Hnd|]. intros r' Hr'. apply Hp. right. exact Hr'.
  - rewrite List.Forall_forall in *. intros r' Hr'.
    specialize (Hhd r' Hr').
    assert (H1 : valid_time r <> None) by (apply Hp; left; reflexivity).
    assert (H2 : valid_time r' <> None) by (apply Hp; right; exact Hr').
    assert (Hneq : valid_time r <> valid_time r').
    { intros E. apply Hnotin. rewrite E. apply in_map. exact Hr'. }
    destruct (valid_time r) as [k1|] eqn:E1; [|contradiction].
    destruct (valid_time r') as [k2|] eqn:E2; [|contradiction].
    exists k1, k2. split; [reflexivity|]. split; [reflexivity|].
    unfold sorted_before, sort_compare, compare_na_last in Hhd.
    rewrite E1, E2 in Hhd.
    destruct (Z.compare_spec k1 k2) as [Heq|Hlt|Hgt].
    + subst. contradiction.
    + exact Hlt.
    + exfalso. apply Hhd. reflexivity.
Qed.

Lemma deduplicated_distinct (l : list Row) :
  List.NoDup (map valid_time l) ->
  (forall r : Row, In r l -> valid_time r <> None) ->
  deduplicated l
  = sort_values (map (fun r => set_forecast_issue_datetime (forecast_issue_time r) r) l).
Proof.
  intros Hnd Hp. unfold deduplicated. cbv zeta.
  set (f := fun r => set_forecast_issue_datetime (forecast_issue_time r) r).
  assert (Hperm : Permutation (sort_values (map f l)) (map f l)) by apply sort_values_perm.
  assert (Hkeys : map valid_time (map f l) = map valid_time l)
    by (rewrite map_map; reflexivity).
  apply groups_of_ascending.
  - apply ascending_of_sorted.
    + apply sort_values_sorted.
    + apply (Permutation_NoDup (l := map valid_time (map f l))).
      * apply Permutation_map. apply Permutation_sym. exact Hperm.
      * rewrite Hkeys. exact Hnd.
    + intros r Hr. apply (Permutation_in _ Hperm) in Hr.
      apply in_map_iff in Hr. destruct Hr as (r0 & <- & Hr0). exact (Hp r0 Hr0).
  - intros r Hr. apply (Permutation_in _ Hperm) in Hr.
    apply in_map_iff in Hr. destruct Hr as (r0 & <- & Hr0). exact (Hp r0 Hr0).
Qed.

(** X29.  When every row has a valid time and no valid time occurs twice,
    the deduplication of the weather write loses and merges nothing: the
    records handed to the database are the rows of the table, each with all
    its cells, reordered by ascending valid time. *)
Theorem distinct_hours_are_all_written (df : DataFrame) :
  has_column "forecast_issue_time" df = true -> has_column "valid_time" df = true ->
  (exists r : Row, In r (rows df) /\ forecast_issue_time r <> None) ->
  List.NoDup (map valid_time (rows df)) ->
  (forall r : Row, In r (rows df) -> valid_time r <> None) ->
  exists records : list Row,
    weather_records df = Ok records /\
    Permutation records
      (map (fun r => set_forecast_issue_datetime (forecast_issue_time r) r) (rows df)) /\
    StronglySorted
      (fun r1 r2 =>
         exists k1 k2 : Z, valid_time r1 = Some k1 /\ valid_time r2 = Some k2 /\ (k1 < k2)%Z)
      records.
Proof.
  intros Hi Hv Hsome Hnd Hp.
  exists (deduplicated (rows df)).
  split; [exact (weather_records_deduplicated df Hi Hv Hsome)|].
  rewrite (deduplicated_distinct (rows df) Hnd Hp).
  set (f := fun r => set_forecast_issue_datetime (forecast_issue_time r) r).
  assert (Hperm : Permutation (sort_values (map f (rows df))) (map f (rows df)))
    by apply sort_values_perm.
  split; [exact Hperm|].
  apply ascending_of_sorted.
  - apply sort_values_sorted.
  - apply (Permutation_NoDup (l := map valid_time (map f (rows df)))).
    + apply Permutation_map. apply Permutation_sym. exact Hperm.
    + rewrite map_map. exact Hnd.
  - intros r Hr. apply (Permutation_in _ Hperm) in Hr.
    apply in_map_iff in Hr. destruct Hr as (r0 & <- & Hr0). exact (Hp r0 Hr0).
Qed.

Lemma distinct_hours_are_all_written_witness :
  exists records : list Row,
    weather_records
      (mkDataFrame transform_columns
         [set_forecast_issue_time (Some 1735680000%Z) (blank_row (Some 1735693200%Z));
          set_forecast_issue_time (Some 1735680000%Z) (blank_row (Some 1735689600%Z))])
    = Ok records /\
    Permutation records
      (map (fun r => set_forecast_issue_datetime (forecast_issue_time r) r)
         [set_forecast_issue_time (Some 1735680000%Z) (blank_row (Some 1735693200%Z));
          set_forecast_issue_time (Some 1735680000%Z) (blank_row (Some 1735689600%Z))]).
Proof.
  destruct (distinct_hours_are_all_written
              (mkDataFrame transform_columns
                 [set_forecast_issue_time (Some 1735680000%Z)
                    (blank_row (Some 1735693200%Z));
                  set_forecast_issue_time (Some 1735680000%Z)
                    (blank_row (Some 1735689600%Z))])
              eq_refl eq_refl)
    as (records & H1 & H2 & _).
  - eexists. split; [left; reflexivity|]. discriminate.
  - apply List.NoDup_cons; [simpl; intuition discriminate|].
    apply List.NoDup_cons; [simpl; tauto|]. apply List.NoDup_nil.
  - intros r [<-|[<-|[]]]; discriminate.
  - exists records. split; assumption.
Defined.

End OneRecordPerHour.

(** ** The risk level of the mail *)

Section MailRisk.

Import Sms Email.

Lemma existsb_filter {A : Type} (p q : A -> bool) (l : list A) :
  existsb q (List.filter p l) = existsb (fun x => p x && q x) l.
Proof.
  induction l as [|x l IH]; [reflexivity|].
  simpl. destruct (p x); simpl; rewrite IH; reflexivity.
Qed.

Lemma window_reaches (now : Q) (n : Z) (l : list Row) :
  existsb (fun r => in_next_24h now r && risk_reaches n r) l = true <->
  exists (r : Row) (t m : Z),
    In r l /\ valid_time r = Some t /\
    (now <= inject_Z t)%Q /\ (inject_Z t <= now + inject_Z (24 * 3600))%Q /\
    frost_risk_numeric r = Some m /\ (n <= m)%Z.
Proof.
  rewrite existsb_exists. split.
  - intros (r & Hr & H). apply andb_true_iff in H. destruct H as [Hw Hn].
    unfold in_next_24h in Hw. unfold risk_reaches in Hn.
    destruct (valid_time r) as [t|] eqn:Et; [|discriminate].
    destruct (frost_risk_numeric r) as [m|] eqn:Em; [|discriminate].
    apply andb_true_iff in Hw. destruct Hw as [H1 H2].
    apply Qle_bool_iff in H1. apply Qle_bool_iff in H2. apply Z.leb_le in Hn.
    exists r, t, m. repeat split; assumption.
  - intros (r & t & m & Hr & Et & H1 & H2 & Em & Hn). exists r. split; [exact Hr|].
    unfold in_next_24h, risk_reaches. rewrite Et, Em.
    apply andb_true_iff. split; [apply andb_true_iff; split|].
    + apply Qle_bool_iff. exact H1.
    + apply Qle_bool_iff. exact H2.
    + apply Z.leb_le. exact Hn.
Qed.

(** X30.  The level that the mail names is that of the highest risk number
    among the rows whose valid time [t] lies between now and 24 hours from
    now, both ends included (now <= t <= now + 24 * 3600 seconds): "hög"
    when such a row reaches 3, else "medel" when one reaches 2, else "låg"
    when one reaches 1, else "ingen".  Rows outside that window, however
    high their risk, and rows without a valid time or a risk number do not
    count. *)
Theorem mail_level_counts_only_next_24h (now : Q) (warnings_df : DataFrame) :
  df_empty warnings_df = false ->
  has_column "valid_time" warnings_df = true ->
  has_column "frost_risk_numeric" warnings_df = true ->
  let reached := fun n : Z =>
    exists (r : Row) (t m : Z),
      In r (rows warnings_df) /\ valid_time r = Some t /\
      (now <= inject_Z t)%Q /\ (inject_Z t <= now + inject_Z (24 * 3600))%Q /\
      frost_risk_numeric r = Some m /\ (n <= m)%Z in
  exists level : string,
    get_highest_risk_next_24h now warnings_df = Ok level /\
    (reached 3%Z -> level = "hög") /\
    (~ reached 3%Z -> reached 2%Z -> level = "medel") /\
    (~ reached 2%Z -> reached 1%Z -> level = "låg") /\
    (~ reached 1%Z -> level = "ingen").
Proof.
  intros Hne Hv Hn reached.
  assert (Hlevel : get_highest_risk_next_24h now warnings_df
            = Ok (if existsb (fun r => in_next_24h now r && risk_reaches 3 r)
                            (rows warnings_df)
                  then "hög"
                  else if existsb (fun r => in_next_24h now r && risk_reaches 2 r)
                                  (rows warnings_df)
                  then "medel"
                  else if existsb (fun r => in_next_24h now r && risk_reaches 1 r)
                                  (rows warnings_df)
                  then "låg"
                  else "ingen")).
  { unfold get_highest_risk_next_24h, require_column.
    rewrite Hne, Hv, Hn. cbn [mbind result_bind].
    rewrite <- !existsb_filter.
    destruct (List.filter (in_next_24h now) (rows warnings_df)) as [|r rest] eqn:E;
      [reflexivity|].
    cbn [is_nil]. rewrite !max_risk_reaches. reflexivity. }
  eexists. split; [exact Hlevel|].
  pose proof (window_reaches now 3 (rows warnings_df)) as W3.
  pose proof (window_reaches now 2 (rows warnings_df)) as W2.
  pose proof (window_reaches now 1 (rows warnings_df)) as W1.
  fold (reached 3%Z) in W3. fold (reached 2%Z) in W2. fold (reached 1%Z) in W1.
  destruct (existsb (fun r => in_next_24h now r && risk_reaches 3 r) (rows warnings_df));
    [|destruct (existsb (fun r => in_next_24h now r && risk_reaches 2 r)
                  (rows warnings_df));
      [|destruct (existsb (fun r => in_next_24h now r && risk_reaches 1 r)
                    (rows warnings_df))]].
  - assert (R3 : reached 3%Z) by (apply W3; reflexivity).
    assert (R2 : reached 2%Z).
    { destruct R3 as (r & t & m & H). exists r, t, m.
      repeat split; try apply H. destruct H as (_ & _ & _ & _ & _ & H). lia. }
    assert (R1 : reached 1%Z).
    { destruct R3 as (r & t & m & H). exists r, t, m.
      repeat split; try apply H. destruct H as (_ & _ & _ & _ & _ & H). lia. }
    repeat split; intros; first [reflexivity|contradiction].
  - assert (N3 : ~ reached 3%Z) by (intros H; apply W3 in H; discriminate).
    assert (R2 : reached 2%Z) by (apply W2; reflexivity).
    assert (R1 : reached 1%Z).
    { destruct R2 as (r & t & m & H). exists r, t, m.
      repeat split; try apply H. destruct H as (_ & _ & _ & _ & _ & H). lia. }
    repeat split; intros; first [reflexivity|contradiction].
  - assert (N3 : ~ reached 3%Z) by (intros H; apply W3 in H; discriminate).
    assert (N2 : ~ reached 2%Z) by (intros H; apply W2 in H; discriminate).
    assert (R1 : reached 1%Z) by (apply W1; reflexivity).
    repeat split; intros; first [reflexivity|contradiction].
  - assert (N3 : ~ reached 3%Z) by (intros H; apply W3 in H; discriminate).
    assert (N2 : ~ reached 2%Z) by (intros H; apply W2 in H; discriminate).
    assert (N1 : ~ reached 1%Z) by (intros H; apply W1 in H; discriminate).
    repeat split; intros; first [reflexivity|contradiction].
Qed.

(** The warning of [one_warning] lies exactly 24 hours after the clock and
    counts; with the clock half a second earlier it lies outside the window. *)
Lemma mail_level_counts_only_next_24h_witness :
  get_highest_risk_next_24h 1703980800%Q Examples.one_warning = Ok "hög" /\
  get_highest_risk_next_24h 1703980799.5%Q Examples.one_warning = Ok "ingen".
Proof.
  split.
  - destruct (mail_level_counts_only_next_24h 1703980800%Q Examples.one_warning
                eq_refl eq_refl eq_refl) as (level & Hlevel & H3 & _).
    rewrite Hlevel. f_equal. apply H3.
    eexists. exists 1704067200%Z, 3%Z.
    split; [left; reflexivity|]. split; [reflexivity|].
    split; [vm_compute; discriminate|]. split; [vm_compute; discriminate|].
    split; [reflexivity|lia].
  - destruct (mail_level_counts_only_next_24h 1703980799.5%Q Examples.one_warning
                eq_refl eq_refl eq_refl) as (level & Hlevel & _ & _ & _ & H0).
    rewrite Hlevel. f_equal. apply H0.
    intros (r & t & m & [<-|[]] & Et & _ & Hend & _).
    injection Et as <-. revert Hend. vm_compute. intros H. apply H. reflexivity.
Defined.

End MailRisk.
